(** * sass-isa-ast: the operand classifier and the instruction and statement
    parsers of [sass_isa_ast/ast.py] and [sass_isa_ast/sass_ast.py].

    The two Python modules are embedded shallowly.  A Python [str] is a Rocq
    [string] whose characters are read as the code points 0..255; the
    character classes of [re] and of the [str] methods below are the Unicode
    ones restricted to that range.  A raised exception is a value [Raise e]
    of the type [result]; only the exception class is kept, not its message.
    The interpreter's recursion limit and its limit on the number of digits
    [int] converts are not modelled: [RecursionError] below is the exhaustion
    of the bound the model puts on the recursion of the classifier, which is
    proved never to happen. *)

From Stdlib Require Import String Ascii List ZArith Bool Lia.
From Stdlib Require DecimalString DecimalNat.
Import ListNotations.
Local Open Scope string_scope.

Set Implicit Arguments.

(** ** Exceptions *)

Inductive exn : Type :=
| ValueError
| IndexError
| AttributeError
| AssertionError
| RecursionError.

Inductive result (A : Type) : Type :=
| Ok (a : A)
| Raise (e : exn).

Arguments Ok {A} a.
Arguments Raise {A} e.

Definition bind {A B : Type} (c : result A) (k : A -> result B) : result B :=
  match c with
  | Ok a => k a
  | Raise e => Raise e
  end.

Notation "x <- c ;; k" := (bind c (fun x => k))
  (at level 61, c at next level, right associativity).

(** [for a in xs: acc.append(f(a))]: the first exception stops the loop. *)
Fixpoint mapM {A B : Type} (f : A -> result B) (xs : list A) : result (list B) :=
  match xs with
  | [] => Ok []
  | x :: xs' => y <- f x ;; ys <- mapM f xs' ;; Ok (y :: ys)
  end.

(** ** Characters *)

Module Chr.

Definition code (c : ascii) : nat := nat_of_ascii c.

Definition between (lo hi : nat) (c : ascii) : bool :=
  (lo <=? code c)%nat && (code c <=? hi)%nat.

Definition one_of (cs : string) (c : ascii) : bool :=
  existsb (Ascii.eqb c) (list_ascii_of_string cs).

(** [\d], and the digits [int] accepts. *)
Definition isdigit (c : ascii) : bool := between 48 57 c.

(** [str.isspace], which is also [\s] and the separator of [str.split()]:
    TAB LF VT FF CR, FS GS RS US, SPACE, NEL, NBSP. *)
Definition isspace (c : ascii) : bool :=
  between 9 13 c || between 28 31 c || (code c =? 32)%nat
  || (code c =? 133)%nat || (code c =? 160)%nat.

(** [\w]: alphanumeric code points and the underscore. *)
Definition isword (c : ascii) : bool :=
  between 48 57 c || between 65 90 c || (code c =? 95)%nat || between 97 122 c
  || (code c =? 170)%nat || (code c =? 178)%nat || (code c =? 179)%nat
  || (code c =? 181)%nat || (code c =? 185)%nat || (code c =? 186)%nat
  || between 188 190 c || between 192 214 c || between 216 246 c
  || between 248 255 c.

(** The blanks [int] strips: those of [isspace] except FS GS RS US. *)
Definition isspace_int (c : ascii) : bool :=
  between 9 13 c || (code c =? 32)%nat || (code c =? 133)%nat
  || (code c =? 160)%nat.

Definition newline : ascii := ascii_of_nat 10.

End Chr.

(** ** The [str] methods the source uses *)

Module Str.

Definition startswith (p s : string) : bool := String.prefix p s.

(** [sub in s] *)
Fixpoint contains (sub s : string) : bool :=
  if String.prefix sub s then true
  else match s with
       | EmptyString => false
       | String _ s' => contains sub s'
       end.

(** [s.replace(old, new)] for a non-empty [old]: the occurrences are taken
    left to right and do not overlap.  [skip] counts the characters of an
    occurrence that are still to be dropped. *)
Fixpoint replace_from (old new : string) (skip : nat) (s : string) : string :=
  match s with
  | EmptyString => EmptyString
  | String c s' =>
      match skip with
      | S k => replace_from old new k s'
      | O =>
          if String.prefix old s
          then new ++ replace_from old new (pred (String.length old)) s'
          else String c (replace_from old new 0 s')
      end
  end.

Definition replace (old new s : string) : string := replace_from old new 0 s.

(** [s.count(c)] for a one-character [c] *)
Fixpoint count (c : ascii) (s : string) : nat :=
  match s with
  | EmptyString => 0
  | String c' s' => (if Ascii.eqb c c' then 1 else 0) + count c s'
  end.

Fixpoint lstrip (chars s : string) : string :=
  match s with
  | EmptyString => EmptyString
  | String c s' => if Chr.one_of chars c then lstrip chars s' else s
  end.

Fixpoint rstrip (chars s : string) : string :=
  match s with
  | EmptyString => EmptyString
  | String c s' =>
      match rstrip chars s' with
      | EmptyString => if Chr.one_of chars c then EmptyString else String c EmptyString
      | r => String c r
      end
  end.

Definition strip (chars s : string) : string := rstrip chars (lstrip chars s).

(** [s.find(sub)]: the index of the first occurrence, or -1. *)
Fixpoint find_from (sub s : string) (i : Z) : Z :=
  if String.prefix sub s then i
  else match s with
       | EmptyString => (-1)%Z
       | String _ s' => find_from sub s' (i + 1)%Z
       end.

Definition find (sub s : string) : Z := find_from sub s 0%Z.

(** A slice bound, clipped as Python clips it. *)
Definition bound (len i : Z) : Z :=
  if (i <? 0)%Z then Z.max 0 (len + i) else Z.min i len.

(** [s[start:stop]]; [None] is an omitted bound. *)
Definition slice (s : string) (start stop : option Z) : string :=
  let len := Z.of_nat (String.length s) in
  let a := match start with None => 0%Z | Some i => bound len i end in
  let b := match stop with None => len | Some i => bound len i end in
  String.substring (Z.to_nat a) (Z.to_nat (b - a)) s.

(** [s[0]] *)
Definition first (s : string) : result ascii :=
  match s with
  | EmptyString => Raise IndexError
  | String c _ => Ok c
  end.

Definition endswith (suf s : string) : bool :=
  (String.length suf <=? String.length s)%nat
  && String.eqb (String.substring (String.length s - String.length suf)
                                  (String.length suf) s) suf.

Definition starts_word (s : string) : bool :=
  match s with
  | EmptyString => false
  | String c _ => negb (Chr.isspace c)
  end.

(** [s.split()]: the maximal runs of characters that are not blanks. *)
Fixpoint split (s : string) : list string :=
  match s with
  | EmptyString => []
  | String c s' =>
      if Chr.isspace c then split s'
      else if starts_word s'
           then match split s' with
                | t :: ts => String c t :: ts
                | [] => [String c EmptyString]
                end
           else String c EmptyString :: split s'
  end.

(** [s.split(sep)] for a one-character [sep]; never empty. *)
Fixpoint split_on (sep : ascii) (s : string) : list string :=
  match s with
  | EmptyString => [EmptyString]
  | String c s' =>
      if Ascii.eqb c sep then EmptyString :: split_on sep s'
      else match split_on sep s' with
           | t :: ts => String c t :: ts
           | [] => [String c EmptyString]
           end
  end.

(** ["0" * n] *)
Fixpoint times (s : string) (n : nat) : string :=
  match n with
  | O => EmptyString
  | S n' => s ++ times s n'
  end.

End Str.

(** ** [int(s)] in base ten *)

Module Int.

Definition digit_value (c : ascii) : Z := Z.of_nat (Chr.code c - 48).

(** The digits after the sign: at least one, with single underscores
    allowed between two digits.  [acc] is the value read so far and
    [after_digit] tells whether the previous character was a digit. *)
Fixpoint digits (acc : Z) (after_digit : bool) (s : string) : option Z :=
  match s with
  | EmptyString => if after_digit then Some acc else None
  | String c s' =>
      if Chr.isdigit c then digits (acc * 10 + digit_value c) true s'
      else if Ascii.eqb c "_" && after_digit
           then match s' with
                | String c' _ => if Chr.isdigit c' then digits acc false s' else None
                | EmptyString => None
                end
           else None
  end.

Fixpoint blanks (s : string) : string :=
  match s with
  | String c s' => if Chr.isspace_int c then blanks s' else s
  | EmptyString => EmptyString
  end.

Fixpoint rblanks (s : string) : string :=
  match s with
  | EmptyString => EmptyString
  | String c s' =>
      match rblanks s' with
      | EmptyString => if Chr.isspace_int c then EmptyString else String c EmptyString
      | r => String c r
      end
  end.

Definition int (s : string) : result Z :=
  let body := rblanks (blanks s) in
  let signed :=
    match body with
    | String "+" t => digits 0 false t
    | String "-" t => option_map Z.opp (digits 0 false t)
    | _ => digits 0 false body
    end in
  match signed with
  | Some z => Ok z
  | None => Raise ValueError
  end.

End Int.

(** ** Regular expressions

    The fragment of [re] the source's patterns are written in, with the
    backtracking semantics of [re]: alternatives are tried in the order they
    are written, repetitions are greedy, and a search returns the leftmost
    match.  Every repetition in the source repeats a character class. *)

Module Re.

Inductive regex : Type :=
| Lit (c : ascii)                      (* a literal character *)
| Cls (p : ascii -> bool)              (* a character class *)
| Cat (r1 r2 : regex)                  (* r1 r2 *)
| Alt (r1 r2 : regex)                  (* r1|r2 *)
| Opt (r : regex)                      (* r? *)
| Rep (n : nat) (p : ascii -> bool)    (* a class, at least [n] times *)
| Bol                                  (* ^ *)
| Eol                                  (* $ *)
| Wordb                                (* \b *)
| Behind (p : ascii -> bool)           (* (?<=x), one character *)
| NotBehind (p : ascii -> bool)        (* (?<!x), one character *)
| Grp (i : nat) (r : regex).           (* the capturing group number [i] *)

(** A literal string. *)
Fixpoint Str (s : string) : regex :=
  match s with
  | EmptyString => Rep 0 (fun _ => false)
  | String c EmptyString => Lit c
  | String c s' => Cat (Lit c) (Str s')
  end.

(** Where the matcher stands: the character before the position ([None] at
    the start of the string), the text from the position on, and the
    groups captured so far, the latest first. *)
Record state : Type := mkState {
  prev : option ascii;
  rest : string;
  caps : list (nat * string)
}.

Definition advance (c : ascii) (s' : string) (st : state) : state :=
  mkState (Some c) s' (caps st).

Definition word_at (o : option ascii) : bool :=
  match o with
  | Some c => Chr.isword c
  | None => false
  end.

Definition next (s : string) : option ascii :=
  match s with
  | String c _ => Some c
  | EmptyString => None
  end.

(** [$] matches at the end and before a newline that ends the string. *)
Definition at_end (s : string) : bool :=
  match s with
  | EmptyString => true
  | String c EmptyString => Ascii.eqb c Chr.newline
  | _ => false
  end.

(** The greedy repetition of a class: the longest run first, then shorter
    ones, never fewer than [n] characters. *)
Fixpoint rep (p : ascii -> bool) (n : nat) (pv : option ascii) (s : string)
         (cs : list (nat * string)) (k : state -> option state) : option state :=
  let stop := if (n =? 0)%nat then k (mkState pv s cs) else None in
  match s with
  | String c s' =>
      if p c
      then match rep p (pred n) (Some c) s' cs k with
           | Some m => Some m
           | None => stop
           end
      else stop
  | EmptyString => stop
  end.

Fixpoint exec (r : regex) (st : state) (k : state -> option state) : option state :=
  match r with
  | Lit c =>
      match rest st with
      | String c' s' => if Ascii.eqb c c' then k (advance c' s' st) else None
      | EmptyString => None
      end
  | Cls p =>
      match rest st with
      | String c' s' => if p c' then k (advance c' s' st) else None
      | EmptyString => None
      end
  | Cat r1 r2 => exec r1 st (fun st' => exec r2 st' k)
  | Alt r1 r2 =>
      match exec r1 st k with
      | Some m => Some m
      | None => exec r2 st k
      end
  | Opt r1 =>
      match exec r1 st k with
      | Some m => Some m
      | None => k st
      end
  | Rep n p => rep p n (prev st) (rest st) (caps st) k
  | Bol => match prev st with None => k st | Some _ => None end
  | Eol => if at_end (rest st) then k st else None
  | Wordb =>
      if xorb (word_at (prev st)) (word_at (next (rest st))) then k st else None
  | Behind p =>
      match prev st with
      | Some c => if p c then k st else None
      | None => None
      end
  | NotBehind p =>
      match prev st with
      | Some c => if p c then None else k st
      | None => k st
      end
  | Grp i r1 =>
      exec r1 st (fun st' =>
        let n := (String.length (rest st) - String.length (rest st'))%nat in
        k (mkState (prev st') (rest st')
                   ((i, String.substring 0 n (rest st)) :: caps st')))
  end.

(** A match at the position [pv]/[s], if there is one. *)
Definition match_at (r : regex) (pv : option ascii) (s : string) : option state :=
  exec r (mkState pv s []) Some.

(** [pattern.search(s)]: the leftmost match. *)
Fixpoint search_from (r : regex) (pv : option ascii) (s : string) : option state :=
  match match_at r pv s with
  | Some m => Some m
  | None =>
      match s with
      | String c s' => search_from r (Some c) s'
      | EmptyString => None
      end
  end.

Definition search (r : regex) (s : string) : option state := search_from r None s.

(** [m.group(i)]: [None] when the group took no part in the match. *)
Fixpoint lookup (i : nat) (cs : list (nat * string)) : option string :=
  match cs with
  | [] => None
  | (j, v) :: cs' => if (i =? j)%nat then Some v else lookup i cs'
  end.

Definition group (m : state) (i : nat) : option string := lookup i (caps m).

Definition matched (o : option state) : bool :=
  match o with Some _ => true | None => false end.

(** [re.sub(r, repl, s)] for a pattern that matches no empty string and a
    replacement without group references.  [skip] counts the characters of
    the last match that are still to be dropped. *)
Fixpoint sub_from (r : regex) (repl : string) (skip : nat) (pv : option ascii)
         (s : string) : string :=
  match s with
  | EmptyString => EmptyString
  | String c s' =>
      match skip with
      | S j => sub_from r repl j (Some c) s'
      | O =>
          match match_at r pv s with
          | Some m =>
              repl ++ sub_from r repl
                       (pred (String.length s - String.length (rest m))) (Some c) s'
          | None => String c (sub_from r repl 0 (Some c) s')
          end
      end
  end.

Definition sub (r : regex) (repl s : string) : string := sub_from r repl 0 None s.

End Re.

(** ** The compiled patterns *)

Module Pat.

Import Re.

Declare Scope regex_scope.
Delimit Scope regex_scope with regex.
Bind Scope regex_scope with regex.
Infix ">>" := Cat (at level 41, right associativity) : regex_scope.
Infix "//" := Alt (at level 51, right associativity) : regex_scope.
Local Open Scope regex_scope.

Definition digit : ascii -> bool := Chr.isdigit.                    (* \d *)
Definition word : ascii -> bool := Chr.isword.                      (* \w *)
Definition space : ascii -> bool := Chr.isspace.                    (* \s *)
Definition hex : ascii -> bool :=                                   (* [0-9a-f] *)
  fun c => Chr.between 48 57 c || Chr.between 97 102 c.
Definition not_rbracket : ascii -> bool :=                          (* [^]] *)
  fun c => negb (Ascii.eqb c "]").
Definition not_comma_space : ascii -> bool :=                       (* [^,\s] *)
  fun c => negb (Ascii.eqb c "," || Chr.isspace c).
Definition dot : ascii -> bool :=                                   (* . *)
  fun c => negb (Ascii.eqb c Chr.newline).

(** ast.py line 43 (there is no such pattern in sass_ast.py):
    [((?<=\.)((?P<selector>H[01]|B[0-3]|64)|(?P<CC>CC)))(.reuse)?$];
    [selector] is group 3 and [CC] is group 4. *)
Definition _REGISTER_PATTERN : regex :=
  Grp 1 (Behind (Ascii.eqb ".")
         >> Grp 2 (Grp 3 ((Lit "H" >> Cls (Chr.one_of "01"))
                           // (Lit "B" >> Cls (Chr.between 48 51))
                           // Str "64")
                    // Grp 4 (Str "CC")))
  >> Opt (Grp 5 (Cls dot >> Str "reuse"))
  >> Eol.

(** [^SB\d+] *)
Definition named_depbar_pattern : regex :=
  Bol >> Str "SB" >> Rep 1 digit.

(** [^SR_\w+] *)
Definition sreg_pattern : regex :=
  Bol >> Str "SR_" >> Rep 1 word.

(** [^\[(0x[0-9a-f]+|RZ|R\d+(\.64)?)(\+-?0x[0-9a-f]+|R\d+)?\]$] *)
Definition address_pattern : regex :=
  Bol >> Lit "["
  >> Grp 1 ((Str "0x" >> Rep 1 hex)
             // Str "RZ"
             // (Lit "R" >> Rep 1 digit >> Opt (Grp 2 (Str ".64"))))
  >> Opt (Grp 3 ((Lit "+" >> Opt (Lit "-") >> Str "0x" >> Rep 1 hex)
                  // (Lit "R" >> Rep 1 digit)))
  >> Lit "]" >> Eol.

(** [^c\[([^]]+)]\s*(\[[^]]+\])\.?(H1|B0|B1|B2|B3)?] *)
Definition const_mem_pattern : regex :=
  Bol >> Str "c["
  >> Grp 1 (Rep 1 not_rbracket)
  >> Lit "]" >> Rep 0 space
  >> Grp 2 (Lit "[" >> Rep 1 not_rbracket >> Lit "]")
  >> Opt (Lit ".")
  >> Opt (Grp 3 (Str "H1" // Str "B0" // Str "B1" // Str "B2" // Str "B3")).

(** [\d+\.NEG|\d+\.\d+e-?\d+(\.NEG)?$|^[+-]INF$|^\+QNAN$] *)
Definition float_pattern : regex :=
  (Rep 1 digit >> Str ".NEG")
  // (Rep 1 digit >> Lit "." >> Rep 1 digit >> Lit "e" >> Opt (Lit "-")
       >> Rep 1 digit >> Opt (Grp 1 (Str ".NEG")) >> Eol)
  // (Bol >> Cls (Chr.one_of "+-") >> Str "INF" >> Eol)
  // (Bol >> Str "+QNAN" >> Eol).

(** [(?<!R|#|P)\b\d+$] *)
Definition dec_pattern : regex :=
  NotBehind (Chr.one_of "R#P") >> Wordb >> Rep 1 digit >> Eol.

(** [^__fun_[^,\s]+] *)
Definition jcal_fun_pattern : regex :=
  Bol >> Str "__fun_" >> Rep 1 not_comma_space.

(** [^[12]D$] *)
Definition texture_dimension_pattern : regex :=
  Bol >> Cls (Chr.one_of "12") >> Lit "D" >> Eol.

(** [^(R|G|A|RG|RA|RGB|RGA|RGBA)$] *)
Definition texture_component_pattern : regex :=
  Bol
  >> Grp 1 (Lit "R" // Lit "G" // Lit "A" // Str "RG" // Str "RA"
             // Str "RGB" // Str "RGA" // Str "RGBA")
  >> Eol.

(** [@!?P[TN\d]\s], the guard [Instruction] removes *)
Definition guard_pattern : regex :=
  Lit "@" >> Opt (Lit "!") >> Lit "P"
  >> Cls (fun c => Chr.one_of "TN" c || Chr.isdigit c) >> Cls space.

(** [\s{2,}] *)
Definition blanks_pattern : regex := Rep 2 space.

End Pat.

(** ** The operand classes and the classifier

    [argument_to_object] and the classes it builds have the same text in
    ast.py (lines 104-412) and in sass_ast.py (lines 50-365), except for the
    classes [Register] and [PredicateRegister] and for the base class of
    [CC_Register].  The section is the common text; the names [Register] and
    [PredicateRegister], which each module binds to its own class, are its
    variables. *)

Module Common.

Section Classifier.

Variables reg preg : Type.

(** [Register(symbol)] and [PredicateRegister(v)] of the module. *)
Variable Register_init : string -> result reg.
Variable PredicateRegister_init : string -> result preg.

(** Whether [CC_Register] derives from [Register] (sass_ast.py line 50) or
    not (ast.py line 104). *)
Variable CC_Register_is_Register : bool.

#[warnings="-register-all"] Inductive operand : Type :=
| TextureDimensionOperand (v : string)
| TextureComponentOperand (v : string)
| Simulator_function_name (v : string)
| NamedDependencyBarrier (v : string)
| SReg (v : string)
| ConstantAccess (bank offset : operand) (selector : option string)
| UnaryOp (operation : string) (argument : operand) (h1 : bool)
| CC_Register (v : string) (condition : option string)
| Register (r : reg)
| PredicateRegister (p : preg)
| HexImmediate (text : string)
| Barrier (text : string)
| FloatImmediate (v : string) (negated : bool)
| DecImmediate (v : string)
| RegAddress (offset : option operand) (base : operand) (text : string).

(** [isinstance(o, HexImmediate)] *)
Definition is_HexImmediate (o : operand) : bool :=
  match o with HexImmediate _ => true | _ => false end.

(** [isinstance(o, Register)] *)
Definition is_Register (o : operand) : bool :=
  match o with
  | Register _ => true
  | CC_Register _ _ => CC_Register_is_Register
  | _ => false
  end.

(** [isinstance(o, UnaryOp)] *)
Definition is_UnaryOp (o : operand) : bool :=
  match o with UnaryOp _ _ _ => true | _ => false end.

(** [CC_Register.__init__] *)
Definition CC_Register_init (symbol : string) : operand :=
  let args := Str.split_on "." symbol in
  CC_Register (nth 0 args EmptyString)
              (if (1 <? List.length args)%nat then Some (nth 1 args EmptyString) else None).

(** [CC_Register.__eq__]: [isinstance(other, CC_Register)] *)
Definition CC_Register_eq (self other : operand) : bool :=
  match other with CC_Register _ _ => true | _ => false end.

(** [FloatImmediate.__init__] *)
Definition FloatImmediate_init (v : string) : operand :=
  FloatImmediate
    (if Str.endswith ".NEG" v then "-" ++ Str.slice v None (Some (-4)%Z) else v)
    (Str.endswith ".NEG" v).

Section Constructors.

(** The module-level name [argument_to_object], which [UnaryOp] and
    [RegAddress] call back. *)
Variable argument_to_object : string -> result operand.

(** [UnaryOp.__init__] *)
Definition UnaryOp_init (op text : string) : result operand :=
  if negb (existsb (String.eqb op) ["|"; "-"; "!"; "~"; "-|"])
  then Raise ValueError
  else
    argument <- argument_to_object text ;;
    Ok (UnaryOp op argument (Str.contains "H1" text)).

(** [RegAddress.__init__]; a failed [assert] is [AssertionError]. *)
Definition RegAddress_init (text : string) : result operand :=
  let noBracket := Str.replace "]" "" (Str.replace "[" "" text) in
  if Str.contains "+" noBracket then
    base <- argument_to_object
              (Str.slice noBracket None (Some (Str.find "+" noBracket))) ;;
    offset <- argument_to_object
                (Str.slice noBracket (Some (Str.find "+" noBracket + 1)%Z) None) ;;
    if is_HexImmediate offset
       || match offset with
          | UnaryOp _ argument _ => is_HexImmediate argument
          | _ => false
          end
    then
      if is_Register base || is_HexImmediate base
      then Ok (RegAddress (Some offset) base
                          (Str.replace "]" "" (Str.replace "[" "" text)))
      else Raise AssertionError
    else Raise AssertionError
  else
    base <- argument_to_object noBracket ;;
    if is_Register base || is_HexImmediate base
    then Ok (RegAddress None base (Str.replace "]" "" (Str.replace "[" "" text)))
    else Raise AssertionError.

(** The body of [argument_to_object].  [arg[0]] raises [IndexError] on
    the empty string the first time a guard reads it.  The argument is a
    [str], so the test of its type never raises. *)
Definition argument_to_object_body (arg : string) : result operand :=
  let arg := Str.replace ".reuse" "" arg in
  let depmatch := Re.search Pat.named_depbar_pattern arg in
  let amatch := Re.search Pat.address_pattern arg in
  let cmatch := Re.search Pat.const_mem_pattern arg in
  let fmatch := Re.search Pat.float_pattern arg in
  let dmatch := Re.search Pat.dec_pattern arg in
  let sreg_match := Re.search Pat.sreg_pattern arg in
  let jcal_fun_match := Re.search Pat.jcal_fun_pattern arg in
  let texture_dim_match := Re.search Pat.texture_dimension_pattern arg in
  let texture_com_match := Re.search Pat.texture_component_pattern arg in
  if Re.matched texture_dim_match then Ok (TextureDimensionOperand arg)
  else if Re.matched texture_com_match then Ok (TextureComponentOperand arg)
  else if Re.matched jcal_fun_match then Ok (Simulator_function_name arg)
  else if Re.matched depmatch then Ok (NamedDependencyBarrier arg)
  else if Re.matched sreg_match then Ok (SReg arg)
  else
    match cmatch with
    | Some m =>
        match Re.group m 1, Re.group m 2 with
        | Some g1, Some g2 =>
            bank <- argument_to_object g1 ;;
            offset <- argument_to_object g2 ;;
            Ok (ConstantAccess bank offset (Re.group m 3))
        | _, _ => Raise AttributeError
        end
    | None =>
        if (Str.count "|" arg =? 2)%nat then
          if Str.startswith "-|" arg
          then UnaryOp_init "-|" (Str.replace "-" "" (Str.replace "|" "" arg))
          else UnaryOp_init "|" (Str.replace "|" "" arg)
        else
          arg0 <- Str.first arg ;;
          if Ascii.eqb arg0 "!" then UnaryOp_init "!" (Str.lstrip "!" arg)
          else if Ascii.eqb arg0 "~" then UnaryOp_init "~" (Str.strip "~" arg)
          else if Ascii.eqb arg0 "-" && negb (Str.contains "-INF" arg)
               then UnaryOp_init "-" (Str.lstrip "-" arg)
          else if String.eqb (Str.slice arg (Some 0%Z) (Some 2%Z)) "CC"
               then Ok (CC_Register_init arg)
          else if Ascii.eqb arg0 "R"
               then r <- Register_init arg ;; Ok (Register r)
          else if Ascii.eqb arg0 "P"
               then p <- PredicateRegister_init arg ;; Ok (PredicateRegister p)
          else if String.eqb (Str.slice arg (Some 0%Z) (Some 2%Z)) "0x"
               then Ok (HexImmediate arg)
          else if Ascii.eqb arg0 "{" then Ok (Barrier arg)
          else if Re.matched fmatch then Ok (FloatImmediate_init arg)
          else if Re.matched dmatch then Ok (DecImmediate arg)
          else if Re.matched amatch then RegAddress_init arg
          else Raise ValueError
    end.

End Constructors.

(** [argument_to_object] with a bound on the depth of its recursion. *)
Fixpoint argument_to_object_fuel (fuel : nat) (arg : string) : result operand :=
  match fuel with
  | O => Raise RecursionError
  | S fuel' => argument_to_object_body (argument_to_object_fuel fuel') arg
  end.

(** Every recursive call is on a strictly shorter string, so this bound is
    never reached (lemma [argument_to_object_fuel_enough]). *)
Definition argument_to_object (arg : string) : result operand :=
  argument_to_object_fuel (S (String.length arg)) arg.

(** *** [Instruction] *)

Record Instruction : Type := mkInstruction {
  instr_text : string;
  arguments : list operand;
  sass_instruction : string
}.

(** [Instruction.__init__]; the [IndexError] of [split()[0]] is printed
    and raised again. *)
Definition Instruction_init (text : string) : result Instruction :=
  let text := Str.replace "] [" "][" text in
  let text := if Str.contains "@" text
              then Re.sub Pat.guard_pattern "" text else text in
  let self_text := text in
  let text := Str.replace ", " " " text in
  let text := Re.sub Pat.blanks_pattern " " text in
  mnemonic <- match Str.split (Str.replace ", " " " text) with
              | t :: _ => Ok (Str.replace " " "" t)
              | [] => Raise IndexError
              end ;;
  args <- mapM argument_to_object (tl (Str.split (Str.replace ", " " " text))) ;;
  Ok (mkInstruction self_text args
        (if Str.contains ".CC" text || String.eqb self_text "IMNMX.XHI"
         then mnemonic ++ "CC" else mnemonic)).

(** *** [Statement] *)

Record Statement : Type := mkStatement {
  label : string;
  stmt_text : string;
  predicated : bool;
  inverted : bool;
  predReg : option preg;
  instruction : Instruction
}.

(** [Statement.__init__]; whatever the guarded expression raises is
    replaced by [ValueError]. *)
Definition Statement_init (label text : string) (instr : option Instruction)
  : result Statement :=
  let text := Str.replace "] [" "][" text in
  let predicated := Str.contains "@" text in
  let inverted := Str.contains "@!" text in
  predReg <-
    (if predicated then
       match
         (tok <- match Str.split (Str.replace ", " " " text) with
                 | t :: _ => Ok t
                 | [] => Raise IndexError
                 end ;;
          PredicateRegister_init
            (Str.slice tok (Some (if inverted then 2 else 1)%Z) None))
       with
       | Ok p => Ok (Some p)
       | Raise _ => Raise ValueError
       end
     else Ok None) ;;
  instruction <- match instr with
                 | None => Instruction_init text
                 | Some i => Ok i
                 end ;;
  Ok (mkStatement label text predicated inverted predReg instruction).

End Classifier.

Arguments TextureDimensionOperand {reg preg} v.
Arguments TextureComponentOperand {reg preg} v.
Arguments Simulator_function_name {reg preg} v.
Arguments NamedDependencyBarrier {reg preg} v.
Arguments SReg {reg preg} v.
Arguments ConstantAccess {reg preg} bank offset selector.
Arguments UnaryOp {reg preg} operation argument h1.
Arguments CC_Register {reg preg} v condition.
Arguments Register {reg preg} r.
Arguments PredicateRegister {reg preg} p.
Arguments HexImmediate {reg preg} text.
Arguments Barrier {reg preg} text.
Arguments FloatImmediate {reg preg} v negated.
Arguments DecImmediate {reg preg} v.
Arguments RegAddress {reg preg} offset base text.
Arguments mkInstruction {reg preg} instr_text arguments sass_instruction.
Arguments mkStatement {reg preg} label stmt_text predicated inverted predReg instruction.
Arguments CC_Register_init {reg preg} symbol.
Arguments CC_Register_eq {reg preg} self other.
Arguments FloatImmediate_init {reg preg} v.
Arguments is_HexImmediate {reg preg} o.
Arguments is_UnaryOp {reg preg} o.

(** *** [__str__]

    [str(o)] for an operand.  [ConstantAccess] and [Barrier] define no
    [__str__]: their rendering is the default one, which names the address
    of the object, and is [None] here, like the rendering of a [UnaryOp]
    whose argument has none. *)

Section Rendering.

Variables reg preg : Type.

(** [Register.__str__] and [PredicateRegister.__str__] of the module. *)
Variable Register_str : reg -> string.
Variable PredicateRegister_str : preg -> string.

Fixpoint operand_str (o : operand reg preg) : option string :=
  match o with
  | TextureDimensionOperand v => Some v
  | TextureComponentOperand v => Some v
  | Simulator_function_name v => Some v
  | NamedDependencyBarrier v => Some v
  | SReg v => Some v
  | ConstantAccess _ _ _ => None
  | UnaryOp operation argument _ =>
      match operand_str argument with
      | Some a =>
          if String.eqb operation "|" then Some ("|" ++ a ++ "|")
          else if String.eqb operation "-|" then Some ("-|" ++ a ++ "|")
          else Some (operation ++ a)
      | None => None
      end
  | CC_Register v condition =>
      Some (v ++ match condition with Some c => "." ++ c | None => "" end)
  | Register r => Some (Register_str r)
  | PredicateRegister p => Some (PredicateRegister_str p)
  | HexImmediate text => Some text
  | Barrier _ => None
  | FloatImmediate v _ => Some v
  | DecImmediate v => Some v
  | RegAddress _ _ text => Some text
  end.

(** [Instruction.__str__] *)
Definition Instruction_str (i : Instruction reg preg) : string := instr_text i.

(** [Statement.__str__] *)
Definition Statement_str (s : Statement reg preg) : string :=
  label s ++ ": " ++ stmt_text s.

End Rendering.

End Common.

(** ** Attribute assignment

    [self.name = value] where the class of [self] defines the properties
    [properties], none of them with a setter: assigning to one of them
    raises [AttributeError], any other name is stored on the instance. *)

Definition setattr (properties : list string) (name : string) : result unit :=
  if existsb (String.eqb name) properties then Raise AttributeError else Ok tt.

(** ** ast.py *)

Module Ast.

(** [Register] (lines 64-101) declares the properties [num] and [v]. *)
Definition Register_properties : list string := ["num"; "v"].

Record register : Type := mkRegister {
  v : string;               (* _v *)
  selector : option string;
  CC : bool;
  reuse : bool;
  num : Z                   (* _num *)
}.

(** [Register.__init__].  [matches.get("reuse")] is always [None]: the
    pattern has no group of that name. *)
Definition Register_init (symbol : string) : result register :=
  _ <- setattr Register_properties "_v" ;;
  let _v := nth 0 (Str.split_on "." symbol) EmptyString in
  let m := Re.search Pat._REGISTER_PATTERN symbol in
  let selector := match m with Some m => Re.group m 3 | None => None end in
  let cc := match m with Some m => Re.group m 4 | None => None end in
  _ <- setattr Register_properties "selector" ;;
  _ <- setattr Register_properties "CC" ;;
  _ <- setattr Register_properties "reuse" ;;
  _num <- (if String.eqb _v "RZ" then Ok (-1)%Z
           else Int.int (Str.slice _v (Some 1%Z) None)) ;;
  _ <- setattr Register_properties "_num" ;;
  Ok (mkRegister _v selector
        (match cc with Some EmptyString | None => false | Some _ => true end)
        false _num).

(** [Register.__eq__] against another [Register] *)
Definition Register_eq (self other : register) : bool :=
  String.eqb (v self) (v other)
  && match selector self, selector other with
     | Some a, Some b => String.eqb a b
     | None, None => true
     | _, _ => false
     end
  && Bool.eqb (CC self) (CC other).

(** [PredicateRegister] (lines 166-192) declares the properties [num] and
    [v] as well. *)
Definition PredicateRegister_properties : list string := ["num"; "v"].

Record predicate_register : Type := mkPredicateRegister {
  p_v : string;
  p_type : string;
  p_num : Z
}.

(** [PredicateRegister.__init__]: its first statement is [self.v = v]. *)
Definition PredicateRegister_init (v : string) : result predicate_register :=
  _ <- setattr PredicateRegister_properties "v" ;;
  _ <- setattr PredicateRegister_properties "type" ;;
  _num <- (if String.eqb v "PT" then Ok (-1)%Z
           else Int.int (Str.slice v (Some 1%Z) None)) ;;
  _ <- setattr PredicateRegister_properties "_num" ;;
  Ok (mkPredicateRegister v "Bool" _num).

Definition operand : Type := Common.operand register predicate_register.

Definition argument_to_object : string -> result operand :=
  Common.argument_to_object Register_init PredicateRegister_init false.

Definition Instruction : Type := Common.Instruction register predicate_register.

Definition Instruction_init : string -> result Instruction :=
  Common.Instruction_init Register_init PredicateRegister_init false.

Definition Statement : Type := Common.Statement register predicate_register.

Definition Statement_init
  : string -> string -> option Instruction -> result Statement :=
  Common.Statement_init Register_init PredicateRegister_init false.

(** [Register.__str__] and [PredicateRegister.__str__] *)
Definition Register_str (r : register) : string := v r.

Definition PredicateRegister_str (p : predicate_register) : string := p_v p.

Definition operand_str : operand -> option string :=
  Common.operand_str Register_str PredicateRegister_str.

End Ast.

(** ** sass_ast.py *)

Module SassAst.

(** An attribute [__init__] does not set is [None] here: [type] when no
    [regType] is given, [selector] when no test of lines 21-32 holds. *)
Record register : Type := mkRegister {
  type : option string;
  selector : option string;
  CC : bool;
  reuse : bool;
  v : string
}.

(** [Register.__init__] (lines 18-35); the test for B3 has no dot. *)
Definition Register_init_with (symbol : string) (regType : option string) : register :=
  mkRegister regType
    (if Str.contains ".H1" symbol then Some "H1"
     else if Str.contains ".B0" symbol then Some "B0"
     else if Str.contains ".B1" symbol then Some "B1"
     else if Str.contains ".B2" symbol then Some "B2"
     else if Str.contains "B3" symbol then Some "B3"
     else if Str.contains ".64" symbol then Some "64"
     else None)
    (Str.contains ".CC" symbol)
    (Str.contains ".reuse" symbol)
    (nth 0 (Str.split_on "." symbol) EmptyString).

(** [Register(symbol)] *)
Definition Register_init (symbol : string) : result register :=
  Ok (Register_init_with symbol None).

(** [Register.__eq__] against another [Register] *)
Definition Register_eq (self other : register) : bool :=
  String.eqb (v self) (v other).

Record predicate_register : Type := mkPredicateRegister {
  p_v : string;
  p_type : string
}.

(** [PredicateRegister.__init__] (lines 128-130) *)
Definition PredicateRegister_init (v : string) : result predicate_register :=
  Ok (mkPredicateRegister v "Bool").

(** [HexImmediate.to_smt] (lines 77-93), on the [text] of the immediate.
    A string times a negative number is empty. *)
Definition to_smt (text : string) (width : Z) : result string :=
  if negb (existsb (Z.eqb width) [32; 16; 64]%Z) then Raise ValueError
  else
    let val := Str.lstrip "0x" text in
    let len := Z.of_nat (String.length val) in
    if (width =? 32)%Z then Ok ("#x" ++ Str.times "0" (Z.to_nat (8 - len)) ++ val)
    else if (width =? 16)%Z then Ok ("#x" ++ Str.times "0" (Z.to_nat (4 - len)) ++ val)
    else if (width =? 64)%Z then Ok ("#x" ++ Str.times "0" (Z.to_nat (16 - len)) ++ val)
    else Ok val.

Definition operand : Type := Common.operand register predicate_register.

Definition argument_to_object : string -> result operand :=
  Common.argument_to_object Register_init PredicateRegister_init true.

Definition Instruction : Type := Common.Instruction register predicate_register.

Definition Instruction_init : string -> result Instruction :=
  Common.Instruction_init Register_init PredicateRegister_init true.

Definition Statement : Type := Common.Statement register predicate_register.

Definition Statement_init
  : string -> string -> option Instruction -> result Statement :=
  Common.Statement_init Register_init PredicateRegister_init true.

(** [Register.__str__] and [PredicateRegister.__str__] *)
Definition Register_str (r : register) : string := v r.

Definition PredicateRegister_str (p : predicate_register) : string := p_v p.


Definition operand_str : operand -> option string :=
  Common.operand_str Register_str PredicateRegister_str.

End SassAst.

Import Common.

(** * Predicates of the statements *)

(** Every character of [s] satisfies [p]. *)
Fixpoint all (p : ascii -> bool) (s : string) : bool :=
  match s with
  | EmptyString => true
  | String c s' => p c && all p s'
  end.

(** A hexadecimal digit, in either case. *)
Definition ishexdigit (c : ascii) : bool :=
  Chr.isdigit c || Chr.between 65 70 c || Chr.between 97 102 c.

(** [arg[0] == c], false on the empty string. *)
Definition first_is (c : ascii) (arg : string) : bool :=
  match arg with
  | String c' _ => Ascii.eqb c' c
  | EmptyString => false
  end.

(** The guards of the cascade of [argument_to_object], in its order, on a
    token from which ".reuse" has been removed: whether some rule takes the
    token. *)
Definition some_rule_matches (arg : string) : bool :=
  Re.matched (Re.search Pat.texture_dimension_pattern arg)
  || Re.matched (Re.search Pat.texture_component_pattern arg)
  || Re.matched (Re.search Pat.jcal_fun_pattern arg)
  || Re.matched (Re.search Pat.named_depbar_pattern arg)
  || Re.matched (Re.search Pat.sreg_pattern arg)
  || Re.matched (Re.search Pat.const_mem_pattern arg)
  || (Str.count "|" arg =? 2)%nat
  || first_is "!" arg
  || first_is "~" arg
  || (first_is "-" arg && negb (Str.contains "-INF" arg))
  || String.eqb (Str.slice arg (Some 0%Z) (Some 2%Z)) "CC"
  || first_is "R" arg
  || first_is "P" arg
  || String.eqb (Str.slice arg (Some 0%Z) (Some 2%Z)) "0x"
  || first_is "{" arg
  || Re.matched (Re.search Pat.float_pattern arg)
  || Re.matched (Re.search Pat.dec_pattern arg)
  || Re.matched (Re.search Pat.address_pattern arg).

(** ** Comparing the operands of the two modules *)

Definition option_eqb (a b : option string) : bool :=
  match a, b with
  | Some x, Some y => String.eqb x y
  | None, None => true
  | _, _ => false
  end.

(** Two registers with the same name. *)
Definition same_name (r : Ast.register) (r' : SassAst.register) : bool :=
  String.eqb (Ast.v r) (SassAst.v r').

(** Two registers that agree on every field both modules have. *)
Definition same_fields (r : Ast.register) (r' : SassAst.register) : bool :=
  String.eqb (Ast.v r) (SassAst.v r')
  && option_eqb (Ast.selector r) (SassAst.selector r')
  && Bool.eqb (Ast.CC r) (SassAst.CC r')
  && Bool.eqb (Ast.reuse r) (SassAst.reuse r').

Definition same_predicate (p : Ast.predicate_register) (p' : SassAst.predicate_register)
  : bool :=
  String.eqb (Ast.p_v p) (SassAst.p_v p') && String.eqb (Ast.p_type p) (SassAst.p_type p').

(** The same variant with the same field values, registers being compared
    by [same_register]. *)
Fixpoint same_operand (same_register : Ast.register -> SassAst.register -> bool)
         (o : Ast.operand) (o' : SassAst.operand) : bool :=
  match o, o' with
  | TextureDimensionOperand v, TextureDimensionOperand v' => String.eqb v v'
  | TextureComponentOperand v, TextureComponentOperand v' => String.eqb v v'
  | Simulator_function_name v, Simulator_function_name v' => String.eqb v v'
  | NamedDependencyBarrier v, NamedDependencyBarrier v' => String.eqb v v'
  | SReg v, SReg v' => String.eqb v v'
  | ConstantAccess bank offset selector, ConstantAccess bank' offset' selector' =>
      same_operand same_register bank bank'
      && same_operand same_register offset offset'
      && option_eqb selector selector'
  | UnaryOp operation argument h1, UnaryOp operation' argument' h1' =>
      String.eqb operation operation'
      && same_operand same_register argument argument'
      && Bool.eqb h1 h1'
  | CC_Register v condition, CC_Register v' condition' =>
      String.eqb v v' && option_eqb condition condition'
  | Register r, Register r' => same_register r r'
  | PredicateRegister p, PredicateRegister p' => same_predicate p p'
  | HexImmediate text, HexImmediate text' => String.eqb text text'
  | Barrier text, Barrier text' => String.eqb text text'
  | FloatImmediate v negated, FloatImmediate v' negated' =>
      String.eqb v v' && Bool.eqb negated negated'
  | DecImmediate v, DecImmediate v' => String.eqb v v'
  | RegAddress offset base text, RegAddress offset' base' text' =>
      match offset, offset' with
      | Some x, Some x' => same_operand same_register x x'
      | None, None => true
      | _, _ => false
      end
      && same_operand same_register base base'
      && String.eqb text text'
  | _, _ => false
  end.

(** Both classifiers fail, or both return and the operands are the same. *)
Definition agree (same_register : Ast.register -> SassAst.register -> bool)
           (a : result Ast.operand) (b : result SassAst.operand) : bool :=
  match a, b with
  | Ok o, Ok o' => same_operand same_register o o'
  | Raise _, Raise _ => true
  | _, _ => false
  end.

(** ** Guards *)

(** The guard token "@P<d1><d2><ds>", or "@!P<d1><d2><ds>" when [bang]: a
    guard whose register index has at least two digits. *)
Definition long_guard (bang : bool) (d1 d2 : ascii) (ds : string) : string :=
  String "@" ((if bang then "!" else "") ++ String "P" (String d1 (String d2 ds))).

(** ** Bounds *)

(** The text left to match and every captured group are at most [L] long. *)
Definition bounded (L : nat) (st : Re.state) : Prop :=
  String.length (Re.rest st) <= L
  /\ forall i v, In (i, v) (Re.caps st) -> String.length v <= L.

(** The result is not the exhaustion of the recursion bound. *)
Definition safe {A : Type} (r : result A) : Prop := r <> Raise RecursionError.

(** ** Guards of one index character *)

(** [[TN\d]], the class of the index character in the guard pattern. *)
Definition isguardindex (c : ascii) : bool := Chr.one_of "TN" c || Chr.isdigit c.

(** The guard "@P<c><w>", or "@!P<c><w>" when [bang], with the blank [w] that
    ends it: what the guard pattern matches. *)
Definition short_guard (bang : bool) (c w : ascii) : string :=
  String "@" ((if bang then "!" else "") ++ String "P" (String c (String w ""))).

(** ** Plain tokens *)

(** A character of a token that holds no blank, no guard marker, no closing
    bracket and no comma. *)
Definition isplain (c : ascii) : bool :=
  negb (Chr.isspace c) && negb (Chr.one_of "@]," c).

(** ** Operands that are their token *)

(** The operand classes whose one field is the token they were built from. *)
Definition is_plain_leaf {reg preg : Type} (o : operand reg preg) : bool :=
  match o with
  | TextureDimensionOperand _ | TextureComponentOperand _ | Simulator_function_name _
  | NamedDependencyBarrier _ | SReg _ | HexImmediate _ | DecImmediate _ => true
  | _ => false
  end.

(** ** Numerals *)


(** The character before the position reached after the run [ds], when the
    one before the run is [pv]. *)
Fixpoint last_prev (pv : option ascii) (ds : string) : option ascii :=
  match ds with
  | EmptyString => pv
  | String c ds' => last_prev (Some c) ds'
  end.

(** The text is empty or starts with a character outside the class [p]. *)
Definition stops (p : ascii -> bool) (t : string) : bool :=
  match t with
  | EmptyString => true
  | String c _ => negb (p c)
  end.


Unset Implicit Arguments.

(** ** Lemmas on strings and patterns *)

Lemma prefix_head_neq (o c : ascii) (old s : string) :
  Ascii.eqb o c = false -> String.prefix (String o old) (String c s) = false.
Proof.
  intros H. simpl.
  destruct (ascii_dec o c) as [->|n]; [rewrite Ascii.eqb_refl in H; discriminate|reflexivity].
Qed.

Lemma count_cons_0 (o c : ascii) (p : string) :
  Str.count o (String c p) = 0%nat -> Ascii.eqb o c = false /\ Str.count o p = 0%nat.
Proof.
  simpl. destruct (Ascii.eqb o c); [discriminate|auto].
Qed.

Lemma replace_app_prefix (o : ascii) (old new p s : string) :
  Str.count o p = 0%nat ->
  Str.replace (String o old) new (p ++ s) = p ++ Str.replace (String o old) new s.
Proof.
  unfold Str.replace. induction p as [|c p IH]; intros H; [reflexivity|].
  apply count_cons_0 in H. destruct H as [E H].
  change ((String c p) ++ s) with (String c (p ++ s)).
  cbn [Str.replace_from]. rewrite (@prefix_head_neq o c old (p ++ s) E).
  rewrite IH by exact H. reflexivity.
Qed.

Lemma append_empty (s : string) : s ++ "" = s.
Proof. induction s as [|c s IH]; [reflexivity|simpl; rewrite IH; reflexivity]. Qed.

Lemma replace_absent (o : ascii) (old new s : string) :
  Str.count o s = 0%nat -> Str.replace (String o old) new s = s.
Proof.
  intros H. rewrite <- (append_empty s) at 1.
  rewrite replace_app_prefix by exact H. apply append_empty.
Qed.

Lemma contains_app_prefix (o : ascii) (sub p s : string) :
  Str.count o p = 0%nat ->
  Str.contains (String o sub) (p ++ s) = Str.contains (String o sub) s.
Proof.
  induction p as [|c p IH]; intros H; [reflexivity|].
  apply count_cons_0 in H. destruct H as [E H].
  change ((String c p) ++ s) with (String c (p ++ s)).
  cbn [Str.contains]. rewrite (@prefix_head_neq o c sub (p ++ s) E). apply IH, H.
Qed.

Lemma count_all (p : ascii -> bool) (o : ascii) (s : string) :
  p o = false -> all p s = true -> Str.count o s = 0%nat.
Proof.
  intros Ho. induction s as [|c s IH]; intros H; [reflexivity|].
  simpl in H. apply andb_prop in H. destruct H as [Hc Hs].
  simpl. destruct (Ascii.eqb_spec o c) as [->|n]; [congruence|]. apply IH, Hs.
Qed.

(** A pattern that starts with [^] matches at the start of the string or
    nowhere. *)
Lemma search_Bol (r : Re.regex) (s : string) :
  Re.search (Re.Cat Re.Bol r) s = Re.match_at (Re.Cat Re.Bol r) None s.
Proof.
  unfold Re.search. destruct s as [|c s]; simpl.
  - destruct (Re.match_at _ _ _); reflexivity.
  - destruct (Re.match_at (Re.Cat Re.Bol r) None (String c s)); [reflexivity|].
    generalize c. induction s as [|c' s IH]; intros c0; simpl; [reflexivity|apply IH].
Qed.

Lemma slice_0_2 (a b : ascii) (s : string) :
  Str.slice (String a (String b s)) (Some 0%Z) (Some 2%Z) = String a (String b EmptyString).
Proof.
  unfold Str.slice, Str.bound.
  change (String.length (String a (String b s))) with (S (S (String.length s))).
  change (0 <? 0)%Z with false. change (2 <? 0)%Z with false. cbv iota.
  assert (E : Z.min 2 (Z.of_nat (S (S (String.length s)))) = 2%Z) by lia.
  assert (E0 : Z.min 0 (Z.of_nat (S (S (String.length s)))) = 0%Z) by lia.
  rewrite E, E0. simpl. destruct s; reflexivity.
Qed.

Lemma slice_0_2_head (a : ascii) (s : string) :
  exists t, Str.slice (String a s) (Some 0%Z) (Some 2%Z) = String a t.
Proof.
  destruct s as [|c s].
  - exists EmptyString. reflexivity.
  - exists (String c EmptyString). apply slice_0_2.
Qed.

Section ClassifierFacts.

Variables reg preg : Type.
Variable Register_init : string -> result reg.
Variable PredicateRegister_init : string -> result preg.
Variable b : bool.

Lemma classify_hex (ds : string) :
  all ishexdigit ds = true ->
  Common.argument_to_object Register_init PredicateRegister_init b ("0x" ++ ds)
  = Ok (HexImmediate ("0x" ++ ds)).
Proof.
  intros H.
  assert (Hdot : Str.replace ".reuse" "" ("0x" ++ ds) = "0x" ++ ds).
  { apply replace_absent. simpl. apply (count_all ishexdigit); [reflexivity|exact H]. }
  assert (Hbar : Str.count "|" ("0x" ++ ds) = 0%nat).
  { simpl. apply (count_all ishexdigit); [reflexivity|exact H]. }
  unfold Common.argument_to_object.
  cbn [Common.argument_to_object_fuel]. unfold Common.argument_to_object_body.
  rewrite Hdot. cbv zeta.
  generalize (Re.search Pat.float_pattern ("0x" ++ ds)) as fmatch.
  generalize (Re.search Pat.dec_pattern ("0x" ++ ds)) as dmatch.
  generalize (Re.search Pat.address_pattern ("0x" ++ ds)) as amatch.
  intros amatch dmatch fmatch.
  unfold Pat.texture_dimension_pattern, Pat.texture_component_pattern,
    Pat.jcal_fun_pattern, Pat.named_depbar_pattern, Pat.sreg_pattern, Pat.const_mem_pattern.
  rewrite !search_Bol. rewrite Hbar.
  change ("0x" ++ ds) with (String "0" (String "x" ds)).
  rewrite slice_0_2.
  reflexivity.
Qed.

(** A token "P" followed by digits reaches the rule for predicate
    registers. *)
Lemma classify_predicate (ds : string) :
  all Chr.isdigit ds = true ->
  Common.argument_to_object Register_init PredicateRegister_init b ("P" ++ ds)
  = (p <- PredicateRegister_init ("P" ++ ds) ;; Ok (PredicateRegister p)).
Proof.
  intros H.
  assert (Hdot : Str.replace ".reuse" "" ("P" ++ ds) = "P" ++ ds).
  { apply replace_absent. simpl. apply (count_all Chr.isdigit); [reflexivity|exact H]. }
  assert (Hbar : Str.count "|" ("P" ++ ds) = 0%nat).
  { simpl. apply (count_all Chr.isdigit); [reflexivity|exact H]. }
  unfold Common.argument_to_object.
  cbn [Common.argument_to_object_fuel]. unfold Common.argument_to_object_body.
  rewrite Hdot. cbv zeta.
  generalize (Re.search Pat.float_pattern ("P" ++ ds)) as fmatch.
  generalize (Re.search Pat.dec_pattern ("P" ++ ds)) as dmatch.
  generalize (Re.search Pat.address_pattern ("P" ++ ds)) as amatch.
  intros amatch dmatch fmatch.
  unfold Pat.texture_dimension_pattern, Pat.texture_component_pattern,
    Pat.jcal_fun_pattern, Pat.named_depbar_pattern, Pat.sreg_pattern, Pat.const_mem_pattern.
  rewrite !search_Bol. rewrite Hbar.
  change ("P" ++ ds) with (String "P" ds).
  destruct (slice_0_2_head "P" ds) as [t ->].
  reflexivity.
Qed.

End ClassifierFacts.



Section Simulation.

Local Abbreviation same := (same_operand same_name).

Lemma same_is_HexImmediate (o : Ast.operand) (o' : SassAst.operand) :
  same o o' = true -> is_HexImmediate o' = is_HexImmediate o.
Proof. destruct o, o'; simpl; intros H; try discriminate H; reflexivity. Qed.

Lemma same_is_Register (o : Ast.operand) (o' : SassAst.operand) :
  same o o' = true ->
  Common.is_Register false o = true -> Common.is_Register true o' = true.
Proof. destruct o, o'; simpl; intros H; try discriminate H; intros R; try discriminate R; reflexivity. Qed.

Lemma same_unary_hex (o : Ast.operand) (o' : SassAst.operand) :
  same o o' = true ->
  match o' with UnaryOp _ a _ => is_HexImmediate a | _ => false end
  = match o with UnaryOp _ a _ => is_HexImmediate a | _ => false end.
Proof.
  destruct o, o'; simpl; intros H; try discriminate H; try reflexivity.
  apply andb_prop in H. destruct H as [H _]. apply andb_prop in H. destruct H as [_ H].
  apply same_is_HexImmediate, H.
Qed.

Variable recA : string -> result Ast.operand.
Variable recS : string -> result SassAst.operand.

Hypothesis rec_sim :
  forall arg o, recA arg = Ok o -> exists o', recS arg = Ok o' /\ same o o' = true.

Lemma UnaryOp_init_sim (op text : string) (o : Ast.operand) :
  Common.UnaryOp_init recA op text = Ok o ->
  exists o', Common.UnaryOp_init recS op text = Ok o' /\ same o o' = true.
Proof.
  unfold Common.UnaryOp_init.
  destruct (negb _); [discriminate|].
  destruct (recA text) as [a|e] eqn:E; simpl; [|discriminate].
  intros H. inversion H; subst o; clear H.
  destruct (rec_sim _ _ E) as [a' [E' S]]. rewrite E'. simpl.
  eexists. split; [reflexivity|]. simpl.
  rewrite String.eqb_refl, S, Bool.eqb_reflx. reflexivity.
Qed.

Lemma RegAddress_init_sim (text : string) (o : Ast.operand) :
  Common.RegAddress_init false recA text = Ok o ->
  exists o', Common.RegAddress_init true recS text = Ok o' /\ same o o' = true.
Proof.
  unfold Common.RegAddress_init.
  set (noBracket := Str.replace "]" "" (Str.replace "[" "" text)).
  destruct (Str.contains "+" noBracket).
  - destruct (recA (Str.slice noBracket None _)) as [base|e] eqn:Eb; simpl; [|discriminate].
    destruct (recA (Str.slice noBracket (Some _) None)) as [off|e] eqn:Eo; simpl; [|discriminate].
    destruct (rec_sim _ _ Eb) as [base' [Eb' Sb]].
    destruct (rec_sim _ _ Eo) as [off' [Eo' So]].
    rewrite Eb', Eo'. simpl.
    rewrite (same_is_HexImmediate _ _ So), (same_unary_hex _ _ So).
    destruct (is_HexImmediate off || _); [|discriminate].
    rewrite (same_is_HexImmediate _ _ Sb).
    destruct (Common.is_Register false base) eqn:R.
    + rewrite (same_is_Register _ _ Sb R). simpl.
      intros H. inversion H; subst o; clear H.
      eexists. split; [reflexivity|]. simpl. rewrite So, Sb, String.eqb_refl. reflexivity.
    + simpl. destruct (is_HexImmediate base); [|discriminate].
      rewrite orb_true_r.
      intros H. inversion H; subst o; clear H.
      eexists. split; [reflexivity|]. simpl. rewrite So, Sb, String.eqb_refl. reflexivity.
  - destruct (recA noBracket) as [base|e] eqn:Eb; simpl; [|discriminate].
    destruct (rec_sim _ _ Eb) as [base' [Eb' Sb]].
    rewrite Eb'. simpl.
    rewrite (same_is_HexImmediate _ _ Sb).
    destruct (Common.is_Register false base) eqn:R.
    + rewrite (same_is_Register _ _ Sb R). simpl.
      intros H. inversion H; subst o; clear H.
      eexists. split; [reflexivity|]. simpl. rewrite Sb, String.eqb_refl. reflexivity.
    + simpl. destruct (is_HexImmediate base); [|discriminate].
      rewrite orb_true_r.
      intros H. inversion H; subst o; clear H.
      eexists. split; [reflexivity|]. simpl. rewrite Sb, String.eqb_refl. reflexivity.
Qed.

Lemma option_eqb_refl (a : option string) : option_eqb a a = true.
Proof. destruct a; simpl; [apply String.eqb_refl|reflexivity]. Qed.

Lemma Register_init_sim (arg : string) (r : Ast.register) :
  Ast.Register_init arg = Ok r ->
  exists r', SassAst.Register_init arg = Ok r' /\ same_name r r' = true.
Proof.
  unfold Ast.Register_init, SassAst.Register_init. simpl.
  destruct (if String.eqb _ "RZ" then _ else _) as [n|e]; simpl; [|discriminate].
  intros H. inversion H; subst r; clear H.
  eexists. split; [reflexivity|]. unfold same_name. simpl. apply String.eqb_refl.
Qed.

Ltac same_leaf :=
  let H := fresh in
  intros H; inversion H; subst; clear H;
  eexists; split; [reflexivity|]; simpl;
  rewrite ?String.eqb_refl, ?option_eqb_refl, ?Bool.eqb_reflx; reflexivity.

Lemma argument_to_object_body_sim (arg : string) (o : Ast.operand) :
  Common.argument_to_object_body Ast.Register_init Ast.PredicateRegister_init false recA arg
  = Ok o ->
  exists o',
    Common.argument_to_object_body SassAst.Register_init SassAst.PredicateRegister_init
      true recS arg = Ok o'
    /\ same o o' = true.
Proof.
  unfold Common.argument_to_object_body. cbv zeta.
  generalize (Str.replace ".reuse" "" arg). clear arg. intros arg.
  destruct (Re.matched (Re.search Pat.texture_dimension_pattern arg)); [same_leaf|].
  destruct (Re.matched (Re.search Pat.texture_component_pattern arg)); [same_leaf|].
  destruct (Re.matched (Re.search Pat.jcal_fun_pattern arg)); [same_leaf|].
  destruct (Re.matched (Re.search Pat.named_depbar_pattern arg)); [same_leaf|].
  destruct (Re.matched (Re.search Pat.sreg_pattern arg)); [same_leaf|].
  destruct (Re.search Pat.const_mem_pattern arg) as [m|].
  { destruct (Re.group m 1) as [g1|]; [|discriminate].
    destruct (Re.group m 2) as [g2|]; [|discriminate].
    destruct (recA g1) as [bank|e] eqn:E1; simpl; [|discriminate].
    destruct (recA g2) as [off|e] eqn:E2; simpl; [|discriminate].
    destruct (rec_sim _ _ E1) as [bank' [E1' S1]].
    destruct (rec_sim _ _ E2) as [off' [E2' S2]].
    rewrite E1', E2'. simpl.
    intros H. inversion H; subst o; clear H.
    eexists. split; [reflexivity|]. simpl. rewrite S1, S2, option_eqb_refl. reflexivity. }
  destruct (Str.count "|" arg =? 2)%nat.
  { destruct (Str.startswith "-|" arg); apply UnaryOp_init_sim. }
  destruct (Str.first arg) as [arg0|e]; cbn [bind]; [|discriminate].
  destruct (Ascii.eqb arg0 "!"); [apply UnaryOp_init_sim|].
  destruct (Ascii.eqb arg0 "~"); [apply UnaryOp_init_sim|].
  destruct (Ascii.eqb arg0 "-" && negb (Str.contains "-INF" arg)); [apply UnaryOp_init_sim|].
  destruct (String.eqb (Str.slice arg (Some 0%Z) (Some 2%Z)) "CC").
  { unfold CC_Register_init. same_leaf. }
  destruct (Ascii.eqb arg0 "R").
  { destruct (Ast.Register_init arg) as [r|e] eqn:E; [|simpl; discriminate].
    destruct (Register_init_sim _ _ E) as [r' [E' S]]. rewrite E'. simpl.
    intros H. inversion H; subst o; clear H.
    eexists. split; [reflexivity|]. exact S. }
  destruct (Ascii.eqb arg0 "P"); [discriminate|].
  destruct (String.eqb (Str.slice arg (Some 0%Z) (Some 2%Z)) "0x"); [same_leaf|].
  destruct (Ascii.eqb arg0 "{"); [same_leaf|].
  destruct (Re.matched (Re.search Pat.float_pattern arg)).
  { unfold FloatImmediate_init. same_leaf. }
  destruct (Re.matched (Re.search Pat.dec_pattern arg)); [same_leaf|].
  destruct (Re.matched (Re.search Pat.address_pattern arg)); [apply RegAddress_init_sim|].
  discriminate.
Qed.

End Simulation.

Lemma argument_to_object_fuel_sim (fuel : nat) :
  forall (arg : string) (o : Ast.operand),
    Common.argument_to_object_fuel Ast.Register_init Ast.PredicateRegister_init false fuel arg
    = Ok o ->
    exists o',
      Common.argument_to_object_fuel SassAst.Register_init SassAst.PredicateRegister_init
        true fuel arg = Ok o'
      /\ same_operand same_name o o' = true.
Proof.
  induction fuel as [|fuel IH]; intros arg o; simpl; [discriminate|].
  apply argument_to_object_body_sim. exact IH.
Qed.



Lemma digit_facts (c : ascii) :
  Chr.isdigit c = true ->
  Chr.isspace c = false /\ Ascii.eqb "@" c = false /\ Ascii.eqb "]" c = false
  /\ Ascii.eqb "," c = false /\ Ascii.eqb "." c = false /\ Ascii.eqb " " c = false.
Proof.
  destruct c as [[] [] [] [] [] [] [] []]; intros H; try discriminate H;
    repeat split; reflexivity.
Qed.

Lemma space_facts (c : ascii) :
  Chr.isspace c = true ->
  Ascii.eqb "@" c = false /\ Ascii.eqb "]" c = false
  /\ Ascii.eqb "," c = false /\ Ascii.eqb "." c = false.
Proof.
  destruct c as [[] [] [] [] [] [] [] []]; intros H; try discriminate H;
    repeat split; reflexivity.
Qed.


(** *** Substitution of the guard pattern *)

Lemma guard_match_prev (pv pv' : option ascii) (s : string) :
  Re.match_at Pat.guard_pattern pv s = Re.match_at Pat.guard_pattern pv' s.
Proof.
  unfold Re.match_at, Pat.guard_pattern. destruct s as [|c s]; [reflexivity|].
  cbn [Re.exec Re.rest]. destruct (Ascii.eqb "@" c); reflexivity.
Qed.

Lemma guard_sub_prev (s : string) :
  forall (k : nat) (pv pv' : option ascii),
    Re.sub_from Pat.guard_pattern "" k pv s = Re.sub_from Pat.guard_pattern "" k pv' s.
Proof.
  induction s as [|c s IH]; intros k pv pv'; [reflexivity|].
  cbn [Re.sub_from]. destruct k as [|k]; [|apply IH].
  rewrite (guard_match_prev pv pv').
  destruct (Re.match_at Pat.guard_pattern pv' (String c s)); reflexivity.
Qed.

Lemma guard_no_match (pv : option ascii) (c : ascii) (s : string) :
  Ascii.eqb "@" c = false -> Re.match_at Pat.guard_pattern pv (String c s) = None.
Proof.
  intros E. unfold Re.match_at, Pat.guard_pattern. cbn [Re.exec Re.rest]. rewrite E. reflexivity.
Qed.

Lemma guard_sub_prefix (p s : string) :
  Str.count "@" p = 0%nat ->
  forall pv, Re.sub_from Pat.guard_pattern "" 0 pv (p ++ s)
             = p ++ Re.sub Pat.guard_pattern "" s.
Proof.
  induction p as [|c p IH]; intros H pv.
  - apply guard_sub_prev.
  - apply count_cons_0 in H. destruct H as [E H].
    change (String c p ++ s) with (String c (p ++ s)).
    cbn [Re.sub_from]. rewrite (guard_no_match pv c (p ++ s) E).
    rewrite (IH H). reflexivity.
Qed.

Lemma long_guard_no_match (bang : bool) (d1 d2 : ascii) (s : string) :
  Chr.isdigit d1 = true -> Chr.isdigit d2 = true ->
  Re.match_at Pat.guard_pattern None (long_guard bang d1 d2 s) = None.
Proof.
  intros H1 H2.
  destruct d1 as [[] [] [] [] [] [] [] []]; try discriminate H1;
    destruct d2 as [[] [] [] [] [] [] [] []]; try discriminate H2;
    destruct bang; reflexivity.
Qed.

(** *** Substitution of the blanks pattern *)

Lemma rep_rest (p : ascii -> bool) (cs : list (nat * string)) (s : string) :
  forall (n : nat) (pv pv' : option ascii),
    option_map Re.rest (Re.rep p n pv s cs Some)
    = option_map Re.rest (Re.rep p n pv' s cs Some).
Proof.
  induction s as [|c s IH]; intros n pv pv'; cbn [Re.rep].
  - destruct (n =? 0)%nat; reflexivity.
  - destruct (p c); [|destruct (n =? 0)%nat; reflexivity].
    destruct (Re.rep p (pred n) (Some c) s cs Some); [reflexivity|].
    destruct (n =? 0)%nat; reflexivity.
Qed.

Lemma blanks_match_rest (pv pv' : option ascii) (s : string) :
  option_map Re.rest (Re.match_at Pat.blanks_pattern pv s)
  = option_map Re.rest (Re.match_at Pat.blanks_pattern pv' s).
Proof.
  unfold Re.match_at, Pat.blanks_pattern. cbn [Re.exec Re.prev Re.rest Re.caps].
  apply rep_rest.
Qed.

Lemma blanks_sub_prev (s : string) :
  forall (k : nat) (pv pv' : option ascii),
    Re.sub_from Pat.blanks_pattern " " k pv s = Re.sub_from Pat.blanks_pattern " " k pv' s.
Proof.
  induction s as [|c s IH]; intros k pv pv'; [reflexivity|].
  cbn [Re.sub_from]. destruct k as [|k]; [|apply IH].
  pose proof (blanks_match_rest pv pv' (String c s)) as E.
  destruct (Re.match_at Pat.blanks_pattern pv (String c s)) as [m|],
           (Re.match_at Pat.blanks_pattern pv' (String c s)) as [m'|];
    simpl in E; try discriminate E.
  - inversion E as [E']. rewrite E'. reflexivity.
  - reflexivity.
Qed.

Lemma blanks_no_match (pv : option ascii) (c : ascii) (s : string) :
  Chr.isspace c = false -> Re.match_at Pat.blanks_pattern pv (String c s) = None.
Proof.
  intros E. unfold Re.match_at, Pat.blanks_pattern.
  cbn [Re.exec Re.prev Re.rest Re.caps Re.rep]. unfold Pat.space. rewrite E. reflexivity.
Qed.

Lemma blanks_sub_prefix (p s : string) :
  all (fun c => negb (Chr.isspace c)) p = true ->
  forall pv, Re.sub_from Pat.blanks_pattern " " 0 pv (p ++ s)
             = p ++ Re.sub Pat.blanks_pattern " " s.
Proof.
  induction p as [|c p IH]; intros H pv.
  - apply blanks_sub_prev.
  - simpl in H. apply andb_prop in H. destruct H as [E H].
    apply negb_true_iff in E.
    change (String c p ++ s) with (String c (p ++ s)).
    cbn [Re.sub_from]. rewrite (blanks_no_match pv c (p ++ s) E).
    rewrite (IH H). reflexivity.
Qed.

(** What a substitution of blanks starts with, on a text that starts with a
    blank. *)
Lemma blanks_sub_head (w : ascii) (s : string) :
  Chr.isspace w = true ->
  exists w' s', Re.sub Pat.blanks_pattern " " (String w s) = String w' s'
                /\ Chr.isspace w' = true.
Proof.
  intros H. unfold Re.sub. cbn [Re.sub_from].
  destruct (Re.match_at Pat.blanks_pattern None (String w s)).
  - eexists; eexists; split; [reflexivity|reflexivity].
  - eexists; eexists; split; [reflexivity|exact H].
Qed.

(** *** Splitting *)

Lemma split_first_token (p y : string) :
  p <> EmptyString ->
  all (fun c => negb (Chr.isspace c)) p = true ->
  Str.starts_word y = false ->
  Str.split (p ++ y) = p :: Str.split y.
Proof.
  induction p as [|c p IH]; intros Hne H Hy; [congruence|].
  simpl in H. apply andb_prop in H. destruct H as [E H].
  apply negb_true_iff in E.
  change (String c p ++ y) with (String c (p ++ y)).
  cbn [Str.split]. rewrite E.
  destruct p as [|c' p].
  - simpl. rewrite Hy. reflexivity.
  - assert (Hs : Str.starts_word (String c' p ++ y) = true).
    { simpl in H. apply andb_prop in H. destruct H as [E' _]. simpl. exact E'. }
    rewrite Hs. rewrite IH; [reflexivity|discriminate|exact H|exact Hy].
Qed.

Lemma replace_cons (o c : ascii) (old new s : string) :
  Ascii.eqb o c = false ->
  Str.replace (String o old) new (String c s) = String c (Str.replace (String o old) new s).
Proof.
  intros E. unfold Str.replace. cbn [Str.replace_from].
  rewrite (prefix_head_neq o c old s E). reflexivity.
Qed.

Lemma long_guard_app (bang : bool) (d1 d2 : ascii) (ds t : string) :
  long_guard bang d1 d2 ds ++ t = long_guard bang d1 d2 (ds ++ t).
Proof. destruct bang; reflexivity. Qed.

Lemma long_guard_tail_plain (bang : bool) (d1 d2 : ascii) (ds : string) :
  Chr.isdigit d1 = true -> Chr.isdigit d2 = true -> all Chr.isdigit ds = true ->
  forall o : ascii,
    Chr.isdigit o = false -> Ascii.eqb o "!" = false -> Ascii.eqb o "P" = false ->
    Str.count o ((if bang then "!" else "") ++ String "P" (String d1 (String d2 ds))) = 0%nat.
Proof.
  intros H1 H2 Hs o Ho Hb HP.
  assert (E : forall d, Chr.isdigit d = true -> Ascii.eqb o d = false).
  { intros d Hd. destruct (Ascii.eqb_spec o d) as [->|]; [congruence|reflexivity]. }
  destruct bang; simpl;
    rewrite ?Hb, ?HP, (E d1 H1), (E d2 H2), (count_all Chr.isdigit o ds Ho Hs);
    reflexivity.
Qed.

Lemma long_guard_plain (bang : bool) (d1 d2 : ascii) (ds : string) :
  Chr.isdigit d1 = true -> Chr.isdigit d2 = true -> all Chr.isdigit ds = true ->
  forall o : ascii,
    Chr.isdigit o = false -> Ascii.eqb o "!" = false -> Ascii.eqb o "P" = false ->
    Ascii.eqb o "@" = false ->
    Str.count o (long_guard bang d1 d2 ds) = 0%nat.
Proof.
  intros H1 H2 Hs o Ho Hb HP Ha. unfold long_guard. cbn [Str.count]. rewrite Ha.
  apply long_guard_tail_plain; assumption.
Qed.

Lemma long_guard_no_blank (bang : bool) (d1 d2 : ascii) (ds : string) :
  Chr.isdigit d1 = true -> Chr.isdigit d2 = true -> all Chr.isdigit ds = true ->
  all (fun c => negb (Chr.isspace c)) (long_guard bang d1 d2 ds) = true.
Proof.
  intros H1 H2 Hs.
  assert (E : all (fun c => negb (Chr.isspace c)) ds = true).
  { induction ds as [|c ds IH]; [reflexivity|].
    simpl in Hs. apply andb_prop in Hs. destruct Hs as [Hc Hs].
    simpl. rewrite (proj1 (digit_facts c Hc)), (IH Hs). reflexivity. }
  unfold long_guard. destruct bang; simpl;
    rewrite (proj1 (digit_facts d1 H1)), (proj1 (digit_facts d2 H2)), E; reflexivity.
Qed.

Lemma guard_sub_long_guard (bang : bool) (d1 d2 : ascii) (ds t : string) :
  Chr.isdigit d1 = true -> Chr.isdigit d2 = true -> all Chr.isdigit ds = true ->
  Re.sub Pat.guard_pattern "" (long_guard bang d1 d2 ds ++ t)
  = long_guard bang d1 d2 ds ++ Re.sub Pat.guard_pattern "" t.
Proof.
  intros H1 H2 Hs. unfold Re.sub.
  assert (N : Re.match_at Pat.guard_pattern None (long_guard bang d1 d2 ds ++ t) = None).
  { rewrite long_guard_app. apply long_guard_no_match; assumption. }
  revert N. unfold long_guard.
  set (g' := (if bang then "!" else "") ++ String "P" (String d1 (String d2 ds))).
  change (String "@" g' ++ t) with (String "@" (g' ++ t)). intros N.
  cbn [Re.sub_from]. rewrite N.
  rewrite guard_sub_prefix; [reflexivity|].
  unfold g'. apply long_guard_tail_plain; auto.
Qed.

Lemma guard_sub_cons (c : ascii) (s : string) :
  Ascii.eqb "@" c = false ->
  Re.sub Pat.guard_pattern "" (String c s) = String c (Re.sub Pat.guard_pattern "" s).
Proof.
  intros E. unfold Re.sub at 1.
  apply (guard_sub_prefix (String c "") s). cbn [Str.count]. rewrite E. reflexivity.
Qed.

Lemma contains_head (c : ascii) (s : string) :
  Str.contains (String c "") (String c s) = true.
Proof.
  cbn [Str.contains String.prefix].
  destruct (ascii_dec c c) as [_|n]; [destruct s; reflexivity|congruence].
Qed.

Section InstructionFacts.

Variables reg preg : Type.
Variable Register_init : string -> result reg.
Variable PredicateRegister_init : string -> result preg.
Variable b : bool.

Lemma Instruction_init_long_guard
      (bang : bool) (d1 d2 : ascii) (ds : string) (w : ascii) (rest : string) :
  Chr.isdigit d1 = true -> Chr.isdigit d2 = true -> all Chr.isdigit ds = true ->
  Chr.isspace w = true ->
  let guard := long_guard bang d1 d2 ds in
  let kept := String w (Re.sub Pat.guard_pattern "" (Str.replace "] [" "][" rest)) in
  let body := Re.sub Pat.blanks_pattern " " (Str.replace ", " " " kept) in
  Common.Instruction_init Register_init PredicateRegister_init b (guard ++ String w rest)
  = (args <- mapM (Common.argument_to_object Register_init PredicateRegister_init b)
                  (Str.split (Str.replace ", " " " body)) ;;
     Ok (mkInstruction (guard ++ kept) args
           (if Str.contains ".CC" body then guard ++ "CC" else guard))).
Proof.
  intros H1 H2 Hs Hw guard kept body.
  pose proof (space_facts w Hw) as [Wa [Wb [Wc Wd]]].
  assert (Cb : Str.count "]" guard = 0%nat)
    by (apply long_guard_plain; auto).
  assert (Cc : Str.count "," guard = 0%nat)
    by (apply long_guard_plain; auto).
  assert (Cd : Str.count "." guard = 0%nat)
    by (apply long_guard_plain; auto).
  assert (Cs : Str.count " " guard = 0%nat)
    by (apply long_guard_plain; auto).
  pose proof (long_guard_no_blank bang d1 d2 ds H1 H2 Hs) as Nb.
  fold guard in Nb.
  (* the text after the first two rewritings *)
  assert (T1 : Str.replace "] [" "][" (guard ++ String w rest)
               = guard ++ String w (Str.replace "] [" "][" rest)).
  { rewrite replace_app_prefix by exact Cb. rewrite replace_cons by exact Wb. reflexivity. }
  assert (T2 : Re.sub Pat.guard_pattern "" (guard ++ String w (Str.replace "] [" "][" rest))
               = guard ++ kept).
  { unfold guard. rewrite guard_sub_long_guard by assumption.
    rewrite guard_sub_cons by exact Wa. reflexivity. }
  assert (T0 : Str.contains "@" (guard ++ String w (Str.replace "] [" "][" rest)) = true).
  { unfold guard, long_guard. apply contains_head. }
  assert (T3 : Str.replace ", " " " (guard ++ kept) = guard ++ Str.replace ", " " " kept).
  { apply replace_app_prefix, Cc. }
  assert (T4 : Re.sub Pat.blanks_pattern " " (guard ++ Str.replace ", " " " kept)
               = guard ++ body).
  { unfold Re.sub at 1. apply blanks_sub_prefix, Nb. }
  assert (T5 : Str.replace ", " " " (guard ++ body) = guard ++ Str.replace ", " " " body).
  { apply replace_app_prefix, Cc. }
  assert (T6 : Str.split (guard ++ Str.replace ", " " " body)
               = guard :: Str.split (Str.replace ", " " " body)).
  { apply split_first_token; [unfold guard, long_guard; discriminate|exact Nb|].
    unfold body, kept. rewrite replace_cons by exact Wc.
    destruct (blanks_sub_head w (Str.replace ", " " "
                (Re.sub Pat.guard_pattern "" (Str.replace "] [" "][" rest))) Hw)
      as [w' [s' [E Hw']]].
    rewrite E. rewrite replace_cons by apply (space_facts w' Hw').
    simpl. rewrite Hw'. reflexivity. }
  unfold Common.Instruction_init.
  rewrite T1, T0, T2, T3, T4, T5, T6.
  cbn [bind tl]. rewrite (replace_absent " " "" "" guard Cs).
  rewrite (contains_app_prefix "." "CC" guard body Cd).
  replace (String.eqb (guard ++ kept) "IMNMX.XHI") with false
    by (unfold guard, long_guard; reflexivity).
  rewrite orb_false_r.
  destruct (mapM _ _); simpl; [|reflexivity].
  destruct (Str.contains ".CC" body); reflexivity.
Qed.

End InstructionFacts.

(** ** The recursion of the classifier ends *)

Lemma replace_from_length (old : string) (s : string) :
  forall k, String.length (Str.replace_from old "" k s) <= String.length s.
Proof.
  induction s as [|c s IH]; intros k; [apply Nat.le_refl|].
  cbn [Str.replace_from]. destruct k as [|k].
  - destruct (String.prefix old (String c s)).
    + cbn [String.append String.length]. specialize (IH (pred (String.length old))). lia.
    + cbn [String.length]. specialize (IH 0). lia.
  - cbn [String.length]. specialize (IH k). lia.
Qed.

Lemma replace_length (old s : string) :
  String.length (Str.replace old "" s) <= String.length s.
Proof. apply replace_from_length. Qed.

Lemma prefix_empty (s : string) : String.prefix "" s = true.
Proof. destruct s; reflexivity. Qed.

Lemma replace_char_length (c : ascii) (s : string) :
  String.length (Str.replace (String c "") "" s) + Str.count c s = String.length s.
Proof.
  unfold Str.replace. induction s as [|c' s IH]; [reflexivity|].
  cbn [Str.replace_from Str.count String.prefix String.length].
  destruct (ascii_dec c c') as [->|n].
  - rewrite prefix_empty, Ascii.eqb_refl. cbn [String.append pred]. lia.
  - destruct (Ascii.eqb_spec c c') as [e|_]; [contradiction|].
    cbn [String.length]. lia.
Qed.

Lemma lstrip_length (chars s : string) :
  String.length (Str.lstrip chars s) <= String.length s.
Proof.
  induction s as [|c s IH]; [apply Nat.le_refl|].
  cbn [Str.lstrip]. destruct (Chr.one_of chars c); cbn [String.length]; lia.
Qed.

Lemma rstrip_length (chars s : string) :
  String.length (Str.rstrip chars s) <= String.length s.
Proof.
  induction s as [|c s IH]; [apply Nat.le_refl|].
  cbn [Str.rstrip]. destruct (Str.rstrip chars s).
  - destruct (Chr.one_of chars c); cbn [String.length]; lia.
  - cbn [String.length] in *. lia.
Qed.

Lemma substring_length (s : string) :
  forall n m, String.length (String.substring n m s) <= String.length s.
Proof.
  induction s as [|c s IH]; intros n m.
  - destruct n, m; apply Nat.le_refl.
  - destruct n as [|n].
    + destruct m as [|m]; cbn [String.substring String.length]; [lia|].
      specialize (IH 0 m). lia.
    + cbn [String.substring String.length]. specialize (IH n m). lia.
Qed.

Lemma slice_length (s : string) (a b : option Z) :
  String.length (Str.slice s a b) <= String.length s.
Proof. apply substring_length. Qed.

(** *** What a match captures is no longer than the text it is read from *)

Lemma rep_bounded (L : nat) (Q : Re.state -> Prop) (p : ascii -> bool)
      (cs : list (nat * string)) (k : Re.state -> option Re.state) (s : string) :
  (forall st' m', bounded L st' -> k st' = Some m' -> Q m') ->
  forall n pv m,
    bounded L (Re.mkState pv s cs) ->
    Re.rep p n pv s cs k = Some m -> Q m.
Proof.
  intros Hk. induction s as [|c s IH]; intros n pv m B; cbn [Re.rep].
  - destruct (n =? 0)%nat; [|discriminate]. apply Hk, B.
  - assert (B' : bounded L (Re.mkState (Some c) s cs)).
    { destruct B as [B1 B2]. split; [cbn in *; lia|exact B2]. }
    destruct (p c).
    + destruct (Re.rep p (pred n) (Some c) s cs k) as [m0|] eqn:E.
      * intros H. inversion H; subst m0. apply (IH _ _ _ B' E).
      * destruct (n =? 0)%nat; [|discriminate]. apply Hk, B.
    + destruct (n =? 0)%nat; [|discriminate]. apply Hk, B.
Qed.

Lemma exec_bounded (L : nat) (Q : Re.state -> Prop) (r : Re.regex) :
  forall (st : Re.state) (k : Re.state -> option Re.state) (m : Re.state),
    (forall st' m', bounded L st' -> k st' = Some m' -> Q m') ->
    bounded L st ->
    Re.exec r st k = Some m -> Q m.
Proof.
  induction r as [c|p|r1 IH1 r2 IH2|r1 IH1 r2 IH2|r1 IH1|n p| | | |p|p|i r1 IH1];
    intros st k m Hk B; cbn [Re.exec].
  - destruct st as [pv s cs]. cbn [Re.rest]. destruct s as [|c' s']; [discriminate|].
    destruct (Ascii.eqb c c'); [|discriminate].
    apply Hk. destruct B as [B1 B2]. split; [cbn in *; lia|exact B2].
  - destruct st as [pv s cs]. cbn [Re.rest]. destruct s as [|c' s']; [discriminate|].
    destruct (p c'); [|discriminate].
    apply Hk. destruct B as [B1 B2]. split; [cbn in *; lia|exact B2].
  - apply IH1; [|exact B]. intros st' m' B'. apply IH2; assumption.
  - destruct (Re.exec r1 st k) as [m0|] eqn:E.
    + intros H. inversion H; subst m0. apply (IH1 st k m Hk B E).
    + apply IH2; assumption.
  - destruct (Re.exec r1 st k) as [m0|] eqn:E.
    + intros H. inversion H; subst m0. apply (IH1 st k m Hk B E).
    + apply Hk, B.
  - destruct st as [pv s cs]. cbn [Re.prev Re.rest Re.caps].
    apply (rep_bounded L Q p cs k s Hk). exact B.
  - destruct (Re.prev st); [discriminate|]. apply Hk, B.
  - destruct (Re.at_end (Re.rest st)); [|discriminate]. apply Hk, B.
  - destruct (xorb _ _); [|discriminate]. apply Hk, B.
  - destruct (Re.prev st) as [c|]; [|discriminate]. destruct (p c); [|discriminate]. apply Hk, B.
  - destruct (Re.prev st) as [c|]; [|apply Hk, B]. destruct (p c); [discriminate|]. apply Hk, B.
  - apply IH1; [|exact B]. intros st' m' B'. apply Hk.
    destruct B as [B1 B2], B' as [B1' B2']. split; [exact B1'|].
    cbn [Re.caps]. intros j v [E|I].
    + inversion E; subst. pose proof (substring_length (Re.rest st) 0
        (String.length (Re.rest st) - String.length (Re.rest st'))). lia.
    + apply (B2' j v I).
Qed.

Lemma match_at_groups (r : Re.regex) (pv : option ascii) (s : string) (m : Re.state) :
  Re.match_at r pv s = Some m ->
  forall i v, Re.group m i = Some v -> String.length v <= String.length s.
Proof.
  intros H.
  assert (G : forall i v, In (i, v) (Re.caps m) -> String.length v <= String.length s).
  { revert H. unfold Re.match_at.
    apply (exec_bounded (String.length s)
             (fun m => forall i v, In (i, v) (Re.caps m) -> String.length v <= String.length s)).
    - intros st' m' [_ B] E. inversion E; subst. exact B.
    - split; [apply Nat.le_refl|intros i v []]. }
  intros i v. unfold Re.group. generalize (Re.caps m) G. clear.
  induction l as [|[j u] l IH]; intros G; cbn [Re.lookup]; [discriminate|].
  destruct (i =? j)%nat.
  - intros E. inversion E; subst. apply (G j v). left. reflexivity.
  - apply IH. intros i' v' I. apply (G i' v'). right. exact I.
Qed.

Lemma match_after_two (c1 c2 : ascii) (r : Re.regex) (arg : string) (m : Re.state) :
  Re.match_at (Re.Cat Re.Bol (Re.Cat (Re.Cat (Re.Lit c1) (Re.Lit c2)) r)) None arg = Some m ->
  exists s, arg = String c1 (String c2 s) /\ Re.match_at r (Some c2) s = Some m.
Proof.
  unfold Re.match_at.
  destruct arg as [|a1 [|a2 s]]; cbn [Re.exec Re.prev Re.rest Re.advance Re.caps];
    try discriminate.
  - destruct (Ascii.eqb c1 a1); discriminate.
  - destruct (Ascii.eqb_spec c1 a1) as [<-|]; [|discriminate].
    destruct (Ascii.eqb_spec c2 a2) as [<-|]; [|discriminate].
    intros H. exists s. split; [reflexivity|exact H].
Qed.

Lemma const_mem_groups (arg : string) (m : Re.state) :
  Re.search Pat.const_mem_pattern arg = Some m ->
  forall i v, Re.group m i = Some v -> String.length v < String.length arg.
Proof.
  unfold Pat.const_mem_pattern. rewrite search_Bol.
  change (Re.Str "c[") with (Re.Cat (Re.Lit "c") (Re.Lit "[")).
  intros H. apply match_after_two in H. destruct H as [s [-> H]].
  intros i v G. cbn [String.length].
  pose proof (match_at_groups _ _ _ _ H i v G). lia.
Qed.

Lemma match_after_one (c1 : ascii) (r : Re.regex) (arg : string) :
  Re.matched (Re.match_at (Re.Cat Re.Bol (Re.Cat (Re.Lit c1) r)) None arg) = true ->
  exists s, arg = String c1 s.
Proof.
  unfold Re.match_at.
  destruct arg as [|a1 s]; cbn [Re.exec Re.prev Re.rest]; [discriminate|].
  destruct (Ascii.eqb_spec c1 a1) as [<-|]; [|discriminate].
  intros _. exists s. reflexivity.
Qed.

Lemma address_starts_with_bracket (arg : string) :
  Re.matched (Re.search Pat.address_pattern arg) = true ->
  exists s, arg = String "[" s.
Proof.
  unfold Pat.address_pattern. rewrite search_Bol. apply match_after_one.
Qed.

Lemma noBracket_length (s : string) :
  String.length (Str.replace "]" "" (Str.replace "[" "" (String "[" s))) <= String.length s.
Proof.
  pose proof (replace_length "]" (Str.replace "[" "" (String "[" s))).
  pose proof (replace_char_length "[" (String "[" s)) as E.
  cbn [Str.count String.length] in E. rewrite Ascii.eqb_refl in E. lia.
Qed.

Section Termination.

Variables reg preg : Type.
Variable Register_init : string -> result reg.
Variable PredicateRegister_init : string -> result preg.
Variable b : bool.

Local Abbreviation body := (Common.argument_to_object_body Register_init PredicateRegister_init b).
Local Abbreviation at_fuel := (Common.argument_to_object_fuel Register_init PredicateRegister_init b).

Section Calls.

Variables rec1 rec2 : string -> result (Common.operand reg preg).

Lemma UnaryOp_init_ext (op text : string) :
  rec1 text = rec2 text ->
  Common.UnaryOp_init rec1 op text = Common.UnaryOp_init rec2 op text.
Proof. intros E. unfold Common.UnaryOp_init. rewrite E. reflexivity. Qed.

Lemma RegAddress_init_ext (text : string) :
  (forall a,
      String.length a <= String.length (Str.replace "]" "" (Str.replace "[" "" text)) ->
      rec1 a = rec2 a) ->
  Common.RegAddress_init b rec1 text = Common.RegAddress_init b rec2 text.
Proof.
  intros E. unfold Common.RegAddress_init.
  destruct (Str.contains "+" _).
  - rewrite (E _ (slice_length _ None _)). rewrite (E _ (slice_length _ (Some _) None)).
    reflexivity.
  - rewrite (E _ (Nat.le_refl _)). reflexivity.
Qed.

(** The body calls [argument_to_object] on strictly shorter strings only. *)
Lemma argument_to_object_body_ext (arg : string) :
  (forall a, String.length a < String.length arg -> rec1 a = rec2 a) ->
  body rec1 arg = body rec2 arg.
Proof.
  intros E. unfold Common.argument_to_object_body. cbv zeta.
  pose proof (replace_length ".reuse" arg) as L.
  revert L. generalize (Str.replace ".reuse" "" arg). intros A L.
  assert (EA : forall a, String.length a < String.length A -> rec1 a = rec2 a).
  { intros a La. apply E. lia. }
  clear E L.
  destruct (Re.matched (Re.search Pat.texture_dimension_pattern A)); [reflexivity|].
  destruct (Re.matched (Re.search Pat.texture_component_pattern A)); [reflexivity|].
  destruct (Re.matched (Re.search Pat.jcal_fun_pattern A)); [reflexivity|].
  destruct (Re.matched (Re.search Pat.named_depbar_pattern A)); [reflexivity|].
  destruct (Re.matched (Re.search Pat.sreg_pattern A)); [reflexivity|].
  destruct (Re.search Pat.const_mem_pattern A) as [m|] eqn:C.
  { destruct (Re.group m 1) as [g1|] eqn:G1; [|reflexivity].
    destruct (Re.group m 2) as [g2|] eqn:G2; [|reflexivity].
    rewrite (EA g1 (const_mem_groups A m C 1 g1 G1)).
    rewrite (EA g2 (const_mem_groups A m C 2 g2 G2)). reflexivity. }
  destruct (Str.count "|" A =? 2)%nat eqn:P.
  { apply Nat.eqb_eq in P. pose proof (replace_char_length "|" A) as LP.
    destruct (Str.startswith "-|" A); apply UnaryOp_init_ext, EA.
    - pose proof (replace_length "-" (Str.replace "|" "" A)). lia.
    - lia. }
  destruct A as [|arg0 A']; [reflexivity|]. cbn [Str.first bind].
  destruct (Ascii.eqb_spec arg0 "!") as [->|_].
  { apply UnaryOp_init_ext, EA. cbn [Str.lstrip Chr.one_of list_ascii_of_string existsb].
    rewrite Ascii.eqb_refl. cbn [orb String.length].
    pose proof (lstrip_length "!" A'). lia. }
  destruct (Ascii.eqb_spec arg0 "~") as [->|_].
  { apply UnaryOp_init_ext, EA. unfold Str.strip.
    cbn [Str.lstrip Chr.one_of list_ascii_of_string existsb].
    rewrite Ascii.eqb_refl. cbn [orb String.length].
    pose proof (rstrip_length "~" (Str.lstrip "~" A')).
    pose proof (lstrip_length "~" A'). lia. }
  destruct (Ascii.eqb_spec arg0 "-") as [->|_].
  { destruct (negb (Str.contains "-INF" (String "-" A'))); cbn [andb].
    - apply UnaryOp_init_ext, EA. cbn [Str.lstrip Chr.one_of list_ascii_of_string existsb].
      rewrite Ascii.eqb_refl. cbn [orb String.length].
      pose proof (lstrip_length "-" A'). lia.
    - destruct (String.eqb _ "CC"); [reflexivity|].
      cbn [Ascii.eqb Bool.eqb andb].
      destruct (String.eqb _ "0x"); [reflexivity|].
      destruct (Re.matched (Re.search Pat.float_pattern _)); [reflexivity|].
      destruct (Re.matched (Re.search Pat.dec_pattern _)); [reflexivity|].
      destruct (Re.matched (Re.search Pat.address_pattern _)) eqn:M; [|reflexivity].
      apply address_starts_with_bracket in M. destruct M as [s M]. discriminate M. }
  cbn [andb].
  destruct (String.eqb _ "CC"); [reflexivity|].
  destruct (Ascii.eqb arg0 "R"); [reflexivity|].
  destruct (Ascii.eqb arg0 "P"); [reflexivity|].
  destruct (String.eqb _ "0x"); [reflexivity|].
  destruct (Ascii.eqb arg0 "{"); [reflexivity|].
  destruct (Re.matched (Re.search Pat.float_pattern _)); [reflexivity|].
  destruct (Re.matched (Re.search Pat.dec_pattern _)); [reflexivity|].
  destruct (Re.matched (Re.search Pat.address_pattern _)) eqn:M; [|reflexivity].
  apply address_starts_with_bracket in M. destruct M as [s M].
  inversion M; subst arg0 A'. clear M.
  apply RegAddress_init_ext. intros a La. apply EA.
  pose proof (noBracket_length s). cbn [String.length]. lia.
Qed.

End Calls.

Lemma argument_to_object_fuel_stable (n : nat) :
  forall (fuel1 fuel2 : nat) (arg : string),
    String.length arg <= n ->
    String.length arg < fuel1 -> String.length arg < fuel2 ->
    at_fuel fuel1 arg = at_fuel fuel2 arg.
Proof.
  induction n as [|n IH]; intros fuel1 fuel2 arg Ln L1 L2;
    (destruct fuel1 as [|f1]; [lia|]); (destruct fuel2 as [|f2]; [lia|]);
    cbn [Common.argument_to_object_fuel];
    apply argument_to_object_body_ext; intros a La.
  - lia.
  - apply IH; lia.
Qed.

(** Any fuel above the length of the token gives the result of
    [argument_to_object]. *)
Lemma argument_to_object_fuel_enough (fuel : nat) (arg : string) :
  String.length arg < fuel ->
  at_fuel fuel arg = Common.argument_to_object Register_init PredicateRegister_init b arg.
Proof.
  intros L. unfold Common.argument_to_object.
  apply (argument_to_object_fuel_stable (String.length arg)); lia.
Qed.

End Termination.

(** *** The bound on the recursion is never reached *)

Lemma safe_Ok {A : Type} (a : A) : safe (Ok a).
Proof. discriminate. Qed.

Lemma safe_bind {A B : Type} (c : result A) (k : A -> result B) :
  safe c -> (forall a, c = Ok a -> safe (k a)) -> safe (bind c k).
Proof.
  intros Hc Hk. destruct c as [a|e]; cbn [bind].
  - apply Hk. reflexivity.
  - intros E. apply Hc. inversion E. reflexivity.
Qed.

Section NoRecursionError.

Variables reg preg : Type.
Variable Register_init : string -> result reg.
Variable PredicateRegister_init : string -> result preg.
Variable b : bool.

Hypothesis Register_init_safe : forall s, safe (Register_init s).
Hypothesis PredicateRegister_init_safe : forall s, safe (PredicateRegister_init s).

Section Calls.

Variable rec : string -> result (Common.operand reg preg).

Lemma UnaryOp_init_safe (op text : string) :
  safe (rec text) -> safe (Common.UnaryOp_init rec op text).
Proof.
  intros S. unfold Common.UnaryOp_init. destruct (negb _); [discriminate|].
  apply safe_bind; [exact S|]. intros a _. apply safe_Ok.
Qed.

Lemma RegAddress_init_safe (text : string) :
  (forall a,
      String.length a <= String.length (Str.replace "]" "" (Str.replace "[" "" text)) ->
      safe (rec a)) ->
  safe (Common.RegAddress_init b rec text).
Proof.
  intros S. unfold Common.RegAddress_init.
  destruct (Str.contains "+" _).
  - apply safe_bind; [apply S, slice_length|]. intros base _.
    apply safe_bind; [apply S, slice_length|]. intros off _.
    destruct (_ || _); [|discriminate]. destruct (_ || _); discriminate.
  - apply safe_bind; [apply S, Nat.le_refl|]. intros base _.
    destruct (_ || _); discriminate.
Qed.

Lemma argument_to_object_body_safe (arg : string) :
  (forall a, String.length a < String.length arg -> safe (rec a)) ->
  safe (Common.argument_to_object_body Register_init PredicateRegister_init b rec arg).
Proof.
  intros E. unfold Common.argument_to_object_body. cbv zeta.
  pose proof (replace_length ".reuse" arg) as L.
  revert L. generalize (Str.replace ".reuse" "" arg). intros A L.
  assert (EA : forall a, String.length a < String.length A -> safe (rec a)).
  { intros a La. apply E. lia. }
  clear E L.
  destruct (Re.matched (Re.search Pat.texture_dimension_pattern A)); [discriminate|].
  destruct (Re.matched (Re.search Pat.texture_component_pattern A)); [discriminate|].
  destruct (Re.matched (Re.search Pat.jcal_fun_pattern A)); [discriminate|].
  destruct (Re.matched (Re.search Pat.named_depbar_pattern A)); [discriminate|].
  destruct (Re.matched (Re.search Pat.sreg_pattern A)); [discriminate|].
  destruct (Re.search Pat.const_mem_pattern A) as [m|] eqn:C.
  { destruct (Re.group m 1) as [g1|] eqn:G1; [|discriminate].
    destruct (Re.group m 2) as [g2|] eqn:G2; [|discriminate].
    apply safe_bind; [apply EA, (const_mem_groups A m C 1 g1 G1)|]. intros bank _.
    apply safe_bind; [apply EA, (const_mem_groups A m C 2 g2 G2)|]. intros off _.
    apply safe_Ok. }
  destruct (Str.count "|" A =? 2)%nat eqn:P.
  { apply Nat.eqb_eq in P. pose proof (replace_char_length "|" A) as LP.
    destruct (Str.startswith "-|" A); apply UnaryOp_init_safe, EA.
    - pose proof (replace_length "-" (Str.replace "|" "" A)). lia.
    - lia. }
  destruct A as [|arg0 A']; [discriminate|]. cbn [Str.first bind].
  destruct (Ascii.eqb_spec arg0 "!") as [->|_].
  { apply UnaryOp_init_safe, EA. cbn [Str.lstrip Chr.one_of list_ascii_of_string existsb].
    rewrite Ascii.eqb_refl. cbn [orb String.length].
    pose proof (lstrip_length "!" A'). lia. }
  destruct (Ascii.eqb_spec arg0 "~") as [->|_].
  { apply UnaryOp_init_safe, EA. unfold Str.strip.
    cbn [Str.lstrip Chr.one_of list_ascii_of_string existsb].
    rewrite Ascii.eqb_refl. cbn [orb String.length].
    pose proof (rstrip_length "~" (Str.lstrip "~" A')).
    pose proof (lstrip_length "~" A'). lia. }
  assert (Tail :
    safe (if String.eqb (Str.slice (String arg0 A') (Some 0%Z) (Some 2%Z)) "CC"
          then Ok (CC_Register_init (String arg0 A'))
          else if Ascii.eqb arg0 "R"
          then r <- Register_init (String arg0 A') ;; Ok (Register r)
          else if Ascii.eqb arg0 "P"
          then p <- PredicateRegister_init (String arg0 A') ;; Ok (PredicateRegister p)
          else if String.eqb (Str.slice (String arg0 A') (Some 0%Z) (Some 2%Z)) "0x"
          then Ok (HexImmediate (String arg0 A'))
          else if Ascii.eqb arg0 "{" then Ok (Barrier (String arg0 A'))
          else if Re.matched (Re.search Pat.float_pattern (String arg0 A'))
          then Ok (FloatImmediate_init (String arg0 A'))
          else if Re.matched (Re.search Pat.dec_pattern (String arg0 A'))
          then Ok (DecImmediate (String arg0 A'))
          else if Re.matched (Re.search Pat.address_pattern (String arg0 A'))
          then Common.RegAddress_init b rec (String arg0 A')
          else Raise ValueError)).
  { destruct (String.eqb _ "CC"); [discriminate|].
    destruct (Ascii.eqb arg0 "R").
    { apply safe_bind; [apply Register_init_safe|]. intros; apply safe_Ok. }
    destruct (Ascii.eqb arg0 "P").
    { apply safe_bind; [apply PredicateRegister_init_safe|]. intros; apply safe_Ok. }
    destruct (String.eqb _ "0x"); [discriminate|].
    destruct (Ascii.eqb arg0 "{"); [discriminate|].
    destruct (Re.matched (Re.search Pat.float_pattern _)); [discriminate|].
    destruct (Re.matched (Re.search Pat.dec_pattern _)); [discriminate|].
    destruct (Re.matched (Re.search Pat.address_pattern _)) eqn:M; [|discriminate].
    apply address_starts_with_bracket in M. destruct M as [s M].
    inversion M; subst arg0 A'. clear M.
    apply RegAddress_init_safe. intros a La. apply EA.
    pose proof (noBracket_length s). cbn [String.length]. lia. }
  destruct (Ascii.eqb_spec arg0 "-") as [->|_]; [|exact Tail].
  destruct (negb (Str.contains "-INF" (String "-" A'))); cbn [andb]; [|exact Tail].
  apply UnaryOp_init_safe, EA. cbn [Str.lstrip Chr.one_of list_ascii_of_string existsb].
  rewrite Ascii.eqb_refl. cbn [orb String.length].
  pose proof (lstrip_length "-" A'). lia.
Qed.

End Calls.

Lemma argument_to_object_fuel_safe (fuel : nat) :
  forall arg : string,
    String.length arg < fuel ->
    safe (Common.argument_to_object_fuel Register_init PredicateRegister_init b fuel arg).
Proof.
  induction fuel as [|fuel IH]; intros arg L; [lia|].
  cbn [Common.argument_to_object_fuel].
  apply argument_to_object_body_safe. intros a La. apply IH. lia.
Qed.

Lemma argument_to_object_safe (arg : string) :
  safe (Common.argument_to_object Register_init PredicateRegister_init b arg).
Proof. apply argument_to_object_fuel_safe. lia. Qed.

End NoRecursionError.

Lemma Ast_Register_init_safe (s : string) : safe (Ast.Register_init s).
Proof.
  unfold Ast.Register_init. cbn [setattr Ast.Register_properties existsb bind].
  simpl. destruct (String.eqb _ "RZ"); [discriminate|].
  unfold Int.int. destruct (match _ with EmptyString => _ | String _ _ => _ end); discriminate.
Qed.

(** ** Tokens no rule takes *)

Section Unrecognised.

Variables reg preg : Type.
Variable Register_init : string -> result reg.
Variable PredicateRegister_init : string -> result preg.
Variable b : bool.

Lemma argument_to_object_unrecognised (arg : string) :
  String.eqb (Str.replace ".reuse" "" arg) "" = false ->
  some_rule_matches (Str.replace ".reuse" "" arg) = false ->
  Common.argument_to_object Register_init PredicateRegister_init b arg = Raise ValueError.
Proof.
  unfold Common.argument_to_object. cbn [Common.argument_to_object_fuel].
  unfold Common.argument_to_object_body. cbv zeta.
  generalize (Common.argument_to_object_fuel Register_init PredicateRegister_init b
                (String.length arg)).
  generalize (Str.replace ".reuse" "" arg). clear arg.
  intros A rec Hne H. destruct A as [|c A']; [discriminate Hne|].
  unfold some_rule_matches in H.
  repeat match type of H with
         | _ || _ = false =>
             let H' := fresh "G" in
             apply orb_false_elim in H; destruct H as [H H']
         end.
  cbn [first_is] in *.
  rewrite H, G15, G14, G13, G12.
  destruct (Re.search Pat.const_mem_pattern (String c A')); [discriminate G11|].
  rewrite G10. cbn [Str.first bind].
  rewrite G9, G8, G7, G6, G5, G4, G3, G2, G1, G0, G. reflexivity.
Qed.

End Unrecognised.

(** *** The two modules *)

Lemma SassAst_Register_init_safe (s : string) : safe (SassAst.Register_init s).
Proof. discriminate. Qed.

Lemma Ast_PredicateRegister_init_safe (s : string) : safe (Ast.PredicateRegister_init s).
Proof. discriminate. Qed.

Lemma SassAst_PredicateRegister_init_safe (s : string) :
  safe (SassAst.PredicateRegister_init s).
Proof. discriminate. Qed.

(** Neither classifier exhausts the bound on its recursion. *)
Lemma Ast_argument_to_object_safe (arg : string) : safe (Ast.argument_to_object arg).
Proof.
  apply argument_to_object_safe;
    [apply Ast_Register_init_safe|apply Ast_PredicateRegister_init_safe].
Qed.

Lemma SassAst_argument_to_object_safe (arg : string) : safe (SassAst.argument_to_object arg).
Proof.
  apply argument_to_object_safe;
    [apply SassAst_Register_init_safe|apply SassAst_PredicateRegister_init_safe].
Qed.

(** ** More on the string methods *)

Lemma substring_all (t : string) : String.substring 0 (String.length t) t = t.
Proof. induction t as [|c t IH]; [reflexivity|]. cbn. rewrite IH. reflexivity. Qed.

Lemma substring_beyond (t : string) :
  forall k n m, String.length t <= n -> String.length t <= m ->
                String.substring k n t = String.substring k m t.
Proof.
  induction t as [|c t IH]; intros k n m Hn Hm.
  - destruct k, n, m; reflexivity.
  - cbn [String.length] in *. destruct k as [|k].
    + destruct n as [|n]; [lia|]. destruct m as [|m]; [lia|].
      cbn [String.substring]. f_equal. apply (IH 0); lia.
    + cbn [String.substring]. apply IH; lia.
Qed.

(** [drop k s] is [s[k:]]. *)
Lemma replace_from_drop (old new : string) (s : string) :
  forall k, Str.replace_from old new k s
            = Str.replace old new (String.substring k (String.length s) s).
Proof.
  unfold Str.replace. induction s as [|c s IH]; intros k.
  - destruct k; reflexivity.
  - destruct k as [|k].
    + rewrite substring_all. reflexivity.
    + cbn [Str.replace_from String.length String.substring]. rewrite IH.
      rewrite (substring_beyond s k (String.length s) (S (String.length s))) by lia.
      reflexivity.
Qed.

Lemma replace_unfold_match (old new : string) (c : ascii) (s : string) :
  String.prefix old (String c s) = true ->
  Str.replace old new (String c s)
  = new ++ Str.replace old new
             (String.substring (pred (String.length old)) (String.length s) s).
Proof.
  intros H. unfold Str.replace at 1. cbn [Str.replace_from]. rewrite H.
  rewrite replace_from_drop. reflexivity.
Qed.

Lemma replace_unfold_skip (old new : string) (c : ascii) (s : string) :
  String.prefix old (String c s) = false ->
  Str.replace old new (String c s) = String c (Str.replace old new s).
Proof.
  intros H. unfold Str.replace. cbn [Str.replace_from]. rewrite H. reflexivity.
Qed.

(** *** The replacement of "] [" *)

(** What the text looks like where "] [" starts. *)
Lemma prefix_bracket_inv (s : string) :
  String.prefix "] [" s = true -> exists t, s = "] [" ++ t.
Proof.
  destruct s as [|c1 [|c2 [|c3 t]]]; cbn [String.prefix].
  - discriminate.
  - destruct (ascii_dec "]" c1); discriminate.
  - destruct (ascii_dec "]" c1); [|discriminate]. destruct (ascii_dec " " c2); discriminate.
  - destruct (ascii_dec "]" c1) as [<-|]; [|discriminate].
    destruct (ascii_dec " " c2) as [<-|]; [|discriminate].
    destruct (ascii_dec "[" c3) as [<-|]; [|discriminate].
    intros _. exists t. reflexivity.
Qed.

(** An induction that follows [replace("] [", "][")]: over an occurrence, or
    over one character. *)
Lemma bracket_ind (P : string -> Prop) :
  P EmptyString ->
  (forall t, P t -> P ("] [" ++ t)) ->
  (forall c s, String.prefix "] [" (String c s) = false -> P s -> P (String c s)) ->
  forall s, P s.
Proof.
  intros H0 Hm Hs s.
  assert (G : forall n s, String.length s <= n -> P s).
  { induction n as [|n IH]; intros s0 L.
    - destruct s0; [exact H0|cbn in L; lia].
    - destruct s0 as [|c s0]; [exact H0|].
      destruct (String.prefix "] [" (String c s0)) eqn:E.
      + apply prefix_bracket_inv in E. destruct E as [t E]. rewrite E.
        apply Hm, IH. rewrite E in L. cbn in L. lia.
      + apply Hs; [exact E|]. apply IH. cbn in L. lia. }
  apply (G (String.length s)). apply Nat.le_refl.
Qed.

Lemma prefix_bracket (t : string) : String.prefix "] [" ("] [" ++ t) = true.
Proof.
  cbn [String.append String.prefix].
  repeat (destruct (ascii_dec _ _) as [_|n]; [|congruence]). apply prefix_empty.
Qed.

Lemma replace_bracket_match (t : string) :
  Str.replace "] [" "][" ("] [" ++ t) = "][" ++ Str.replace "] [" "][" t.
Proof.
  pose proof (prefix_bracket t) as E. cbn [String.append] in *.
  rewrite replace_unfold_match by exact E.
  cbn [String.length pred String.substring].
  rewrite (substring_beyond t 0 (S (S (String.length t))) (String.length t)) by lia.
  rewrite substring_all. reflexivity.
Qed.

(** Only blanks disappear when "] [" is replaced. *)
Lemma count_replace_bracket (c : ascii) (s : string) :
  Ascii.eqb c " " = false ->
  Str.count c (Str.replace "] [" "][" s) = Str.count c s.
Proof.
  intros Hc. revert s. apply bracket_ind.
  - reflexivity.
  - intros t IH. rewrite replace_bracket_match.
    cbn [String.append Str.count]. rewrite IH, Hc. reflexivity.
  - intros c0 s E IH. rewrite replace_unfold_skip by exact E.
    cbn [Str.count]. rewrite IH. reflexivity.
Qed.

Lemma contains_char_count (c : ascii) (s : string) :
  Str.contains (String c "") s = negb (Str.count c s =? 0)%nat.
Proof.
  induction s as [|c' s IH]; [reflexivity|].
  cbn [Str.contains String.prefix Str.count].
  destruct (ascii_dec c c') as [<-|n].
  - rewrite prefix_empty, Ascii.eqb_refl. reflexivity.
  - destruct (Ascii.eqb_spec c c') as [e|_]; [contradiction|]. exact IH.
Qed.

Lemma contains_absent (o : ascii) (sub s : string) :
  Str.count o s = 0%nat -> Str.contains (String o sub) s = false.
Proof.
  intros H. rewrite <- (append_empty s).
  rewrite contains_app_prefix by exact H. reflexivity.
Qed.

Lemma count_contains_false (c : ascii) (s : string) :
  Str.contains (String c "") s = false -> Str.count c s = 0%nat.
Proof.
  rewrite contains_char_count. destruct (Str.count c s); [reflexivity|discriminate].
Qed.

(** The text where "] [" was replaced holds no "] [": a second replacement
    changes nothing. *)
Lemma replace_bracket_head (c : ascii) (s : string) :
  Ascii.eqb c "]" = false ->
  first_is c (Str.replace "] [" "][" s) = first_is c s.
Proof.
  intros Hc. destruct s as [|c0 s]; [reflexivity|].
  destruct (String.prefix "] [" (String c0 s)) eqn:E.
  - apply prefix_bracket_inv in E. destruct E as [t E]. rewrite E.
    rewrite replace_bracket_match. cbn. destruct (Ascii.eqb_spec "]" c) as [<-|_].
    + rewrite Ascii.eqb_refl in Hc. discriminate.
    + reflexivity.
  - rewrite replace_unfold_skip by exact E. reflexivity.
Qed.

Lemma prefix_bracket_false (c1 : ascii) (s : string) :
  String.prefix "] [" (String c1 s) = false ->
  Ascii.eqb c1 "]" = false
  \/ match s with
     | String c2 s2 => Ascii.eqb c2 " " = false \/ first_is "[" s2 = false
     | EmptyString => True
     end.
Proof.
  destruct (Ascii.eqb_spec c1 "]") as [->|n]; [|left; reflexivity].
  intros H. right. destruct s as [|c2 s2]; [exact I|].
  destruct (Ascii.eqb_spec c2 " ") as [->|n2]; [|left; reflexivity].
  right. destruct s2 as [|c3 s3]; [reflexivity|].
  cbn [first_is]. destruct (Ascii.eqb_spec c3 "[") as [->|n3]; [|reflexivity].
  pose proof (prefix_bracket s3) as E. cbn [String.append] in E. congruence.
Qed.

Lemma prefix_bracket_of_false (c1 : ascii) (s : string) :
  Ascii.eqb c1 "]" = false
  \/ match s with
     | String c2 s2 => Ascii.eqb c2 " " = false \/ first_is "[" s2 = false
     | EmptyString => True
     end ->
  String.prefix "] [" (String c1 s) = false.
Proof.
  intros H. destruct (String.prefix "] [" (String c1 s)) eqn:E; [|reflexivity].
  apply prefix_bracket_inv in E. destruct E as [t E]. inversion E; subst c1 s.
  destruct H as [H|[H|H]]; discriminate H.
Qed.

Lemma replace_bracket_no_occurrence (s : string) :
  Str.contains "] [" (Str.replace "] [" "][" s) = false.
Proof.
  revert s. apply bracket_ind.
  - reflexivity.
  - intros t IH. rewrite replace_bracket_match. cbn [String.append Str.contains].
    rewrite (prefix_bracket_of_false "]" _) by (right; left; reflexivity).
    rewrite (prefix_head_neq "]" "[" " [" _ eq_refl). exact IH.
  - intros c s E IH. rewrite replace_unfold_skip by exact E.
    cbn [Str.contains]. rewrite IH.
    rewrite prefix_bracket_of_false; [reflexivity|].
    apply prefix_bracket_false in E. destruct E as [E|E]; [left; exact E|right].
    destruct s as [|c2 s2]; [exact I|].
    destruct (String.prefix "] [" (String c2 s2)) eqn:E2.
    + apply prefix_bracket_inv in E2. destruct E2 as [t E2]. rewrite E2.
      rewrite replace_bracket_match. left. reflexivity.
    + rewrite replace_unfold_skip by exact E2.
      destruct E as [E|E]; [left; exact E|right].
      rewrite replace_bracket_head by reflexivity. exact E.
Qed.

Lemma replace_not_contained (old new s : string) :
  Str.contains old s = false -> Str.replace old new s = s.
Proof.
  unfold Str.replace. induction s as [|c s IH]; [reflexivity|].
  cbn [Str.contains Str.replace_from].
  destruct (String.prefix old (String c s)); [discriminate|].
  intros H. rewrite (IH H). reflexivity.
Qed.

Lemma replace_bracket_idempotent (s : string) :
  Str.replace "] [" "][" (Str.replace "] [" "][" s) = Str.replace "] [" "][" s.
Proof. apply replace_not_contained, replace_bracket_no_occurrence. Qed.

(** *** Strings put together *)


Lemma count_app (o : ascii) (a b0 : string) :
  Str.count o (a ++ b0) = Str.count o a + Str.count o b0.
Proof. induction a as [|x a IH]; [reflexivity|]. cbn [String.append Str.count]. rewrite IH. lia. Qed.

Lemma all_app (p : ascii -> bool) (a b0 : string) :
  all p (a ++ b0) = all p a && all p b0.
Proof.
  induction a as [|x a IH]; [reflexivity|]. cbn [String.append all].
  rewrite IH, andb_assoc. reflexivity.
Qed.

Lemma replace_char_head (c : ascii) (s : string) :
  Str.replace (String c "") "" (String c s) = Str.replace (String c "") "" s.
Proof.
  rewrite replace_unfold_match.
  - cbn [String.length pred String.append]. rewrite substring_all. reflexivity.
  - cbn [String.prefix]. destruct (ascii_dec c c) as [_|n]; [|congruence].
    apply prefix_empty.
Qed.

Lemma prefix_app_foreign (o : ascii) (sub t : string) :
  Str.count o sub = 0%nat ->
  String.prefix sub (t ++ String o "") = String.prefix sub t.
Proof.
  revert t. induction sub as [|a sub IH]; intros t H.
  - rewrite !prefix_empty. reflexivity.
  - apply count_cons_0 in H. destruct H as [E H].
    destruct t as [|c t]; cbn [String.append String.prefix].
    + destruct (ascii_dec a o) as [e|_]; [|reflexivity].
      subst a. rewrite Ascii.eqb_refl in E. discriminate E.
    + destruct (ascii_dec a c); [apply IH, H|reflexivity].
Qed.

Lemma contains_app_foreign (o : ascii) (sub t : string) :
  Str.count o sub = 0%nat ->
  Str.contains sub (t ++ String o "") = Str.contains sub t.
Proof.
  intros H. induction t as [|c t IH].
  - pose proof (prefix_app_foreign o sub "" H) as P.
    cbn [String.append] in P |- *. cbn [Str.contains]. rewrite P.
    destruct (String.prefix sub ""); reflexivity.
  - change (String c t ++ String o "") with (String c (t ++ String o "")).
    cbn [Str.contains].
    change (String c (t ++ String o "")) with (String c t ++ String o "").
    rewrite (prefix_app_foreign o sub (String c t) H), IH. reflexivity.
Qed.

(** ** Guards of one index character *)

Lemma guard_sub_absent (s : string) :
  Str.count "@" s = 0%nat -> Re.sub Pat.guard_pattern "" s = s.
Proof.
  intros H. unfold Re.sub. rewrite <- (append_empty s) at 1.
  rewrite guard_sub_prefix by exact H. apply append_empty.
Qed.

Lemma guard_sub_drop (s : string) :
  forall k pv,
    Re.sub_from Pat.guard_pattern "" k pv s
    = Re.sub Pat.guard_pattern "" (String.substring k (String.length s) s).
Proof.
  unfold Re.sub. induction s as [|c s IH]; intros k pv.
  - destruct k; reflexivity.
  - destruct k as [|k].
    + rewrite substring_all. apply guard_sub_prev.
    + cbn [Re.sub_from String.length String.substring]. rewrite IH.
      rewrite (substring_beyond s k (String.length s) (S (String.length s))) by lia.
      reflexivity.
Qed.

Lemma short_guard_match (bang : bool) (c w : ascii) (r : string) :
  isguardindex c = true -> Chr.isspace w = true ->
  exists m, Re.match_at Pat.guard_pattern None (short_guard bang c w ++ r) = Some m
            /\ Re.rest m = r.
Proof.
  intros Hc Hw. unfold Re.match_at, Pat.guard_pattern, short_guard.
  destruct bang; cbn [String.append Re.exec Re.rest Re.advance Re.prev Re.caps];
    change (Chr.one_of "TN" c || Chr.isdigit c) with (isguardindex c);
    unfold Pat.space; rewrite Hc, Hw; cbn; eexists; split; reflexivity.
Qed.

Lemma short_guard_length (bang : bool) (c w : ascii) (r : string) :
  String.length (short_guard bang c w ++ r)
  = (if bang then 5 else 4) + String.length r.
Proof. destruct bang; reflexivity. Qed.

Lemma drop_short_guard (bang : bool) (c w : ascii) (r : string) (n : nat) :
  String.length r <= n ->
  match short_guard bang c w ++ r with
  | String _ t => String.substring (if bang then 4 else 3) n t
  | EmptyString => EmptyString
  end = r.
Proof.
  intros L. destruct bang; cbn [short_guard String.append String.substring];
    rewrite (substring_beyond r 0 n (String.length r)) by lia; apply substring_all.
Qed.

(** The guard pattern removes a guard of one index character at the start
    of the text. *)
Lemma guard_sub_short_guard (bang : bool) (c w : ascii) (r : string) :
  isguardindex c = true -> Chr.isspace w = true ->
  Re.sub Pat.guard_pattern "" (short_guard bang c w ++ r) = Re.sub Pat.guard_pattern "" r.
Proof.
  intros Hc Hw.
  destruct (short_guard_match bang c w r Hc Hw) as [m [M R]].
  pose proof (short_guard_length bang c w r) as L.
  pose proof (drop_short_guard bang c w r) as D.
  unfold Re.sub at 1. revert M L D.
  destruct (short_guard bang c w ++ r) as [|a t] eqn:E; [destruct bang; discriminate E|].
  intros M L D. cbn [Re.sub_from]. rewrite M, R. cbn [String.append].
  rewrite guard_sub_drop. cbn [String.length] in L.
  assert (N : pred (String.length (String a t) - String.length r)
              = if bang then 4 else 3).
  { cbn [String.length]. destruct bang; cbv iota in L; lia. }
  assert (Lt : String.length r <= String.length t).
  { destruct bang; cbv iota in L; lia. }
  rewrite N. rewrite (D _ Lt). reflexivity.
Qed.

Lemma short_guard_count (bang : bool) (c w : ascii) (o : ascii) :
  isguardindex c = true -> Chr.isspace w = true ->
  isguardindex o = false -> Chr.isspace o = false ->
  Ascii.eqb o "@" = false -> Ascii.eqb o "!" = false -> Ascii.eqb o "P" = false ->
  Str.count o (short_guard bang c w) = 0%nat.
Proof.
  intros Hc Hw Ho Ho' Ha Hb HP.
  assert (Ec : Ascii.eqb o c = false)
    by (destruct (Ascii.eqb_spec o c) as [->|]; [congruence|reflexivity]).
  assert (Ew : Ascii.eqb o w = false)
    by (destruct (Ascii.eqb_spec o w) as [->|]; [congruence|reflexivity]).
  unfold short_guard. destruct bang; cbn [String.append Str.count];
    rewrite Ha, ?Hb, HP, Ec, Ew; reflexivity.
Qed.

Section ShortGuard.

Variables reg preg : Type.
Variable Register_init : string -> result reg.
Variable PredicateRegister_init : string -> result preg.
Variable b : bool.

(** What [Instruction.__init__] keeps as its text. *)
Lemma Instruction_text_cases (text : string) :
  (if Str.contains "@" text then Re.sub Pat.guard_pattern "" text else text)
  = Re.sub Pat.guard_pattern "" text.
Proof.
  destruct (Str.contains "@" text) eqn:E; [reflexivity|].
  symmetry. apply guard_sub_absent, count_contains_false, E.
Qed.

Lemma Instruction_init_short_guard (bang : bool) (c w : ascii) (rest : string) :
  isguardindex c = true -> Chr.isspace w = true ->
  Common.Instruction_init Register_init PredicateRegister_init b
    (short_guard bang c w ++ rest)
  = Common.Instruction_init Register_init PredicateRegister_init b rest.
Proof.
  intros Hc Hw. unfold Common.Instruction_init.
  rewrite !Instruction_text_cases.
  rewrite replace_app_prefix
    by (apply short_guard_count; auto).
  rewrite guard_sub_short_guard by assumption. reflexivity.
Qed.

End ShortGuard.

Lemma guardindex_facts (c : ascii) :
  isguardindex c = true ->
  Chr.isspace c = false /\ Ascii.eqb "@" c = false /\ Ascii.eqb "]" c = false
  /\ Ascii.eqb "," c = false.
Proof.
  destruct c as [[] [] [] [] [] [] [] []]; intros H; try discriminate H;
    repeat split; reflexivity.
Qed.

Lemma contains_guard_marker (s : string) : Str.contains "@" (String "@" s) = true.
Proof. apply contains_head. Qed.

Lemma prefix_second_neq (a b c1 c2 : ascii) (t s : string) :
  Ascii.eqb b c2 = false ->
  String.prefix (String a (String b t)) (String c1 (String c2 s)) = false.
Proof.
  intros E. cbn [String.prefix]. destruct (ascii_dec a c1); [|reflexivity].
  destruct (ascii_dec b c2) as [->|]; [|reflexivity].
  rewrite Ascii.eqb_refl in E. discriminate E.
Qed.

Section Statements.

Variables reg preg : Type.
Variable Register_init : string -> result reg.
Variable PredicateRegister_init : string -> result preg.
Variable b : bool.

(** [Statement] has replaced "] [" already when it calls [Instruction]. *)
Lemma Instruction_init_replaced (text : string) :
  Common.Instruction_init Register_init PredicateRegister_init b
    (Str.replace "] [" "][" text)
  = Common.Instruction_init Register_init PredicateRegister_init b text.
Proof.
  unfold Common.Instruction_init. rewrite replace_bracket_idempotent. reflexivity.
Qed.

Lemma Statement_init_short_guard
      (label : string) (bang : bool) (c w : ascii) (rest : string) :
  isguardindex c = true -> Chr.isspace w = true ->
  Str.contains "@" rest = false ->
  Common.Statement_init Register_init PredicateRegister_init b label
    (short_guard bang c w ++ rest) None
  = (predReg <- match PredicateRegister_init (String "P" (String c "")) with
                | Ok p => Ok (Some p)
                | Raise _ => Raise ValueError
                end ;;
     i <- Common.Instruction_init Register_init PredicateRegister_init b rest ;;
     Ok (mkStatement label (short_guard bang c w ++ Str.replace "] [" "][" rest)
           true bang predReg i)).
Proof.
  intros Hc Hw Hr.
  destruct (guardindex_facts c Hc) as [Cs [Ca [Cb Cc]]].
  destruct (space_facts w Hw) as [Wa [Wb [Wc Wd]]].
  assert (R0 : Str.count "@" (Str.replace "] [" "][" rest) = 0%nat).
  { rewrite count_replace_bracket by reflexivity. apply count_contains_false, Hr. }
  unfold Common.Statement_init.
  assert (T1 : Str.replace "] [" "][" (short_guard bang c w ++ rest)
               = short_guard bang c w ++ Str.replace "] [" "][" rest).
  { apply replace_app_prefix. unfold short_guard.
    destruct bang; cbn [String.append Str.count]; rewrite Cb, Wb; reflexivity. }
  rewrite T1.
  set (r1 := Str.replace "] [" "][" rest) in *.
  assert (P1 : Str.contains "@" (short_guard bang c w ++ r1) = true).
  { unfold short_guard. apply contains_head. }
  assert (P2 : Str.contains "@!" (short_guard bang c w ++ r1) = bang).
  { unfold short_guard. destruct bang; cbn [String.append].
    - cbn [Str.contains String.prefix].
      repeat (destruct (ascii_dec _ _) as [_|n]; [|congruence]).
      reflexivity.
    - cbn [Str.contains]. rewrite prefix_second_neq by reflexivity.
      rewrite (prefix_head_neq "@" "P" "!" _ eq_refl).
      rewrite (prefix_head_neq "@" c "!" _ Ca), (prefix_head_neq "@" w "!" _ Wa).
      apply contains_absent, R0. }
  rewrite P1, P2.
  assert (T2 : Str.split (Str.replace ", " " " (short_guard bang c w ++ r1))
               = String "@" ((if bang then "!" else "") ++ String "P" (String c ""))
                 :: Str.split (String w (Str.replace ", " " " r1))).
  { replace (short_guard bang c w ++ r1)
      with (String "@" ((if bang then "!" else "") ++ String "P" (String c ""))
            ++ String w r1) by (destruct bang; reflexivity).
    rewrite replace_app_prefix
      by (destruct bang; cbn [String.append Str.count]; rewrite Cc; reflexivity).
    rewrite replace_cons by exact Wc.
    apply split_first_token.
    - discriminate.
    - destruct bang; cbn [String.append all]; rewrite Cs; reflexivity.
    - cbn [Str.starts_word]. rewrite Hw. reflexivity. }
  rewrite T2. cbn [bind].
  replace (Str.slice (String "@" ((if bang then "!" else "") ++ String "P" (String c "")))
             (Some (if bang then 2 else 1)%Z) None)
    with (String "P" (String c "")) by (destruct bang; reflexivity).
  destruct (PredicateRegister_init (String "P" (String c ""))) as [p|e]; cbn [bind];
    [|reflexivity].
  rewrite Instruction_init_short_guard by assumption.
  unfold r1. rewrite Instruction_init_replaced. reflexivity.
Qed.

(** An unguarded text: the statement is built around the instruction. *)
Lemma Statement_init_unguarded (label text : string) :
  Str.contains "@" text = false ->
  Common.Statement_init Register_init PredicateRegister_init b label text None
  = (i <- Common.Instruction_init Register_init PredicateRegister_init b text ;;
     Ok (mkStatement label (Str.replace "] [" "][" text) false false None i)).
Proof.
  intros H.
  assert (R0 : Str.count "@" (Str.replace "] [" "][" text) = 0%nat).
  { rewrite count_replace_bracket by reflexivity. apply count_contains_false, H. }
  unfold Common.Statement_init.
  rewrite (contains_absent "@" "" _ R0), (contains_absent "@" "!" _ R0).
  cbn [bind]. rewrite Instruction_init_replaced. reflexivity.
Qed.

End Statements.

(** ** Texts without a token *)

Lemma blanks_sub_all_blank (s : string) :
  all Chr.isspace s = true ->
  forall k pv, all Chr.isspace (Re.sub_from Pat.blanks_pattern " " k pv s) = true.
Proof.
  induction s as [|c s IH]; intros H k pv; [reflexivity|].
  cbn [all] in H. apply andb_prop in H. destruct H as [Hc Hs].
  cbn [Re.sub_from]. destruct k as [|k]; [|apply IH, Hs].
  destruct (Re.match_at Pat.blanks_pattern pv (String c s)).
  - cbn [String.append all]. rewrite (IH Hs). reflexivity.
  - cbn [all]. rewrite Hc, (IH Hs). reflexivity.
Qed.

Lemma split_all_blank (s : string) : all Chr.isspace s = true -> Str.split s = [].
Proof.
  induction s as [|c s IH]; intros H; [reflexivity|].
  cbn [all] in H. apply andb_prop in H. destruct H as [Hc Hs].
  cbn [Str.split]. rewrite Hc. apply IH, Hs.
Qed.

Section NoToken.

Variables reg preg : Type.
Variable Register_init : string -> result reg.
Variable PredicateRegister_init : string -> result preg.
Variable b : bool.

Lemma Instruction_init_blank (text : string) :
  all Chr.isspace text = true ->
  Common.Instruction_init Register_init PredicateRegister_init b text = Raise IndexError.
Proof.
  intros H.
  assert (C : forall o, Chr.isspace o = false -> Str.count o text = 0%nat).
  { intros o Ho. apply (count_all Chr.isspace o text Ho H). }
  unfold Common.Instruction_init. rewrite Instruction_text_cases.
  rewrite (replace_absent "]" " [" "][" text (C "]"%char eq_refl)).
  rewrite (guard_sub_absent text (C "@"%char eq_refl)).
  rewrite (replace_absent "," " " " " text (C ","%char eq_refl)).
  pose proof (blanks_sub_all_blank text H 0 None) as B. fold (Re.sub Pat.blanks_pattern " " text) in B.
  assert (C' : Str.count "," (Re.sub Pat.blanks_pattern " " text) = 0%nat).
  { apply (count_all Chr.isspace); [reflexivity|exact B]. }
  rewrite (replace_absent "," " " " " _ C').
  rewrite (split_all_blank _ B). reflexivity.
Qed.

Lemma Statement_init_blank (label text : string) :
  all Chr.isspace text = true ->
  Common.Statement_init Register_init PredicateRegister_init b label text None
  = Raise IndexError.
Proof.
  intros H. rewrite Statement_init_unguarded.
  - rewrite Instruction_init_blank by exact H. reflexivity.
  - apply contains_absent. apply (count_all Chr.isspace); [reflexivity|exact H].
Qed.

End NoToken.

(** ** The first token *)

Lemma isplain_facts (c : ascii) :
  isplain c = true ->
  Chr.isspace c = false /\ Ascii.eqb "@" c = false /\ Ascii.eqb "]" c = false
  /\ Ascii.eqb "," c = false /\ Ascii.eqb " " c = false.
Proof.
  destruct c as [[] [] [] [] [] [] [] []]; intros H; try discriminate H;
    repeat split; reflexivity.
Qed.

Lemma plain_counts (m : string) :
  all isplain m = true ->
  all (fun c => negb (Chr.isspace c)) m = true
  /\ Str.count "@" m = 0%nat /\ Str.count "]" m = 0%nat
  /\ Str.count "," m = 0%nat /\ Str.count " " m = 0%nat.
Proof.
  induction m as [|c m IH]; intros H; [repeat split; reflexivity|].
  cbn [all] in H. apply andb_prop in H. destruct H as [Hc Hm].
  destruct (IH Hm) as [I1 [I2 [I3 [I4 I5]]]].
  destruct (isplain_facts c Hc) as [F1 [F2 [F3 [F4 F5]]]].
  cbn [all Str.count]. rewrite F1, F2, F3, F4, F5, I1, I2, I3, I4, I5.
  repeat split; reflexivity.
Qed.

Lemma all_app_inv (p : ascii -> bool) (a : string) (w : ascii) (t : string) :
  all p (a ++ String w t) = true -> p w = true.
Proof.
  induction a as [|c a IH]; cbn [String.append all]; intros H;
    apply andb_prop in H; destruct H as [H1 H2]; [exact H1|apply IH, H2].
Qed.

Section FirstToken.

Variables reg preg : Type.
Variable Register_init : string -> result reg.
Variable PredicateRegister_init : string -> result preg.
Variable b : bool.

Lemma Instruction_init_first_token (m : string) (w : ascii) (rest : string) :
  m <> EmptyString -> all isplain m = true -> Chr.isspace w = true ->
  let kept := String w (Re.sub Pat.guard_pattern "" (Str.replace "] [" "][" rest)) in
  let body := Re.sub Pat.blanks_pattern " " (Str.replace ", " " " kept) in
  Common.Instruction_init Register_init PredicateRegister_init b (m ++ String w rest)
  = (args <- mapM (Common.argument_to_object Register_init PredicateRegister_init b)
                  (Str.split (Str.replace ", " " " body)) ;;
     Ok (mkInstruction (m ++ kept) args
           (if Str.contains ".CC" (m ++ body) then m ++ "CC" else m))).
Proof.
  intros Hne Hm Hw kept body.
  destruct (plain_counts m Hm) as [Nb [Ca [Cb [Cc Cs]]]].
  pose proof (space_facts w Hw) as [Wa [Wb [Wc Wd]]].
  assert (T1 : Str.replace "] [" "][" (m ++ String w rest)
               = m ++ String w (Str.replace "] [" "][" rest)).
  { rewrite replace_app_prefix by exact Cb. rewrite replace_cons by exact Wb. reflexivity. }
  assert (T2 : Re.sub Pat.guard_pattern "" (m ++ String w (Str.replace "] [" "][" rest))
               = m ++ kept).
  { unfold Re.sub at 1. rewrite guard_sub_prefix by exact Ca.
    rewrite guard_sub_cons by exact Wa. reflexivity. }
  assert (T3 : Str.replace ", " " " (m ++ kept) = m ++ Str.replace ", " " " kept).
  { apply replace_app_prefix, Cc. }
  assert (T4 : Re.sub Pat.blanks_pattern " " (m ++ Str.replace ", " " " kept) = m ++ body).
  { unfold Re.sub at 1. apply blanks_sub_prefix, Nb. }
  assert (T5 : Str.replace ", " " " (m ++ body) = m ++ Str.replace ", " " " body).
  { apply replace_app_prefix, Cc. }
  assert (T6 : Str.split (m ++ Str.replace ", " " " body)
               = m :: Str.split (Str.replace ", " " " body)).
  { apply split_first_token; [exact Hne|exact Nb|].
    unfold body, kept. rewrite replace_cons by exact Wc.
    destruct (blanks_sub_head w (Str.replace ", " " "
                (Re.sub Pat.guard_pattern "" (Str.replace "] [" "][" rest))) Hw)
      as [w' [s' [E Hw']]].
    rewrite E. rewrite replace_cons by apply (space_facts w' Hw').
    simpl. rewrite Hw'. reflexivity. }
  assert (T7 : String.eqb (m ++ kept) "IMNMX.XHI" = false).
  { destruct (String.eqb_spec (m ++ kept) "IMNMX.XHI") as [E|]; [|reflexivity].
    assert (A : all (fun c => negb (Chr.isspace c)) (m ++ kept) = true)
      by (rewrite E; reflexivity).
    unfold kept in A. apply all_app_inv in A. rewrite Hw in A. discriminate A. }
  unfold Common.Instruction_init. rewrite Instruction_text_cases.
  rewrite T1, T2, T3, T4, T5, T6, T7.
  cbn [bind tl]. rewrite (replace_absent " " "" "" m Cs).
  rewrite orb_false_r.
  destruct (mapM _ _); reflexivity.
Qed.

End FirstToken.

(** ** [HexImmediate.to_smt] *)

Lemma length_app (a b0 : string) :
  String.length (a ++ b0) = String.length a + String.length b0.
Proof. induction a as [|c a IH]; [reflexivity|]. cbn. rewrite IH. reflexivity. Qed.

Lemma times_zero_length (n : nat) : String.length (Str.times "0" n) = n.
Proof. induction n as [|n IH]; [reflexivity|]. cbn. rewrite IH. reflexivity. Qed.

Lemma to_smt_value (text : string) (width : Z) :
  width = 16%Z \/ width = 32%Z \/ width = 64%Z ->
  let val := Str.lstrip "0x" text in
  let digits := Z.to_nat (width / 4) in
  SassAst.to_smt text width
  = Ok ("#x" ++ Str.times "0" (digits - String.length val) ++ val).
Proof.
  intros H val digits. unfold SassAst.to_smt. fold val.
  assert (E : forall k : Z, (0 <= k)%Z ->
            Z.to_nat (k - Z.of_nat (String.length val))
            = Z.to_nat k - String.length val) by (intros; lia).
  destruct H as [ -> | [ -> | -> ] ]; cbn [existsb Z.eqb orb negb Pos.eqb];
    rewrite E by lia; reflexivity.
Qed.

(** ** [CC_Register.__str__] *)

Lemma split_on_no_sep (sep : ascii) (s : string) :
  Str.count sep s = 0%nat -> Str.split_on sep s = [s].
Proof.
  induction s as [|c s IH]; intros H; [reflexivity|].
  cbn [Str.count] in H. cbn [Str.split_on].
  destruct (Ascii.eqb_spec sep c) as [->|n].
  - discriminate H.
  - destruct (Ascii.eqb_spec c sep) as [e|_]; [congruence|].
    rewrite (IH H). reflexivity.
Qed.

Lemma split_on_not_nil (sep : ascii) (s : string) : Str.split_on sep s <> [].
Proof.
  destruct s as [|c s]; cbn [Str.split_on]; [discriminate|].
  destruct (Ascii.eqb c sep); [discriminate|].
  destruct (Str.split_on sep s); discriminate.
Qed.

Section CCRegister.

Variables reg preg : Type.
Variable Register_str : reg -> string.
Variable PredicateRegister_str : preg -> string.

Lemma CC_Register_str_round_trip (symbol : string) :
  Str.count "." symbol <= 1 ->
  Common.operand_str Register_str PredicateRegister_str (CC_Register_init symbol)
  = Some symbol.
Proof.
  unfold CC_Register_init. cbn [Common.operand_str].
  induction symbol as [|c s IH]; intros H; [reflexivity|].
  cbn [Str.count] in H. cbn [Str.split_on].
  destruct (Ascii.eqb_spec "."%char c) as [<-|n].
  - cbn [Ascii.eqb Bool.eqb andb]. rewrite split_on_no_sep by (cbn in H; lia).
    reflexivity.
  - destruct (Ascii.eqb_spec c ".") as [e|_]; [congruence|].
    cbn [plus] in H. specialize (IH H).
    pose proof (split_on_not_nil "." s) as Hn.
    destruct (Str.split_on "." s) as [|t ts]; [contradiction|].
    cbn [nth List.length] in *.
    destruct ts as [|u us]; cbn [List.length Nat.ltb Nat.leb nth] in *;
      inversion IH as [E]; rewrite E; cbn [String.append]; rewrite E; reflexivity.
Qed.

End CCRegister.

(** ** Operands that are their token *)

Section Leaves.

Variables reg preg : Type.
Variable Register_init : string -> result reg.
Variable PredicateRegister_init : string -> result preg.
Variable b : bool.
Variable Register_str : reg -> string.
Variable PredicateRegister_str : preg -> string.

Local Abbreviation str := (Common.operand_str Register_str PredicateRegister_str).

Lemma UnaryOp_init_not_leaf (rec : string -> result (Common.operand reg preg))
      (op text : string) (o : Common.operand reg preg) :
  Common.UnaryOp_init rec op text = Ok o -> is_plain_leaf o = false.
Proof.
  unfold Common.UnaryOp_init. destruct (negb _); [discriminate|].
  destruct (rec text); cbn [bind]; [|discriminate].
  intros H. inversion H. reflexivity.
Qed.

Lemma RegAddress_init_not_leaf (rec : string -> result (Common.operand reg preg))
      (text : string) (o : Common.operand reg preg) :
  Common.RegAddress_init b rec text = Ok o -> is_plain_leaf o = false.
Proof.
  unfold Common.RegAddress_init. destruct (Str.contains "+" _).
  - destruct (rec _); cbn [bind]; [|discriminate].
    destruct (rec _); cbn [bind]; [|discriminate].
    destruct (_ || _); [|discriminate]. destruct (_ || _); [|discriminate].
    intros H. inversion H. reflexivity.
  - destruct (rec _); cbn [bind]; [|discriminate].
    destruct (_ || _); [|discriminate].
    intros H. inversion H. reflexivity.
Qed.

Ltac leaf_case :=
  let H := fresh in
  intros H; inversion H; subst; clear H; intros L;
  first [discriminate L | reflexivity].

Lemma argument_to_object_leaf_str (arg : string) (o : Common.operand reg preg) :
  Common.argument_to_object Register_init PredicateRegister_init b arg = Ok o ->
  is_plain_leaf o = true ->
  str o = Some (Str.replace ".reuse" "" arg).
Proof.
  unfold Common.argument_to_object. cbn [Common.argument_to_object_fuel].
  generalize (Common.argument_to_object_fuel Register_init PredicateRegister_init b
                (String.length arg)).
  intros rec. unfold Common.argument_to_object_body. cbv zeta.
  generalize (Str.replace ".reuse" "" arg). clear arg. intros arg.
  destruct (Re.matched (Re.search Pat.texture_dimension_pattern arg)); [leaf_case|].
  destruct (Re.matched (Re.search Pat.texture_component_pattern arg)); [leaf_case|].
  destruct (Re.matched (Re.search Pat.jcal_fun_pattern arg)); [leaf_case|].
  destruct (Re.matched (Re.search Pat.named_depbar_pattern arg)); [leaf_case|].
  destruct (Re.matched (Re.search Pat.sreg_pattern arg)); [leaf_case|].
  destruct (Re.search Pat.const_mem_pattern arg) as [m|].
  { destruct (Re.group m 1); [|discriminate]. destruct (Re.group m 2); [|discriminate].
    destruct (rec _); cbn [bind]; [|discriminate].
    destruct (rec _); cbn [bind]; [|discriminate]. leaf_case. }
  assert (U : forall op text,
             Common.UnaryOp_init rec op text = Ok o -> is_plain_leaf o = true ->
             str o = Some arg).
  { intros op text H L. rewrite (UnaryOp_init_not_leaf rec op text o H) in L. discriminate L. }
  destruct (Str.count "|" arg =? 2)%nat.
  { destruct (Str.startswith "-|" arg); apply U. }
  destruct (Str.first arg) as [arg0|e]; cbn [bind]; [|discriminate].
  destruct (Ascii.eqb arg0 "!"); [apply U|].
  destruct (Ascii.eqb arg0 "~"); [apply U|].
  destruct (Ascii.eqb arg0 "-" && negb (Str.contains "-INF" arg)); [apply U|].
  destruct (String.eqb (Str.slice arg (Some 0%Z) (Some 2%Z)) "CC").
  { unfold CC_Register_init. leaf_case. }
  destruct (Ascii.eqb arg0 "R").
  { destruct (Register_init arg); cbn [bind]; [|discriminate]. leaf_case. }
  destruct (Ascii.eqb arg0 "P").
  { destruct (PredicateRegister_init arg); cbn [bind]; [|discriminate]. leaf_case. }
  destruct (String.eqb (Str.slice arg (Some 0%Z) (Some 2%Z)) "0x"); [leaf_case|].
  destruct (Ascii.eqb arg0 "{"); [leaf_case|].
  destruct (Re.matched (Re.search Pat.float_pattern arg)).
  { unfold FloatImmediate_init. leaf_case. }
  destruct (Re.matched (Re.search Pat.dec_pattern arg)); [leaf_case|].
  destruct (Re.matched (Re.search Pat.address_pattern arg)); [|discriminate].
  intros H L. rewrite (RegAddress_init_not_leaf rec arg o H) in L. discriminate L.
Qed.

End Leaves.

(** ** A unary operator in front of a token *)

Lemma lstrip_first (c : ascii) (t : string) :
  first_is c t = false -> Str.lstrip (String c "") (String c t) = t.
Proof.
  intros H. cbn [Str.lstrip Chr.one_of list_ascii_of_string existsb].
  rewrite Ascii.eqb_refl. cbn [orb].
  destruct t as [|c' t]; [reflexivity|].
  cbn [first_is] in H. cbn [Str.lstrip Chr.one_of list_ascii_of_string existsb].
  rewrite H. reflexivity.
Qed.

Section Unary.

Variables reg preg : Type.
Variable Register_init : string -> result reg.
Variable PredicateRegister_init : string -> result preg.
Variable b : bool.

Local Abbreviation classify :=
  (Common.argument_to_object Register_init PredicateRegister_init b).

Ltac to_operator_rule Hdot Hbar t c :=
  unfold Common.argument_to_object at 1;
  cbn [Common.argument_to_object_fuel String.length];
  unfold Common.argument_to_object_body at 1;
  rewrite Hdot; cbv zeta;
  generalize (Re.search Pat.float_pattern (String c t)) as fmatch;
  generalize (Re.search Pat.dec_pattern (String c t)) as dmatch;
  generalize (Re.search Pat.address_pattern (String c t)) as amatch;
  intros amatch dmatch fmatch;
  unfold Pat.texture_dimension_pattern, Pat.texture_component_pattern,
    Pat.jcal_fun_pattern, Pat.named_depbar_pattern, Pat.sreg_pattern, Pat.const_mem_pattern;
  rewrite !search_Bol; rewrite Hbar;
  cbn [Str.first bind].

(** "-" in front of a token that does not start with "-": the negation of
    what the token is. *)
Lemma classify_negation (t : string) :
  Str.contains ".reuse" t = false ->
  (Str.count "|" t =? 2)%nat = false ->
  first_is "-" t = false ->
  Str.contains "-INF" (String "-" t) = false ->
  classify (String "-" t)
  = (a <- classify t ;; Ok (UnaryOp "-" a (Str.contains "H1" t))).
Proof.
  intros Hr Hb Hf Hi.
  assert (Hdot : Str.replace ".reuse" "" (String "-" t) = String "-" t).
  { apply replace_not_contained. cbn [Str.contains].
    rewrite prefix_head_neq by reflexivity. exact Hr. }
  assert (Hbar : (Str.count "|" (String "-" t) =? 2)%nat = false) by exact Hb.
  to_operator_rule Hdot Hbar t "-"%char.
  rewrite Hi. rewrite (lstrip_first "-" t Hf). reflexivity.
Qed.

(** "!" in front of a token that does not start with "!": the logical not
    of what the token is. *)
Lemma classify_not (t : string) :
  Str.contains ".reuse" t = false ->
  (Str.count "|" t =? 2)%nat = false ->
  first_is "!" t = false ->
  classify (String "!" t)
  = (a <- classify t ;; Ok (UnaryOp "!" a (Str.contains "H1" t))).
Proof.
  intros Hr Hb Hf.
  assert (Hdot : Str.replace ".reuse" "" (String "!" t) = String "!" t).
  { apply replace_not_contained. cbn [Str.contains].
    rewrite prefix_head_neq by reflexivity. exact Hr. }
  assert (Hbar : (Str.count "|" (String "!" t) =? 2)%nat = false) by exact Hb.
  to_operator_rule Hdot Hbar t "!"%char.
  rewrite (lstrip_first "!" t Hf). reflexivity.
Qed.

(** "|t|": the absolute value of what [t] is. *)
Lemma classify_abs (t : string) :
  Str.contains ".reuse" t = false ->
  Str.count "|" t = 0%nat ->
  classify ("|" ++ t ++ "|")
  = (a <- classify t ;; Ok (UnaryOp "|" a (Str.contains "H1" t))).
Proof.
  intros Hr H0.
  change ("|" ++ t ++ "|") with (String "|" (t ++ "|")).
  assert (Hdot : Str.replace ".reuse" "" (String "|" (t ++ "|")) = String "|" (t ++ "|")).
  { apply replace_not_contained. cbn [Str.contains].
    rewrite prefix_head_neq by reflexivity.
    rewrite (contains_app_foreign "|" ".reuse" t eq_refl). exact Hr. }
  assert (Hbar : (Str.count "|" (String "|" (t ++ "|")) =? 2)%nat = true).
  { cbn [Str.count]. rewrite count_app, H0. reflexivity. }
  rewrite <- (argument_to_object_fuel_enough reg preg Register_init PredicateRegister_init b
                (S (String.length (t ++ "|"))) t)
    by (rewrite length_app; cbn [String.length]; lia).
  to_operator_rule Hdot Hbar (t ++ "|") "|"%char.
  unfold Str.startswith. rewrite prefix_head_neq by reflexivity.
  rewrite replace_char_head, (replace_app_prefix "|" "" "" t "|" H0).
  change (Str.replace "|" "" "|") with EmptyString. rewrite append_empty.
  reflexivity.
Qed.

(** "-|t|": the negated absolute value of what [t] without its "-" is. *)
Lemma classify_neg_abs (t : string) :
  Str.contains ".reuse" t = false ->
  Str.count "|" t = 0%nat ->
  classify ("-|" ++ t ++ "|")
  = (a <- classify (Str.replace "-" "" t) ;;
     Ok (UnaryOp "-|" a (Str.contains "H1" (Str.replace "-" "" t)))).
Proof.
  intros Hr H0.
  change ("-|" ++ t ++ "|") with (String "-" (String "|" (t ++ "|"))).
  assert (Hdot : Str.replace ".reuse" "" (String "-" (String "|" (t ++ "|")))
                 = String "-" (String "|" (t ++ "|"))).
  { apply replace_not_contained. cbn [Str.contains].
    rewrite !prefix_head_neq by reflexivity.
    rewrite (contains_app_foreign "|" ".reuse" t eq_refl). exact Hr. }
  assert (Hbar : (Str.count "|" (String "-" (String "|" (t ++ "|"))) =? 2)%nat = true).
  { cbn [Str.count]. rewrite count_app, H0. reflexivity. }
  rewrite <- (argument_to_object_fuel_enough reg preg Register_init PredicateRegister_init b
                (S (S (String.length (t ++ "|")))) (Str.replace "-" "" t))
    by (pose proof (replace_char_length "-" t) as L; rewrite length_app;
        cbn [String.length]; lia).
  to_operator_rule Hdot Hbar (String "|" (t ++ "|")) "-"%char.
  unfold Str.startswith. cbn [String.prefix].
  destruct (ascii_dec "-" "-") as [_|n]; [|congruence].
  destruct (ascii_dec "|" "|") as [_|n]; [|congruence].
  rewrite prefix_empty.
  rewrite (replace_cons "|" "-" "" "" _ eq_refl).
  rewrite (replace_char_head "|" (t ++ "|")), (replace_app_prefix "|" "" "" t "|" H0).
  change (Str.replace "|" "" "|") with EmptyString. rewrite append_empty.
  rewrite (replace_char_head "-" t).
  reflexivity.
Qed.

End Unary.

(** ** Runs of a character class *)

(** A greedy repetition takes the whole run when what follows the run
    matches. *)
Lemma rep_greedy (p : ascii -> bool) (t : string) (cs : list (nat * string))
      (k : Re.state -> option Re.state) (m : Re.state) (ds : string) :
  all p ds = true -> stops p t = true ->
  forall n pv,
    n <= String.length ds ->
    k (Re.mkState (last_prev pv ds) t cs) = Some m ->
    Re.rep p n pv (ds ++ t) cs k = Some m.
Proof.
  intros Hds Ht. induction ds as [|c ds IH]; intros n pv Hn Hk.
  - cbn [String.length] in Hn. replace n with 0 in * by lia.
    cbn [String.append last_prev] in *.
    destruct t as [|c t]; cbn [Re.rep Nat.eqb]; [exact Hk|].
    cbn [stops] in Ht. apply negb_true_iff in Ht. rewrite Ht. exact Hk.
  - cbn [all] in Hds. apply andb_prop in Hds. destruct Hds as [Hc Hds].
    cbn [String.append Re.rep]. rewrite Hc.
    rewrite (IH Hds (pred n) (Some c)); [reflexivity|cbn [String.length] in Hn; lia|exact Hk].
Qed.

(** A repetition fails when what follows fails after every run. *)
Lemma rep_none (P : string -> Prop) (p : ascii -> bool) (cs : list (nat * string))
      (k : Re.state -> option Re.state) :
  (forall c s, P (String c s) -> P s) ->
  (forall pv s, P s -> k (Re.mkState pv s cs) = None) ->
  forall s n pv, P s -> Re.rep p n pv s cs k = None.
Proof.
  intros Htail Hk. induction s as [|c s IH]; intros n pv HP; cbn [Re.rep].
  - destruct (n =? 0)%nat; [apply Hk, HP|reflexivity].
  - rewrite (IH (pred n) (Some c) (Htail c s HP)).
    destruct (p c); destruct (n =? 0)%nat; try reflexivity; apply Hk, HP.
Qed.

(** ** Strings of digits *)

Lemma all_digit_tail (c : ascii) (s : string) :
  all Chr.isdigit (String c s) = true -> all Chr.isdigit s = true.
Proof. cbn [all]. intros H. apply andb_prop in H. apply H. Qed.

Lemma digit_more_facts (c : ascii) :
  Chr.isdigit c = true ->
  Chr.isword c = true /\ Chr.isspace_int c = false /\ Chr.one_of "!~-" c = false
  /\ Ascii.eqb c "R" = false /\ Ascii.eqb c "P" = false /\ Ascii.eqb c "{" = false
  /\ Ascii.eqb "D" c = false /\ Ascii.eqb c Chr.newline = false
  /\ Ascii.eqb c "x" = false /\ Ascii.eqb c "C" = false /\ Ascii.eqb c "Z" = false
  /\ Ascii.eqb "e" c = false /\ Ascii.eqb c "+" = false /\ Ascii.eqb c "-" = false
  /\ Ascii.eqb c "_" = false.
Proof.
  destruct c as [[] [] [] [] [] [] [] []]; intros H; try discriminate H;
    repeat split; reflexivity.
Qed.


(** ** [int] on a numeral *)






(** ** The cascade after the rules of the operators *)

Section Cascade.

Variables reg preg : Type.
Variable Register_init : string -> result reg.
Variable PredicateRegister_init : string -> result preg.
Variable b : bool.

Lemma body_from_CC (rec : string -> result (Common.operand reg preg))
      (arg : string) (c : ascii) (t : string) :
  Str.replace ".reuse" "" arg = String c t ->
  Chr.one_of "!~-" c = false ->
  Re.matched (Re.search Pat.texture_dimension_pattern (String c t)) = false ->
  Re.matched (Re.search Pat.texture_component_pattern (String c t)) = false ->
  Re.matched (Re.search Pat.jcal_fun_pattern (String c t)) = false ->
  Re.matched (Re.search Pat.named_depbar_pattern (String c t)) = false ->
  Re.matched (Re.search Pat.sreg_pattern (String c t)) = false ->
  Re.search Pat.const_mem_pattern (String c t) = None ->
  (Str.count "|" (String c t) =? 2)%nat = false ->
  Common.argument_to_object_body Register_init PredicateRegister_init b rec arg
  = (let arg := String c t in
     if String.eqb (Str.slice arg (Some 0%Z) (Some 2%Z)) "CC"
     then Ok (CC_Register_init arg)
     else if Ascii.eqb c "R" then r <- Register_init arg ;; Ok (Register r)
     else if Ascii.eqb c "P"
          then p <- PredicateRegister_init arg ;; Ok (PredicateRegister p)
     else if String.eqb (Str.slice arg (Some 0%Z) (Some 2%Z)) "0x"
          then Ok (HexImmediate arg)
     else if Ascii.eqb c "{" then Ok (Barrier arg)
     else if Re.matched (Re.search Pat.float_pattern arg)
          then Ok (FloatImmediate_init arg)
     else if Re.matched (Re.search Pat.dec_pattern arg) then Ok (DecImmediate arg)
     else if Re.matched (Re.search Pat.address_pattern arg)
          then Common.RegAddress_init b rec arg
     else Raise ValueError).
Proof.
  intros HA Hop H1 H2 H3 H4 H5 H6 H7.
  unfold Common.argument_to_object_body. rewrite HA. cbv zeta.
  rewrite H1, H2, H3, H4, H5, H6, H7. cbn [Str.first bind].
  unfold Chr.one_of in Hop. cbn [list_ascii_of_string existsb] in Hop.
  apply orb_false_elim in Hop. destruct Hop as [O1 Hop].
  apply orb_false_elim in Hop. destruct Hop as [O2 Hop].
  apply orb_false_elim in Hop. destruct Hop as [O3 _].
  rewrite O1, O2, O3. reflexivity.
Qed.

End Cascade.

(** ** Register tokens *)




Lemma texture_component_R_digits (t : string) :
  all Chr.isdigit t = true -> t <> EmptyString ->
  Re.matched (Re.search Pat.texture_component_pattern (String "R" t)) = false.
Proof.
  intros H N. unfold Pat.texture_component_pattern. rewrite search_Bol.
  destruct t as [|d t']; [congruence|].
  cbn [all] in H. apply andb_prop in H. destruct H as [Hd _].
  destruct d as [[] [] [] [] [] [] [] []]; try discriminate Hd;
    destruct t'; reflexivity.
Qed.

(** A pattern anchored at the start, against a text whose first character it
    does not take. *)
Ltac anchored_mismatch :=
  unfold Pat.texture_dimension_pattern, Pat.texture_component_pattern,
    Pat.jcal_fun_pattern, Pat.named_depbar_pattern, Pat.sreg_pattern,
    Pat.const_mem_pattern, Pat.address_pattern;
  rewrite search_Bol; reflexivity.

(** The guards a token "R" followed by digits passes before the rule for
    registers. *)
Section RegisterTokens.

Variables reg preg : Type.
Variable Register_init : string -> result reg.
Variable PredicateRegister_init : string -> result preg.
Variable b : bool.

Lemma classify_R_digits (t : string) :
  all Chr.isdigit t = true -> t <> EmptyString ->
  Common.argument_to_object Register_init PredicateRegister_init b (String "R" t)
  = (r <- Register_init (String "R" t) ;; Ok (Register r)).
Proof.
  intros H N.
  assert (Hdot : Str.replace ".reuse" "" (String "R" t) = String "R" t).
  { apply replace_absent. cbn [Str.count]. apply (count_all Chr.isdigit); [reflexivity|exact H]. }
  unfold Common.argument_to_object. cbn [Common.argument_to_object_fuel].
  rewrite (body_from_CC _ _ _ _ _ _ _ "R"%char t Hdot);
    [ cbv zeta; destruct (slice_0_2_head "R" t) as [t0 ->]; reflexivity
    | reflexivity
    | anchored_mismatch
    | apply texture_component_R_digits; assumption
    | anchored_mismatch | anchored_mismatch | anchored_mismatch | anchored_mismatch
    | cbn [Str.count]; rewrite (count_all Chr.isdigit "|" t eq_refl H); reflexivity ].
Qed.

End RegisterTokens.


Lemma SassAst_Register_init_digits (t : string) :
  all Chr.isdigit t = true ->
  SassAst.Register_init (String "R" t)
  = Ok (SassAst.mkRegister None None false false (String "R" t)).
Proof.
  intros D.
  assert (C : forall o, Chr.isdigit o = false -> Ascii.eqb o "R" = false ->
                        Str.count o (String "R" t) = 0%nat).
  { intros o Ho Hr. cbn [Str.count]. rewrite Hr. apply (count_all Chr.isdigit); assumption. }
  unfold SassAst.Register_init, SassAst.Register_init_with.
  rewrite !(contains_absent "." _ _ (C "."%char eq_refl eq_refl)).
  rewrite (contains_absent "B" _ _ (C "B"%char eq_refl eq_refl)).
  rewrite (split_on_no_sep "." _ (C "."%char eq_refl eq_refl)). reflexivity.
Qed.

(** ** Decimal tokens *)

Lemma digits_then_dot (r : Re.regex) (pv : option ascii) (s : string)
      (k : Re.state -> option Re.state) :
  all Chr.isdigit s = true ->
  Re.exec (Re.Cat (Re.Rep 1 Pat.digit) (Re.Cat (Re.Lit ".") r)) (Re.mkState pv s []) k
  = None.
Proof.
  intros H. cbn [Re.exec Re.prev Re.rest Re.caps].
  apply (rep_none (fun s => all Chr.isdigit s = true)); [apply all_digit_tail| |exact H].
  intros pv' s' H'. cbn [Re.rest]. destruct s' as [|c s']; [reflexivity|].
  cbn [all] in H'. apply andb_prop in H'. destruct H' as [Hc _].
  destruct (digit_facts c Hc) as [_ [_ [_ [_ [E _]]]]]. rewrite E. reflexivity.
Qed.

Lemma exec_Alt_none (r1 r2 : Re.regex) (st : Re.state)
      (k : Re.state -> option Re.state) :
  Re.exec r1 st k = None -> Re.exec (Re.Alt r1 r2) st k = Re.exec r2 st k.
Proof. intros E. cbn [Re.exec]. rewrite E. reflexivity. Qed.

Lemma float_no_match (pv : option ascii) (s : string) :
  all Chr.isdigit s = true -> Re.match_at Pat.float_pattern pv s = None.
Proof.
  intros H. unfold Re.match_at, Pat.float_pattern.
  rewrite exec_Alt_none by exact (digits_then_dot (Re.Str "NEG") pv s Some H).
  rewrite exec_Alt_none by apply (digits_then_dot _ pv s Some H).
  destruct pv; [reflexivity|].
  destruct s as [|c s]; [reflexivity|].
  cbn [all] in H. apply andb_prop in H. destruct H as [Hc _].
  destruct c as [[] [] [] [] [] [] [] []]; try discriminate Hc; reflexivity.
Qed.

Lemma float_digits (s : string) :
  all Chr.isdigit s = true -> Re.search Pat.float_pattern s = None.
Proof.
  unfold Re.search. generalize (@None ascii).
  induction s as [|c s IH]; intros pv H; cbn [Re.search_from];
    rewrite (float_no_match pv _ H); [reflexivity|].
  apply IH, (all_digit_tail c s H).
Qed.

Lemma dec_digits (d : ascii) (t : string) :
  all Chr.isdigit (String d t) = true ->
  Re.matched (Re.search Pat.dec_pattern (String d t)) = true.
Proof.
  intros H. unfold Re.search. cbn [Re.search_from].
  assert (M : exists m, Re.match_at Pat.dec_pattern None (String d t) = Some m).
  { unfold Re.match_at, Pat.dec_pattern.
    cbn [Re.exec Re.prev Re.rest Re.caps Re.next Re.word_at].
    pose proof H as H'. cbn [all] in H'. apply andb_prop in H'. destruct H' as [Hd _].
    destruct (digit_more_facts d Hd) as [W _]. rewrite W. cbn [xorb].
    eexists. rewrite <- (append_empty (String d t)).
    apply (rep_greedy Pat.digit "" [] _ _ (String d t) H eq_refl 1 None).
    - cbn [String.length]. lia.
    - reflexivity. }
  destruct M as [m M]. rewrite M. reflexivity.
Qed.

Lemma texture_dimension_digits (s : string) :
  all Chr.isdigit s = true ->
  Re.matched (Re.search Pat.texture_dimension_pattern s) = false.
Proof.
  intros H. unfold Pat.texture_dimension_pattern. rewrite search_Bol.
  destruct s as [|d [|d2 s']]; try reflexivity.
  - destruct d as [[] [] [] [] [] [] [] []]; reflexivity.
  - cbn [all] in H. apply andb_prop in H. destruct H as [_ H].
    apply andb_prop in H. destruct H as [H2 _].
    destruct (digit_more_facts d2 H2) as [_ [_ [_ [_ [_ [_ [E _]]]]]]].
    unfold Re.match_at. cbn [Re.exec Re.prev Re.rest Re.advance Re.caps].
    rewrite E. destruct (Chr.one_of "12" d); reflexivity.
Qed.

Lemma slice2_digits (d : ascii) (t : string) :
  all Chr.isdigit (String d t) = true ->
  String.eqb (Str.slice (String d t) (Some 0%Z) (Some 2%Z)) "CC" = false
  /\ String.eqb (Str.slice (String d t) (Some 0%Z) (Some 2%Z)) "0x" = false.
Proof.
  intros H. destruct (slice_0_2_head d t) as [t0 E]. rewrite E.
  cbn [all] in H. apply andb_prop in H. destruct H as [Hd Ht]. split.
  - destruct (String.eqb_spec (String d t0) "CC") as [X|]; [|reflexivity].
    inversion X; subst d. discriminate Hd.
  - destruct (String.eqb_spec (String d t0) "0x") as [X|]; [|reflexivity].
    inversion X; subst d t0. destruct t as [|d2 t'].
    + discriminate E.
    + rewrite slice_0_2 in E. inversion E; subst d2. discriminate Ht.
Qed.

Section DecimalTokens.

Variables reg preg : Type.
Variable Register_init : string -> result reg.
Variable PredicateRegister_init : string -> result preg.
Variable b : bool.

Lemma classify_digits (s : string) :
  all Chr.isdigit s = true -> s <> EmptyString ->
  Common.argument_to_object Register_init PredicateRegister_init b s
  = Ok (DecImmediate s).
Proof.
  intros H N. destruct s as [|d t]; [congruence|]. clear N.
  assert (Hdot : Str.replace ".reuse" "" (String d t) = String d t).
  { apply replace_absent. apply (count_all Chr.isdigit); [reflexivity|exact H]. }
  pose proof H as H'. cbn [all] in H'. apply andb_prop in H'. destruct H' as [Hd Ht].
  destruct (digit_more_facts d Hd) as [_ [_ [Op [ER [EP [EB _]]]]]].
  destruct (slice2_digits d t H) as [S1 S2].
  unfold Common.argument_to_object. cbn [Common.argument_to_object_fuel].
  rewrite (body_from_CC _ _ _ _ _ _ _ d t Hdot);
    [ cbv zeta; rewrite S1, S2, ER, EP, EB, float_digits by exact H;
      rewrite dec_digits by exact H; reflexivity
    | exact Op
    | apply texture_dimension_digits, H
    | | | | |
    | rewrite (count_all Chr.isdigit "|" _ eq_refl H); reflexivity ];
    destruct d as [[] [] [] [] [] [] [] []]; try discriminate Hd; anchored_mismatch.
Qed.

End DecimalTokens.

(** ** Bracketed addresses *)

(** *** Steps of the matcher *)













(** *** The address pattern on a register with or without an offset *)



(** *** The other patterns on an address *)









(** *** Strings put together *)



Lemma substring_prefix (q s : string) :
  String.substring 0 (String.length q) (q ++ s) = q.
Proof.
  induction q as [|x q IH]; [destruct s; reflexivity|].
  cbn [String.append String.length String.substring]. rewrite IH. reflexivity.
Qed.

Lemma substring_drop (q t : string) (n : nat) :
  String.substring (String.length q) n (q ++ t) = String.substring 0 n t.
Proof. induction q as [|x q IH]; [reflexivity|]. cbn. exact IH. Qed.



(** *** The address without its brackets *)


Section AddressTokens.

Variables reg preg : Type.
Variable Register_init : string -> result reg.
Variable PredicateRegister_init : string -> result preg.
Variable b : bool.

Local Abbreviation classify :=
  (Common.argument_to_object Register_init PredicateRegister_init b).




End AddressTokens.

(** ** The name of a register *)

Lemma split_on_head_no_sep (sep : ascii) (s : string) :
  Str.count sep (nth 0 (Str.split_on sep s) EmptyString) = 0%nat.
Proof.
  induction s as [|c s IH]; [reflexivity|]. cbn [Str.split_on].
  destruct (Ascii.eqb c sep) eqn:E; [reflexivity|].
  destruct (Str.split_on sep s) as [|t ts]; cbn [nth Str.count] in *;
    rewrite Ascii.eqb_sym, E; [reflexivity|exact IH].
Qed.

Lemma split_on_head_prefix (sep : ascii) (s : string) :
  String.prefix (nth 0 (Str.split_on sep s) EmptyString) s = true.
Proof.
  induction s as [|c s IH]; [reflexivity|]. cbn [Str.split_on].
  destruct (Ascii.eqb c sep); [reflexivity|].
  destruct (Str.split_on sep s) as [|t ts]; cbn [nth String.prefix] in *;
    (destruct (ascii_dec c c) as [_|n]; [|congruence]); [apply prefix_empty|exact IH].
Qed.

Lemma Ast_Register_init_v (symbol : string) (r : Ast.register) :
  Ast.Register_init symbol = Ok r ->
  Ast.v r = nth 0 (Str.split_on "." symbol) EmptyString.
Proof.
  unfold Ast.Register_init. cbn [setattr Ast.Register_properties existsb bind].
  change (if (String.eqb "_v" "num" || (String.eqb "_v" "v" || false)) then _ else _)
    with (@Ok unit tt).
  cbn [bind]. cbv zeta.
  destruct (if String.eqb _ "RZ" then _ else _) as [n|e]; cbn [bind];
    intros H; [|discriminate H].
  inversion H. reflexivity.
Qed.

(** ** The suffix of a negated float *)

Lemma endswith_app (s suf : string) : Str.endswith suf (s ++ suf) = true.
Proof.
  unfold Str.endswith. rewrite length_app.
  replace (String.length s + String.length suf - String.length suf)
    with (String.length s) by lia.
  rewrite substring_drop, substring_all.
  rewrite String.eqb_refl, andb_true_r. apply Nat.leb_le. lia.
Qed.

Lemma slice_drop_last (s : string) (c : ascii) (suf : string) :
  Str.slice (s ++ String c suf) None
            (Some (- Z.of_nat (String.length (String c suf)))%Z) = s.
Proof.
  unfold Str.slice, Str.bound. rewrite length_app.
  replace (- Z.of_nat (String.length (String c suf)) <? 0)%Z with true
    by (symmetry; apply Z.ltb_lt; cbn [String.length]; lia).
  replace (Z.max 0 (Z.of_nat (String.length s + String.length (String c suf))
                    + - Z.of_nat (String.length (String c suf))))
    with (Z.of_nat (String.length s)) by lia.
  rewrite Z.sub_0_r, Nat2Z.id. change (Z.to_nat 0) with 0. apply substring_prefix.
Qed.

(** ** Equality of registers *)


(** * Properties *)

(** ** Statements and instructions on the examples of the specification *)

(** C1, as the specification states it, fails: on the label "L_1" and the
    text "@!P0 BRA L_2" neither module returns a Statement. *)
Lemma Statement_label_operand_is_rejected :
  ~ (exists st, SassAst.Statement_init "L_1" "@!P0 BRA L_2" None = Ok st)
  /\ ~ (exists st, Ast.Statement_init "L_1" "@!P0 BRA L_2" None = Ok st).
Proof.
  split; intros [st H]; vm_compute in H; discriminate H.
Qed.

(** C1, amended: on "L_1" and "@!P0 BRA L_2" the statement parser of
    sass_ast.py finds predicated = true, inverted = true and the predicate
    register P0 (they are the fields of the Statement it builds around an
    instruction the caller supplies), but the instruction parser of both
    modules raises ValueError, because the classifier has no rule for the
    token "L_2"; so no Statement is returned.  With an operand the classifier
    accepts, "@!P0 BRA 0x10", the Statement carries these flags, P0, the
    mnemonic "BRA" and the single operand classified from "0x10". *)
Theorem Statement_guarded_branch :
  (forall i : SassAst.Instruction,
      SassAst.Statement_init "L_1" "@!P0 BRA L_2" (Some i)
      = Ok (mkStatement "L_1" "@!P0 BRA L_2" true true
              (Some (SassAst.mkPredicateRegister "P0" "Bool")) i))
  /\ SassAst.argument_to_object "L_2" = Raise ValueError
  /\ Ast.argument_to_object "L_2" = Raise ValueError
  /\ SassAst.Instruction_init "@!P0 BRA L_2" = Raise ValueError
  /\ Ast.Instruction_init "@!P0 BRA L_2" = Raise ValueError
  /\ SassAst.Statement_init "L_1" "@!P0 BRA L_2" None = Raise ValueError
  /\ SassAst.argument_to_object "0x10" = Ok (HexImmediate "0x10")
  /\ SassAst.Statement_init "L_1" "@!P0 BRA 0x10" None
     = Ok (mkStatement "L_1" "@!P0 BRA 0x10" true true
             (Some (SassAst.mkPredicateRegister "P0" "Bool"))
             (mkInstruction "BRA 0x10" [HexImmediate "0x10"] "BRA")).
Proof.
  repeat split; try (vm_compute; reflexivity).
Qed.

(** C2, as the specification states it, fails: the mnemonic parsed from
    "IADD.CC R1, R2, R3" is not "IADDCC", in either module. *)
Lemma Instruction_dotted_CC_mnemonic_is_not_IADDCC :
  ~ (exists i, SassAst.Instruction_init "IADD.CC R1, R2, R3" = Ok i
               /\ sass_instruction i = "IADDCC")
  /\ ~ (exists i, Ast.Instruction_init "IADD.CC R1, R2, R3" = Ok i
                  /\ sass_instruction i = "IADDCC").
Proof.
  split; intros [i [H E]]; vm_compute in H; inversion H; subst i;
    vm_compute in E; discriminate E.
Qed.

(** C2, amended: the instruction parsed from "IADD.CC R1, R2, R3" has the
    mnemonic "IADD.CCCC", the first token "IADD.CC" with the suffix "CC"
    appended to it, and the operands Register R1, Register R2, Register R3 in
    that order.  The mnemonic is "IADDCC" when the qualifier is on an operand,
    as in "IADD R1.CC, R2, R3". *)
Theorem Instruction_dotted_CC :
  SassAst.Instruction_init "IADD.CC R1, R2, R3"
  = Ok (mkInstruction "IADD.CC R1, R2, R3"
          [Register (SassAst.mkRegister None None false false "R1");
           Register (SassAst.mkRegister None None false false "R2");
           Register (SassAst.mkRegister None None false false "R3")]
          "IADD.CCCC")
  /\ Ast.Instruction_init "IADD.CC R1, R2, R3"
     = Ok (mkInstruction "IADD.CC R1, R2, R3"
             [Register (Ast.mkRegister "R1" None false false 1);
              Register (Ast.mkRegister "R2" None false false 2);
              Register (Ast.mkRegister "R3" None false false 3)]
             "IADD.CCCC")
  /\ Ast.Instruction_init "IADD R1.CC, R2, R3"
     = Ok (mkInstruction "IADD R1.CC, R2, R3"
             [Register (Ast.mkRegister "R1" None true false 1);
              Register (Ast.mkRegister "R2" None false false 2);
              Register (Ast.mkRegister "R3" None false false 3)]
             "IADDCC").
Proof.
  repeat split; vm_compute; reflexivity.
Qed.

(** ** Predicate registers *)

(** C3: in ast.py the constructor of PredicateRegister raises AttributeError
    for every name, because it assigns to the property [v], which has no
    setter; so the classifier of ast.py raises on "PT" and on every token "P"
    followed by digits, instead of returning a predicate register with the
    index -1 or the index the digits denote.  Register, next to it, assigns
    to [_v] and returns.  The classifier of sass_ast.py returns a
    PredicateRegister on these tokens; it carries no index. *)
Theorem PredicateRegister_cannot_be_built :
  (forall v, Ast.PredicateRegister_init v = Raise AttributeError)
  /\ (forall ds : string,
         all Chr.isdigit ds = true ->
         Ast.argument_to_object ("P" ++ ds) = Raise AttributeError
         /\ SassAst.argument_to_object ("P" ++ ds)
            = Ok (PredicateRegister (SassAst.mkPredicateRegister ("P" ++ ds) "Bool")))
  /\ Ast.argument_to_object "P0" = Raise AttributeError
  /\ Ast.argument_to_object "PT" = Raise AttributeError
  /\ Ast.Register_init "R0" = Ok (Ast.mkRegister "R0" None false false 0)
  /\ SassAst.argument_to_object "PT"
     = Ok (PredicateRegister (SassAst.mkPredicateRegister "PT" "Bool")).
Proof.
  split; [reflexivity|].
  split; [|repeat split; vm_compute; reflexivity].
  intros ds H. unfold Ast.argument_to_object, SassAst.argument_to_object.
  split; rewrite classify_predicate by exact H; reflexivity.
Qed.

Lemma PredicateRegister_cannot_be_built_witness :
  all Chr.isdigit "0" = true
  /\ Ast.argument_to_object "P0" = Raise AttributeError
  /\ SassAst.argument_to_object "P0"
     = Ok (PredicateRegister (SassAst.mkPredicateRegister "P0" "Bool")).
Proof.
  split; [reflexivity|].
  apply (proj1 (proj2 PredicateRegister_cannot_be_built) "0"). reflexivity.
Defined.

(** ** Unary operations *)

(** C5: the classifier builds a unary operation whose argument is again a
    unary operation when two different operators are stacked: "!-R1" is the
    logical not of the negation of R1, and "|-R1|" the absolute value of a
    negation, in both modules.  The docstring of UnaryOp in sass_ast.py says
    that unary operations are not nested. *)
Theorem UnaryOp_nests :
  SassAst.argument_to_object "!-R1"
  = Ok (UnaryOp "!"
          (UnaryOp "-" (Register (SassAst.mkRegister None None false false "R1")) false)
          false)
  /\ Ast.argument_to_object "!-R1"
     = Ok (UnaryOp "!"
             (UnaryOp "-" (Register (Ast.mkRegister "R1" None false false 1)) false)
             false)
  /\ SassAst.argument_to_object "|-R1|"
     = Ok (UnaryOp "|"
             (UnaryOp "-" (Register (SassAst.mkRegister None None false false "R1")) false)
             false)
  /\ (exists op argument h1,
         SassAst.argument_to_object "!-R1" = Ok (UnaryOp op argument h1)
         /\ is_UnaryOp argument = true).
Proof.
  repeat split; try (vm_compute; reflexivity).
  do 3 eexists; split; vm_compute; reflexivity.
Qed.

(** ** Tokens no rule recognises *)

(** C6: a token that is not empty once ".reuse" is removed, and that no guard
    of the cascade takes, is rejected with the ValueError of the final
    branch, in both modules.  The empty token is taken by no guard either,
    but both modules raise IndexError on it, from the first guard that reads
    [arg[0]]; so do ".reuse", and "!", "-" and "||", on which the classifier
    calls itself with the empty token. *)
Theorem unrecognised_token_error :
  (forall arg : string,
      String.eqb (Str.replace ".reuse" "" arg) "" = false ->
      some_rule_matches (Str.replace ".reuse" "" arg) = false ->
      SassAst.argument_to_object arg = Raise ValueError
      /\ Ast.argument_to_object arg = Raise ValueError)
  /\ some_rule_matches "" = false
  /\ SassAst.argument_to_object "" = Raise IndexError
  /\ Ast.argument_to_object "" = Raise IndexError
  /\ SassAst.argument_to_object ".reuse" = Raise IndexError
  /\ SassAst.argument_to_object "!" = Raise IndexError
  /\ SassAst.argument_to_object "-" = Raise IndexError
  /\ SassAst.argument_to_object "||" = Raise IndexError.
Proof.
  split.
  - intros arg Hne H. split; apply argument_to_object_unrecognised; assumption.
  - repeat split; vm_compute; reflexivity.
Qed.

Lemma unrecognised_token_error_witness :
  String.eqb (Str.replace ".reuse" "" "L_2") "" = false
  /\ some_rule_matches (Str.replace ".reuse" "" "L_2") = false
  /\ SassAst.argument_to_object "L_2" = Raise ValueError
  /\ Ast.argument_to_object "L_2" = Raise ValueError.
Proof.
  split; [reflexivity|]. split; [reflexivity|].
  apply (proj1 unrecognised_token_error "L_2"); reflexivity.
Defined.

(** ** Addresses *)

(** C8: "[R1+0x4]" is classified as a RegAddress with the base Register R1
    and the offset HexImmediate 0x4, and "[RZ]" as a RegAddress with the base
    Register RZ and no offset, in both modules. *)
Theorem RegAddress_examples :
  SassAst.argument_to_object "[R1+0x4]"
  = Ok (RegAddress (Some (HexImmediate "0x4"))
          (Register (SassAst.mkRegister None None false false "R1")) "R1+0x4")
  /\ SassAst.argument_to_object "[RZ]"
     = Ok (RegAddress None
             (Register (SassAst.mkRegister None None false false "RZ")) "RZ")
  /\ Ast.argument_to_object "[R1+0x4]"
     = Ok (RegAddress (Some (HexImmediate "0x4"))
             (Register (Ast.mkRegister "R1" None false false 1)) "R1+0x4")
  /\ Ast.argument_to_object "[RZ]"
     = Ok (RegAddress None
             (Register (Ast.mkRegister "RZ" None false false (-1))) "RZ").
Proof.
  repeat split; vm_compute; reflexivity.
Qed.

(** ** Condition-code registers *)

(** C9: any two condition-code registers compare equal, whatever their
    names and condition qualifiers, and so do the registers the constructor
    builds from any two symbols; this holds in both modules. *)
Theorem CC_Register_eq_always :
  (forall v1 c1 v2 c2,
      CC_Register_eq (CC_Register v1 c1 : Ast.operand) (CC_Register v2 c2) = true)
  /\ (forall v1 c1 v2 c2,
         CC_Register_eq (CC_Register v1 c1 : SassAst.operand) (CC_Register v2 c2) = true)
  /\ (forall s1 s2,
         CC_Register_eq (CC_Register_init s1 : Ast.operand) (CC_Register_init s2) = true)
  /\ (forall s1 s2,
         CC_Register_eq (CC_Register_init s1 : SassAst.operand) (CC_Register_init s2)
         = true)
  /\ CC_Register_eq (CC_Register_init "CC.NE" : Ast.operand) (CC_Register_init "CC") = true.
Proof.
  repeat split; reflexivity.
Qed.

(** ** The two classifiers *)

(** C4, as stated, fails: on "RX" the classifier of ast.py raises ValueError
    while the one of sass_ast.py returns a Register; on "R1.H0" both return a
    Register but with different selectors; on "P0" the classifier of ast.py
    raises AttributeError while the one of sass_ast.py returns a
    PredicateRegister. *)
Lemma classifiers_disagree :
  agree same_name (Ast.argument_to_object "RX") (SassAst.argument_to_object "RX") = false
  /\ Ast.argument_to_object "RX" = Raise ValueError
  /\ SassAst.argument_to_object "RX"
     = Ok (Register (SassAst.mkRegister None None false false "RX"))
  /\ agree same_fields (Ast.argument_to_object "R1.H0") (SassAst.argument_to_object "R1.H0")
     = false
  /\ Ast.argument_to_object "R1.H0"
     = Ok (Register (Ast.mkRegister "R1" (Some "H0") false false 1))
  /\ SassAst.argument_to_object "R1.H0"
     = Ok (Register (SassAst.mkRegister None None false false "R1"))
  /\ agree same_name (Ast.argument_to_object "P0") (SassAst.argument_to_object "P0") = false.
Proof.
  repeat split; vm_compute; reflexivity.
Qed.

(** C4, amended: for every token on which the classifier of ast.py returns
    an operand, the classifier of sass_ast.py returns an operand of the same
    variant with the same field values, two registers being compared by
    their name [v] alone. *)
Theorem classifiers_agree_where_ast_returns (arg : string) (o : Ast.operand) :
  Ast.argument_to_object arg = Ok o ->
  exists o', SassAst.argument_to_object arg = Ok o' /\ same_operand same_name o o' = true.
Proof.
  apply argument_to_object_fuel_sim.
Qed.

Lemma classifiers_agree_where_ast_returns_witness :
  Ast.argument_to_object "c[0x3][R1+0x4]"
  = Ok (ConstantAccess (HexImmediate "0x3")
          (RegAddress (Some (HexImmediate "0x4"))
             (Register (Ast.mkRegister "R1" None false false 1)) "R1+0x4")
          None)
  /\ exists o',
      SassAst.argument_to_object "c[0x3][R1+0x4]" = Ok o'
      /\ same_operand same_name
           (ConstantAccess (HexImmediate "0x3")
              (RegAddress (Some (HexImmediate "0x4"))
                 (Register (Ast.mkRegister "R1" None false false 1)) "R1+0x4")
              None) o' = true.
Proof.
  split; [vm_compute; reflexivity|].
  apply (classifiers_agree_where_ast_returns "c[0x3][R1+0x4]").
  vm_compute; reflexivity.
Defined.

(** ** Hexadecimal immediates *)

(** C7, as stated, fails: the re-encoding of "0xA" at the width 32 is not
    "#x0000000a", and at the width 16 it is not "#x000a"; the digit keeps its
    case. *)
Lemma to_smt_keeps_case :
  SassAst.to_smt "0xA" 32 <> Ok "#x0000000a"
  /\ SassAst.to_smt "0xA" 16 <> Ok "#x000a".
Proof.
  split; vm_compute; discriminate.
Qed.

(** C7, amended: every token "0x" followed by hexadecimal digits is
    classified as a HexImmediate with that text, in both modules; [to_smt]
    of sass_ast.py on "0xA" returns "#x0000000A" at the width 32, "#x000A" at
    the width 16 and the sixteen digits "#x000000000000000A" at the width 64
    (and "#x0000000a", "#x000a" on "0xa"); on every text it raises ValueError
    for a width other than 16, 32 and 64. *)
Theorem HexImmediate_classified_and_encoded :
  (forall ds : string,
      all ishexdigit ds = true ->
      SassAst.argument_to_object ("0x" ++ ds) = Ok (HexImmediate ("0x" ++ ds))
      /\ Ast.argument_to_object ("0x" ++ ds) = Ok (HexImmediate ("0x" ++ ds)))
  /\ SassAst.to_smt "0xA" 32 = Ok "#x0000000A"
  /\ SassAst.to_smt "0xA" 16 = Ok "#x000A"
  /\ SassAst.to_smt "0xA" 64 = Ok "#x000000000000000A"
  /\ SassAst.to_smt "0xa" 32 = Ok "#x0000000a"
  /\ SassAst.to_smt "0xa" 16 = Ok "#x000a"
  /\ (forall (text : string) (width : Z),
         width <> 16%Z -> width <> 32%Z -> width <> 64%Z ->
         SassAst.to_smt text width = Raise ValueError).
Proof.
  split; [|repeat split; try (vm_compute; reflexivity)].
  - intros ds H. split; apply classify_hex; exact H.
  - intros text width H16 H32 H64. unfold SassAst.to_smt. cbn [existsb].
    destruct (Z.eqb_spec width 32); [contradiction|].
    destruct (Z.eqb_spec width 16); [contradiction|].
    destruct (Z.eqb_spec width 64); [contradiction|]. reflexivity.
Qed.

Lemma HexImmediate_classified_and_encoded_witness :
  all ishexdigit "1f" = true
  /\ SassAst.argument_to_object "0x1f" = Ok (HexImmediate "0x1f")
  /\ (8 <> 16 /\ 8 <> 32 /\ 8 <> 64)%Z
  /\ SassAst.to_smt "0xA" 8 = Raise ValueError.
Proof.
  split; [reflexivity|].
  split; [apply (proj1 HexImmediate_classified_and_encoded "1f"); reflexivity|].
  split; [repeat split; lia|].
  apply (proj2 (proj2 (proj2 (proj2 (proj2 (proj2 HexImmediate_classified_and_encoded))))));
    lia.
Defined.

(** ** Guards the instruction parser does not remove *)

(** C10, as stated, fails on its own example: the instruction parser of
    neither module returns an Instruction for "@P10 BRA 0x10"; it raises
    ValueError, because "BRA" is then read as an operand and the classifier
    rejects it. *)
Lemma Instruction_long_guard_branch_fails :
  ~ (exists i, SassAst.Instruction_init "@P10 BRA 0x10" = Ok i)
  /\ ~ (exists i, Ast.Instruction_init "@P10 BRA 0x10" = Ok i)
  /\ SassAst.Instruction_init "@P10 BRA 0x10" = Raise ValueError
  /\ SassAst.argument_to_object "BRA" = Raise ValueError.
Proof.
  split; [intros [i H]; vm_compute in H; discriminate H|].
  split; [intros [i H]; vm_compute in H; discriminate H|].
  split; vm_compute; reflexivity.
Qed.

(** C10, amended: when the text begins with a guard whose register index
    has two or more digits, followed by a blank, the instruction parser does
    not remove the guard: the guard token is the first token, every token
    after it (the intended mnemonic among them) is passed to the classifier
    in order, and the first error of the classifier is the result; when all
    of them are classified, the Instruction has the guard token as its
    mnemonic, with "CC" appended when the normalised text contains ".CC", and
    these operands.  This holds in both modules. *)
Theorem Instruction_keeps_long_guard
        (bang : bool) (d1 d2 : ascii) (ds : string) (w : ascii) (rest : string) :
  Chr.isdigit d1 = true -> Chr.isdigit d2 = true -> all Chr.isdigit ds = true ->
  Chr.isspace w = true ->
  let guard := long_guard bang d1 d2 ds in
  let kept := String w (Re.sub Pat.guard_pattern "" (Str.replace "] [" "][" rest)) in
  let body := Re.sub Pat.blanks_pattern " " (Str.replace ", " " " kept) in
  SassAst.Instruction_init (guard ++ String w rest)
  = (args <- mapM SassAst.argument_to_object (Str.split (Str.replace ", " " " body)) ;;
     Ok (mkInstruction (guard ++ kept) args
           (if Str.contains ".CC" body then guard ++ "CC" else guard)))
  /\ Ast.Instruction_init (guard ++ String w rest)
     = (args <- mapM Ast.argument_to_object (Str.split (Str.replace ", " " " body)) ;;
        Ok (mkInstruction (guard ++ kept) args
              (if Str.contains ".CC" body then guard ++ "CC" else guard))).
Proof.
  intros H1 H2 Hs Hw. split; apply Instruction_init_long_guard; assumption.
Qed.

Lemma Instruction_keeps_long_guard_witness :
  Chr.isdigit "1" = true /\ Chr.isdigit "0" = true /\ all Chr.isdigit "" = true
  /\ Chr.isspace " " = true
  /\ SassAst.Instruction_init "@P10 RET"
     = Ok (mkInstruction "@P10 RET"
             [Register (SassAst.mkRegister None None false false "RET")] "@P10")
  /\ Ast.Instruction_init "@P10 RET" = Raise ValueError.
Proof.
  do 4 (split; [reflexivity|]).
  exact (Instruction_keeps_long_guard false "1" "0" "" " " "RET"
           eq_refl eq_refl eq_refl eq_refl).
Defined.

(** * Further properties of the parsers *)

(** ** Statements *)

(** X1: in ast.py every statement whose text holds "@" fails with
    ValueError, whatever the label and whether or not an instruction is
    passed: the predicate register of the guard cannot be built, and the
    constructor turns that failure into ValueError. *)
Theorem Ast_Statement_predicated_raises
        (label text : string) (instr : option Ast.Instruction) :
  Str.contains "@" text = true ->
  Ast.Statement_init label text instr = Raise ValueError.
Proof.
  intros H.
  assert (C : Str.contains "@" (Str.replace "] [" "][" text) = true).
  { rewrite contains_char_count in H |- *.
    rewrite count_replace_bracket by reflexivity. exact H. }
  unfold Ast.Statement_init, Common.Statement_init. cbv zeta. rewrite C.
  destruct (Str.split _); reflexivity.
Qed.

Lemma Ast_Statement_predicated_raises_witness :
  Str.contains "@" "@P0 EXIT" = true
  /\ Ast.Statement_init "0x0010" "@P0 EXIT" None = Raise ValueError.
Proof.
  split; [reflexivity|].
  apply (Ast_Statement_predicated_raises "0x0010" "@P0 EXIT" None). reflexivity.
Defined.



(** X3: in sass_ast.py a statement that starts with a guard of one index
    character ("@P0 ", "@!PT ", ...) followed by a text without "@" is
    predicated, inverted exactly when the guard has "!", its predicate
    register is "P" and the index character, its text keeps the guard, and
    its instruction is the one of the text after the guard. *)
Theorem SassAst_Statement_short_guard
        (label : string) (bang : bool) (c w : ascii) (rest : string) :
  isguardindex c = true -> Chr.isspace w = true ->
  Str.contains "@" rest = false ->
  SassAst.Statement_init label (short_guard bang c w ++ rest) None
  = (i <- SassAst.Instruction_init rest ;;
     Ok (mkStatement label (short_guard bang c w ++ Str.replace "] [" "][" rest)
           true bang
           (Some (SassAst.mkPredicateRegister (String "P" (String c "")) "Bool")) i)).
Proof.
  intros Hc Hw Hr.
  exact (Statement_init_short_guard _ _ SassAst.Register_init
           SassAst.PredicateRegister_init true label bang c w rest Hc Hw Hr).
Qed.

Lemma SassAst_Statement_short_guard_witness :
  isguardindex "0" = true /\ Chr.isspace " " = true
  /\ Str.contains "@" "EXIT" = false
  /\ SassAst.Statement_init "L1" "@!P0 EXIT" None
     = Ok (mkStatement "L1" "@!P0 EXIT" true true
             (Some (SassAst.mkPredicateRegister "P0" "Bool"))
             (mkInstruction "EXIT" [] "EXIT")).
Proof.
  do 3 (split; [reflexivity|]).
  exact (SassAst_Statement_short_guard "L1" true "0" " " "EXIT" eq_refl eq_refl eq_refl).
Defined.

(** ** Instructions *)

(** X4: a guard of one index character at the start of the text is invisible
    to the instruction parser: the instruction of the guard followed by a
    text is the instruction of the text alone (same text, mnemonic and
    arguments, or the same error).  Both modules. *)
Theorem Instruction_drops_short_guard (bang : bool) (c w : ascii) (rest : string) :
  isguardindex c = true -> Chr.isspace w = true ->
  Ast.Instruction_init (short_guard bang c w ++ rest) = Ast.Instruction_init rest
  /\ SassAst.Instruction_init (short_guard bang c w ++ rest)
     = SassAst.Instruction_init rest.
Proof.
  intros Hc Hw. split.
  - exact (Instruction_init_short_guard _ _ Ast.Register_init Ast.PredicateRegister_init
             false bang c w rest Hc Hw).
  - exact (Instruction_init_short_guard _ _ SassAst.Register_init
             SassAst.PredicateRegister_init true bang c w rest Hc Hw).
Qed.

Lemma Instruction_drops_short_guard_witness :
  isguardindex "T" = true /\ Chr.isspace " " = true
  /\ Ast.Instruction_init "@PT IADD R1, R2, R3" = Ast.Instruction_init "IADD R1, R2, R3".
Proof.
  do 2 (split; [reflexivity|]).
  exact (proj1 (Instruction_drops_short_guard false "T" " " "IADD R1, R2, R3"
                  eq_refl eq_refl)).
Defined.

(** X5: a text made of blanks only (the empty text included) has no first
    token: the instruction parser fails with IndexError, and so does a
    statement built from it without an instruction, since the text is
    unguarded and the error is not replaced.  Both modules. *)
Theorem blank_text_raises_IndexError (label text : string) :
  all Chr.isspace text = true ->
  Ast.Instruction_init text = Raise IndexError
  /\ SassAst.Instruction_init text = Raise IndexError
  /\ Ast.Statement_init label text None = Raise IndexError
  /\ SassAst.Statement_init label text None = Raise IndexError.
Proof.
  intros H. repeat split.
  - exact (Instruction_init_blank _ _ Ast.Register_init Ast.PredicateRegister_init
             false text H).
  - exact (Instruction_init_blank _ _ SassAst.Register_init
             SassAst.PredicateRegister_init true text H).
  - exact (Statement_init_blank _ _ Ast.Register_init Ast.PredicateRegister_init
             false label text H).
  - exact (Statement_init_blank _ _ SassAst.Register_init
             SassAst.PredicateRegister_init true label text H).
Qed.

Lemma blank_text_raises_IndexError_witness :
  all Chr.isspace "   " = true
  /\ SassAst.Statement_init "L1" "   " None = Raise IndexError.
Proof.
  split; [reflexivity|].
  exact (proj2 (proj2 (proj2 (blank_text_raises_IndexError "L1" "   " eq_refl)))).
Defined.

(** X6: when the text starts with a non-empty token without blank, "@", "]"
    or "," that a blank follows, that token is the mnemonic; the text of the
    instruction is the token and what is left of the rest once "] [" is
    replaced and the guards are removed; the arguments are the classified
    tokens of the rest; and "CC" is appended to the mnemonic exactly when
    ".CC" occurs in the normalised text.  Both modules. *)
Theorem Instruction_first_token (m : string) (w : ascii) (rest : string) :
  m <> EmptyString -> all isplain m = true -> Chr.isspace w = true ->
  let kept := String w (Re.sub Pat.guard_pattern "" (Str.replace "] [" "][" rest)) in
  let body := Re.sub Pat.blanks_pattern " " (Str.replace ", " " " kept) in
  Ast.Instruction_init (m ++ String w rest)
  = (args <- mapM Ast.argument_to_object (Str.split (Str.replace ", " " " body)) ;;
     Ok (mkInstruction (m ++ kept) args
           (if Str.contains ".CC" (m ++ body) then m ++ "CC" else m)))
  /\ SassAst.Instruction_init (m ++ String w rest)
     = (args <- mapM SassAst.argument_to_object
                     (Str.split (Str.replace ", " " " body)) ;;
        Ok (mkInstruction (m ++ kept) args
              (if Str.contains ".CC" (m ++ body) then m ++ "CC" else m))).
Proof.
  intros N P W. split.
  - exact (Instruction_init_first_token _ _ Ast.Register_init Ast.PredicateRegister_init
             false m w rest N P W).
  - exact (Instruction_init_first_token _ _ SassAst.Register_init
             SassAst.PredicateRegister_init true m w rest N P W).
Qed.

Lemma Instruction_first_token_witness :
  "IADD" <> EmptyString /\ all isplain "IADD" = true /\ Chr.isspace " " = true
  /\ SassAst.Instruction_init "IADD R1.CC, R2"
     = Ok (mkInstruction "IADD R1.CC, R2"
             [Register (SassAst.mkRegister None None true false "R1");
              Register (SassAst.mkRegister None None false false "R2")]
             "IADDCC").
Proof.
  assert (N : "IADD" <> EmptyString) by discriminate.
  split; [exact N|]. do 2 (split; [reflexivity|]).
  exact (proj2 (Instruction_first_token "IADD" " " "R1.CC, R2" N eq_refl eq_refl)).
Defined.

(** X7: replacing "] [" by "][" is idempotent, and the instruction parser
    gives the same result on a text and on the text where "] [" is already
    replaced.  Both modules. *)
Theorem Instruction_bracket_normalisation (text : string) :
  Str.replace "] [" "][" (Str.replace "] [" "][" text) = Str.replace "] [" "][" text
  /\ Ast.Instruction_init (Str.replace "] [" "][" text) = Ast.Instruction_init text
  /\ SassAst.Instruction_init (Str.replace "] [" "][" text)
     = SassAst.Instruction_init text.
Proof.
  split; [apply replace_bracket_idempotent|]. split.
  - exact (Instruction_init_replaced _ _ Ast.Register_init Ast.PredicateRegister_init
             false text).
  - exact (Instruction_init_replaced _ _ SassAst.Register_init
             SassAst.PredicateRegister_init true text).
Qed.

(** ** Operands *)

(** X8: for a width of 16, 32 or 64 bits the encoding of a hexadecimal
    immediate is "#x", then zeros up to width/4 digits, then the text without
    its leading "0" and "x" characters; nothing is cut, so its length is 2
    plus the larger of width/4 and the number of digits left. *)
Theorem to_smt_pads_and_never_truncates (text : string) (width : Z) :
  width = 16%Z \/ width = 32%Z \/ width = 64%Z ->
  let val := Str.lstrip "0x" text in
  let digits := Z.to_nat (width / 4) in
  SassAst.to_smt text width
  = Ok ("#x" ++ Str.times "0" (digits - String.length val) ++ val)
  /\ String.length ("#x" ++ Str.times "0" (digits - String.length val) ++ val)
     = 2 + Nat.max digits (String.length val).
Proof.
  intros W val digits. split; [exact (to_smt_value text width W)|].
  cbn [String.append String.length]. rewrite length_app, times_zero_length. lia.
Qed.

Lemma to_smt_pads_and_never_truncates_witness :
  (16 = 16 \/ 16 = 32 \/ 16 = 64)%Z
  /\ SassAst.to_smt "0x12345" 16 = Ok "#x12345"
  /\ String.length "#x12345" = 7.
Proof.
  split; [left; reflexivity|].
  exact (to_smt_pads_and_never_truncates "0x12345" 16 (or_introl eq_refl)).
Defined.

(** X9: a condition-code register built from a symbol with at most one "."
    renders as the symbol again.  Both modules. *)
Theorem CC_Register_renders_its_symbol (symbol : string) :
  Str.count "." symbol <= 1 ->
  Ast.operand_str (CC_Register_init symbol) = Some symbol
  /\ SassAst.operand_str (CC_Register_init symbol) = Some symbol.
Proof.
  intros H. split.
  - exact (CC_Register_str_round_trip _ _ Ast.Register_str Ast.PredicateRegister_str
             symbol H).
  - exact (CC_Register_str_round_trip _ _ SassAst.Register_str
             SassAst.PredicateRegister_str symbol H).
Qed.

Lemma CC_Register_renders_its_symbol_witness :
  Str.count "." "CC.NE" <= 1
  /\ SassAst.operand_str (CC_Register_init "CC.NE") = Some "CC.NE".
Proof.
  assert (H : Str.count "." "CC.NE" <= 1) by (simpl; lia).
  split; [exact H|]. exact (proj2 (CC_Register_renders_its_symbol "CC.NE" H)).
Defined.

(** X10: when the classifier returns a texture dimension or component, a
    simulator function name, a named dependency barrier, a special register,
    a hexadecimal or a decimal immediate, the operand renders as the token
    with its ".reuse" removed.  Both modules. *)
Theorem leaf_operand_renders_its_token (arg : string) :
  (forall o, Ast.argument_to_object arg = Ok o -> is_plain_leaf o = true ->
             Ast.operand_str o = Some (Str.replace ".reuse" "" arg))
  /\ (forall o, SassAst.argument_to_object arg = Ok o -> is_plain_leaf o = true ->
                SassAst.operand_str o = Some (Str.replace ".reuse" "" arg)).
Proof.
  split; intros o H L.
  - exact (argument_to_object_leaf_str _ _ Ast.Register_init Ast.PredicateRegister_init
             false Ast.Register_str Ast.PredicateRegister_str arg o H L).
  - exact (argument_to_object_leaf_str _ _ SassAst.Register_init
             SassAst.PredicateRegister_init true SassAst.Register_str
             SassAst.PredicateRegister_str arg o H L).
Qed.

Lemma leaf_operand_renders_its_token_witness :
  Ast.argument_to_object "SB1.reuse" = Ok (NamedDependencyBarrier "SB1")
  /\ is_plain_leaf (NamedDependencyBarrier "SB1" : Ast.operand) = true
  /\ Ast.operand_str (NamedDependencyBarrier "SB1") = Some "SB1".
Proof.
  split; [vm_compute; reflexivity|]. split; [reflexivity|].
  apply (proj1 (leaf_operand_renders_its_token "SB1.reuse")
               (NamedDependencyBarrier "SB1")); vm_compute; reflexivity.
Defined.

(** X11: "-" in front of a token that does not start with "-" (and holds no
    ".reuse", not exactly two "|", and no "-INF" with the sign) is the
    negation of whatever the classifier makes of the token, flagged h1 when
    the token holds "H1"; it fails as the token fails.  Both modules. *)
Theorem negation_of_token (t : string) :
  Str.contains ".reuse" t = false ->
  (Str.count "|" t =? 2)%nat = false ->
  first_is "-" t = false ->
  Str.contains "-INF" (String "-" t) = false ->
  Ast.argument_to_object (String "-" t)
  = (a <- Ast.argument_to_object t ;; Ok (UnaryOp "-" a (Str.contains "H1" t)))
  /\ SassAst.argument_to_object (String "-" t)
     = (a <- SassAst.argument_to_object t ;; Ok (UnaryOp "-" a (Str.contains "H1" t))).
Proof.
  intros H1 H2 H3 H4. split.
  - exact (classify_negation _ _ Ast.Register_init Ast.PredicateRegister_init false
             t H1 H2 H3 H4).
  - exact (classify_negation _ _ SassAst.Register_init SassAst.PredicateRegister_init
             true t H1 H2 H3 H4).
Qed.

Lemma negation_of_token_witness :
  Str.contains ".reuse" "R1.H1" = false
  /\ (Str.count "|" "R1.H1" =? 2)%nat = false
  /\ first_is "-" "R1.H1" = false
  /\ Str.contains "-INF" "-R1.H1" = false
  /\ Ast.argument_to_object "-R1.H1"
     = Ok (UnaryOp "-" (Register (Ast.mkRegister "R1" (Some "H1") false false 1)) true).
Proof.
  do 4 (split; [reflexivity|]).
  exact (proj1 (negation_of_token "R1.H1" eq_refl eq_refl eq_refl eq_refl)).
Defined.

(** X12: "!" in front of a token that does not start with "!" (and holds no
    ".reuse" and not exactly two "|") is the logical not of whatever the
    classifier makes of the token; it fails as the token fails.  Both
    modules. *)
Theorem logical_not_of_token (t : string) :
  Str.contains ".reuse" t = false ->
  (Str.count "|" t =? 2)%nat = false ->
  first_is "!" t = false ->
  Ast.argument_to_object (String "!" t)
  = (a <- Ast.argument_to_object t ;; Ok (UnaryOp "!" a (Str.contains "H1" t)))
  /\ SassAst.argument_to_object (String "!" t)
     = (a <- SassAst.argument_to_object t ;; Ok (UnaryOp "!" a (Str.contains "H1" t))).
Proof.
  intros H1 H2 H3. split.
  - exact (classify_not _ _ Ast.Register_init Ast.PredicateRegister_init false
             t H1 H2 H3).
  - exact (classify_not _ _ SassAst.Register_init SassAst.PredicateRegister_init
             true t H1 H2 H3).
Qed.

Lemma logical_not_of_token_witness :
  Str.contains ".reuse" "PT" = false
  /\ (Str.count "|" "PT" =? 2)%nat = false
  /\ first_is "!" "PT" = false
  /\ SassAst.argument_to_object "!PT"
     = Ok (UnaryOp "!" (PredicateRegister (SassAst.mkPredicateRegister "PT" "Bool")) false).
Proof.
  do 3 (split; [reflexivity|]).
  exact (proj2 (logical_not_of_token "PT" eq_refl eq_refl eq_refl)).
Defined.

(** X13: a token between two "|" (with no "|" and no ".reuse" inside) is the
    absolute value of whatever the classifier makes of the token; with "-"
    in front of the first "|" it is the negated absolute value of the token
    with every "-" removed from it.  Both modules. *)
Theorem absolute_value_of_token (t : string) :
  Str.contains ".reuse" t = false ->
  Str.count "|" t = 0%nat ->
  Ast.argument_to_object ("|" ++ t ++ "|")
  = (a <- Ast.argument_to_object t ;; Ok (UnaryOp "|" a (Str.contains "H1" t)))
  /\ SassAst.argument_to_object ("|" ++ t ++ "|")
     = (a <- SassAst.argument_to_object t ;; Ok (UnaryOp "|" a (Str.contains "H1" t)))
  /\ Ast.argument_to_object ("-|" ++ t ++ "|")
     = (a <- Ast.argument_to_object (Str.replace "-" "" t) ;;
        Ok (UnaryOp "-|" a (Str.contains "H1" (Str.replace "-" "" t))))
  /\ SassAst.argument_to_object ("-|" ++ t ++ "|")
     = (a <- SassAst.argument_to_object (Str.replace "-" "" t) ;;
        Ok (UnaryOp "-|" a (Str.contains "H1" (Str.replace "-" "" t)))).
Proof.
  intros H1 H2. repeat split.
  - exact (classify_abs _ _ Ast.Register_init Ast.PredicateRegister_init false t H1 H2).
  - exact (classify_abs _ _ SassAst.Register_init SassAst.PredicateRegister_init true
             t H1 H2).
  - exact (classify_neg_abs _ _ Ast.Register_init Ast.PredicateRegister_init false
             t H1 H2).
  - exact (classify_neg_abs _ _ SassAst.Register_init SassAst.PredicateRegister_init
             true t H1 H2).
Qed.

Lemma absolute_value_of_token_witness :
  Str.contains ".reuse" "-R2" = false
  /\ Str.count "|" "-R2" = 0%nat
  /\ SassAst.argument_to_object "-|-R2|"
     = Ok (UnaryOp "-|" (Register (SassAst.mkRegister None None false false "R2")) false).
Proof.
  do 2 (split; [reflexivity|]).
  exact (proj2 (proj2 (proj2 (absolute_value_of_token "-R2" eq_refl eq_refl)))).
Defined.

(** ** Tokens of registers, immediates and addresses *)


(** X15: in sass_ast.py the token "R" followed by one or more decimal digits
    is the register named by the whole token, leading zeros included, with
    no type, no selector and no flag. *)
Theorem SassAst_register_token (ds : string) :
  all Chr.isdigit ds = true -> ds <> EmptyString ->
  SassAst.argument_to_object ("R" ++ ds)
  = Ok (Register (SassAst.mkRegister None None false false ("R" ++ ds))).
Proof.
  intros D N. change ("R" ++ ds) with (String "R" ds).
  unfold SassAst.argument_to_object.
  rewrite (classify_R_digits _ _ SassAst.Register_init SassAst.PredicateRegister_init
             true ds D N).
  rewrite (SassAst_Register_init_digits ds D). reflexivity.
Qed.

Lemma SassAst_register_token_witness :
  all Chr.isdigit "007" = true /\ "007" <> EmptyString
  /\ SassAst.argument_to_object "R007"
     = Ok (Register (SassAst.mkRegister None None false false "R007")).
Proof.
  assert (N : "007" <> EmptyString) by discriminate.
  split; [reflexivity|]. split; [exact N|].
  exact (SassAst_register_token "007" eq_refl N).
Defined.

(** X16: a non-empty token of decimal digits is a decimal immediate holding
    the token.  Both modules. *)
Theorem decimal_token (s : string) :
  all Chr.isdigit s = true -> s <> EmptyString ->
  Ast.argument_to_object s = Ok (DecImmediate s)
  /\ SassAst.argument_to_object s = Ok (DecImmediate s).
Proof.
  intros D N. split.
  - exact (classify_digits _ _ Ast.Register_init Ast.PredicateRegister_init false s D N).
  - exact (classify_digits _ _ SassAst.Register_init SassAst.PredicateRegister_init
             true s D N).
Qed.

Lemma decimal_token_witness :
  all Chr.isdigit "0042" = true /\ "0042" <> EmptyString
  /\ Ast.argument_to_object "0042" = Ok (DecImmediate "0042").
Proof.
  assert (N : "0042" <> EmptyString) by discriminate.
  split; [reflexivity|]. split; [exact N|].
  exact (proj1 (decimal_token "0042" eq_refl N)).
Defined.




(** X19: the name of a register is the part of the symbol before its first
    ".": it holds no "." and the symbol starts with it.  This holds for every
    register sass_ast.py builds, for every register ast.py manages to build,
    and for the name of a condition-code register. *)
Theorem register_name_is_dot_free_prefix (symbol : string) :
  (forall regType,
      Str.count "." (SassAst.v (SassAst.Register_init_with symbol regType)) = 0%nat
      /\ Str.startswith (SassAst.v (SassAst.Register_init_with symbol regType)) symbol
         = true)
  /\ (forall r, Ast.Register_init symbol = Ok r ->
                Str.count "." (Ast.v r) = 0%nat
                /\ Str.startswith (Ast.v r) symbol = true)
  /\ (forall v c, CC_Register_init symbol = (CC_Register v c : Ast.operand) ->
                  Str.count "." v = 0%nat /\ Str.startswith v symbol = true).
Proof.
  split; [|split].
  - intros regType. cbn [SassAst.v SassAst.Register_init_with]. unfold Str.startswith.
    split; [apply split_on_head_no_sep|apply split_on_head_prefix].
  - intros r H. rewrite (Ast_Register_init_v symbol r H). unfold Str.startswith.
    split; [apply split_on_head_no_sep|apply split_on_head_prefix].
  - intros v c H. unfold CC_Register_init in H. cbv zeta in H. inversion H.
    unfold Str.startswith.
    split; [apply split_on_head_no_sep|apply split_on_head_prefix].
Qed.

Lemma register_name_is_dot_free_prefix_witness :
  Ast.Register_init "R4.H1.reuse"
  = Ok (Ast.mkRegister "R4" (Some "H1") false false 4)
  /\ Str.count "." "R4" = 0%nat /\ Str.startswith "R4" "R4.H1.reuse" = true.
Proof.
  split; [vm_compute; reflexivity|].
  apply (proj1 (proj2 (register_name_is_dot_free_prefix "R4.H1.reuse"))
               (Ast.mkRegister "R4" (Some "H1") false false 4)).
  vm_compute; reflexivity.
Defined.

(** X20: a float immediate built from a text that ends in ".NEG" is negated,
    its value is "-" and the text without that suffix, and it renders as
    that value.  Both modules. *)
Theorem FloatImmediate_NEG_suffix (s : string) :
  FloatImmediate_init (s ++ ".NEG") = (FloatImmediate ("-" ++ s) true : Ast.operand)
  /\ Ast.operand_str (FloatImmediate_init (s ++ ".NEG")) = Some ("-" ++ s)
  /\ SassAst.operand_str (FloatImmediate_init (s ++ ".NEG")) = Some ("-" ++ s).
Proof.
  assert (E : forall reg preg : Type,
             @FloatImmediate_init reg preg (s ++ ".NEG") = FloatImmediate ("-" ++ s) true).
  { intros reg preg. unfold FloatImmediate_init. rewrite endswith_app.
    change (Some (-4)%Z) with (Some (- Z.of_nat (String.length ".NEG"))%Z).
    rewrite (slice_drop_last s "." "NEG"). reflexivity. }
  split; [apply E|]. split; rewrite E; reflexivity.
Qed.

(** ** Equality *)

